(** * Chamber session export scripts: embedding and properties

    Shallow embedding of the four export scripts (extract_ch4.py,
    extract_ch4_2.py, extract_ch4_3.py, extract_chambers.py).

    - The DuckDB table JAAR_raw is a list of rows; a connection is the table.
    - Timestamps are whole seconds (Z); the status flag and the readings are
      integers (the scripts only compare the flag with 0 or 1 and never
      inspect the readings).  The status column holds no NULL, so LAG/LEAD
      are NULL exactly at the edge of a partition.
    - A pandas DataFrame is the list of its rows; [iloc] slices follow
      Python's rules for negative and out-of-range bounds.
    - Console output and file writes are collected in an event trace.
      extract_ch4.py and extract_ch4_2.py do not create the result
      directory: [Disk] ends their trace at the first csv file that cannot
      be written. *)

From Stdlib Require Import ZArith Bool Lia Ascii String DecimalString DecimalZ
  DecimalPos List Permutation Sorted.
Import ListNotations.
Open Scope Z_scope.

(** ** Rows of JAAR_raw and data frames *)

Module Raw.
Record t : Type := mk
  { TIMESTAMP : Z;
    CH4 : Z;
    ChamberStatus : Z;
    ChamberID : Z;
    ChamberTC : Z }.
End Raw.

Definition DataFrame : Type := list Raw.t.

(** A connection gives access to the table. *)
Definition connection : Type := list Raw.t.

(** Detected sessions: one row of [all_active_sessions]. *)
Module Session.
Record t : Type := mk
  { ChamberID : Z;
    start_time : Z;
    end_time : Z;
    duration_seconds : Z }.
End Session.

(** ** Python helpers *)

(** Where a slice bound [k] lands in a sequence of [n] items: a negative
    bound counts from the end, and both kinds are clipped to [0, n]. *)
Definition slice_bound (n : nat) (k : Z) : nat :=
  if k <? 0 then Z.to_nat (Z.max 0 (Z.of_nat n + k))
  else Z.to_nat (Z.min k (Z.of_nat n)).

(** [df.iloc[:k]] and [df.iloc[k:]] (also [dfs[:k]], [dfs[k:]]). *)
Definition iloc_to {A : Type} (k : Z) (df : list A) : list A :=
  firstn (slice_bound (List.length df) k) df.

Definition iloc_from {A : Type} (k : Z) (df : list A) : list A :=
  skipn (slice_bound (List.length df) k) df.

(** [df.iloc[i]]: a negative position counts from the end; a position
    outside the frame raises IndexError (here: [None]). *)
Definition iloc {A : Type} (df : list A) (i : Z) : option A :=
  let n := Z.of_nat (List.length df) in
  if (0 <=? i) && (i <? n) then nth_error df (Z.to_nat i)
  else if (- n <=? i) && (i <? 0) then nth_error df (Z.to_nat (n + i))
  else None.

(** [dfs[-1]]. *)
Definition last_item {A : Type} (l : list (list A)) : list A := last l [].

(** [pd.concat(dfs, ignore_index=True)]. *)
Definition pd_concat (dfs : list DataFrame) : DataFrame := concat dfs.

(** [str(n)] for an integer. *)
Definition str (n : Z) : string := NilZero.string_of_int (Z.to_int n).

Definition ends_with_slash (s : string) : bool :=
  match String.length s with
  | O => false
  | S n => match String.get n s with
           | Some c => Ascii.eqb c "/"%char
           | None => false
           end
  end.

(** [os.path.join(dir, name)] for a relative [name]. *)
Definition path_join (dir name : string) : string :=
  if (String.length dir =? 0)%nat then name
  else if ends_with_slash dir then (dir ++ name)%string
  else (dir ++ "/" ++ name)%string.

(** Exceptions the scripts can meet. *)
Inductive exn : Type :=
| IndexError
| UnboundLocalError
| DataSourceError
| TimestampParseError
| WriteError
| OSError
| ValueError.

Inductive result (A : Type) : Type :=
| Ok (a : A)
| Raise (e : exn).
Arguments Ok {A} a.
Arguments Raise {A} e.

(** What a run leaves behind, in order. *)
Inductive event : Type :=
| to_csv (csv_filename : string) (df : DataFrame)
| write_lines (csv_filename : string) (lines : list string)
| append_csv (csv_filename : string) (df : DataFrame)
| print (msg : string).

Definition is_to_csv (e : event) : bool :=
  match e with to_csv _ _ => true | _ => false end.

Definition is_write (e : event) : bool :=
  match e with print _ => false | _ => true end.

(** ** The session-detection queries *)

Module Detector.

(** ORDER BY ChamberID, TIMESTAMP (insertion sort, stable). *)
Definition key_le (a b : Raw.t) : bool :=
  (Raw.ChamberID a <? Raw.ChamberID b)
  || ((Raw.ChamberID a =? Raw.ChamberID b)
      && (Raw.TIMESTAMP a <=? Raw.TIMESTAMP b)).

Fixpoint insert_by {A : Type} (le : A -> A -> bool) (x : A) (l : list A)
  : list A :=
  match l with
  | [] => [x]
  | y :: tl => if le x y then x :: l else y :: insert_by le x tl
  end.

Definition order_by {A : Type} (le : A -> A -> bool) (l : list A) : list A :=
  fold_right (insert_by le) [] l.

(** A row of the CTE with its window columns. *)
Record windowed : Type :=
  { ChamberID : Z;
    TIMESTAMP : Z;
    ChamberStatus : Z;
    prev_status : option Z;
    next_status : option Z }.

(** LAG / LEAD over (PARTITION BY ChamberID ORDER BY TIMESTAMP): the
    neighbour in the sorted table when it is in the same partition. *)
Definition same_partition (r : Raw.t) (o : option Raw.t) : option Z :=
  match o with
  | Some p => if Raw.ChamberID p =? Raw.ChamberID r
              then Some (Raw.ChamberStatus p) else None
  | None => None
  end.

Fixpoint window (prev : option Raw.t) (l : list Raw.t) : list windowed :=
  match l with
  | [] => []
  | r :: tl =>
      {| ChamberID := Raw.ChamberID r;
         TIMESTAMP := Raw.TIMESTAMP r;
         ChamberStatus := Raw.ChamberStatus r;
         prev_status := same_partition r prev;
         next_status := same_partition r (hd_error tl) |}
      :: window (Some r) tl
  end.

Definition active_sessions (JAAR_raw : connection) : list windowed :=
  window None (order_by key_le JAAR_raw).

(** [x = v OR x IS NULL] and [x != v OR x IS NULL]. *)
Definition eq_or_null (x : option Z) (v : Z) : bool :=
  match x with Some s => s =? v | None => true end.

Definition neq_or_null (x : option Z) (v : Z) : bool :=
  match x with Some s => negb (s =? v) | None => true end.

(** session_start / session_end of extract_ch4.py, extract_ch4_2.py and
    extract_chambers.py: (ChamberID, timestamp) pairs. *)
Definition session_start (JAAR_raw : connection) : list (Z * Z) :=
  map (fun w => (ChamberID w, TIMESTAMP w))
    (filter (fun w => negb (ChamberStatus w =? 0)
                      && eq_or_null (prev_status w) 0)
       (active_sessions JAAR_raw)).

Definition session_end (JAAR_raw : connection) : list (Z * Z) :=
  map (fun w => (ChamberID w, TIMESTAMP w))
    (filter (fun w => negb (ChamberStatus w =? 0)
                      && eq_or_null (next_status w) 0)
       (active_sessions JAAR_raw)).

Definition session_le (a b : Session.t) : bool :=
  (Session.ChamberID a <? Session.ChamberID b)
  || ((Session.ChamberID a =? Session.ChamberID b)
      && (Session.start_time a <=? Session.start_time b)).

(** A row of the result.  DATEDIFF('second', start, end) counts the second
    boundaries between the two stamps; on the whole-second stamps of this
    embedding that is their difference. *)
Definition mk_session (c s e : Z) : Session.t :=
  {| Session.ChamberID := c; Session.start_time := s;
     Session.end_time := e; Session.duration_seconds := e - s |}.

(** The LATERAL sub-query: ends of the same chamber later than the start,
    ORDER BY end_time LIMIT 1. *)
Definition lateral (ends : list (Z * Z)) (s : Z * Z) : option Z :=
  hd_error
    (order_by Z.leb
       (map snd
          (filter (fun e => (fst e =? fst s) && (snd s <? snd e)) ends))).

(** fetch_all_sessions of extract_ch4.py and extract_ch4_2.py. *)
Definition fetch_all_sessions (JAAR_raw : connection) : list Session.t :=
  order_by session_le
    (flat_map
       (fun s => match lateral (session_end JAAR_raw) s with
                 | Some e => [mk_session (fst s) (snd s) e]
                 | None => []
                 end)
       (session_start JAAR_raw)).

(** active_periods_query of extract_chambers.py: a plain JOIN on the
    chamber, filtered by end_time > start_time.  ORDER BY ChamberID,
    start_time leaves open the order of rows that share a start; they are
    listed here by end_time, which is one of the orders the database may
    answer. *)
Definition active_periods_query (JAAR_raw : connection) : list Session.t :=
  order_by session_le
    (flat_map
       (fun s =>
          map (fun e => mk_session (fst s) (snd s) (snd e))
            (filter (fun e => (fst s =? fst e) && (snd s <? snd e))
               (session_end JAAR_raw)))
       (session_start JAAR_raw)).

(** extract_ch4_3.py: boundary rows tagged by the CASE expression, whose
    first matching branch wins. *)
Inductive boundary : Type := START | END.

Definition boundary_type (w : windowed) : option boundary :=
  if (ChamberStatus w =? 1) && neq_or_null (prev_status w) 1 then Some START
  else if (ChamberStatus w =? 1) && neq_or_null (next_status w) 1
       then Some END
       else None.

Definition session_boundaries (JAAR_raw : connection)
  : list (windowed * option boundary) :=
  map (fun w => (w, boundary_type w))
    (filter (fun w => (ChamberStatus w =? 1)
                      && (neq_or_null (prev_status w) 1
                          || neq_or_null (next_status w) 1))
       (active_sessions JAAR_raw)).

Definition is_boundary (b : boundary) (o : option boundary) : bool :=
  match b, o with
  | START, Some START => true
  | END, Some END => true
  | _, _ => false
  end.

(** ROW_NUMBER() OVER (PARTITION BY ChamberID ORDER BY TIMESTAMP) on rows
    already sorted by (ChamberID, TIMESTAMP): (ChamberID, TIMESTAMP,
    session_num). *)
Fixpoint row_number (prev : option Z) (n : Z) (l : list (Z * Z))
  : list (Z * Z * Z) :=
  match l with
  | [] => []
  | (c, t) :: tl =>
      let k := match prev with
               | Some p => if p =? c then n + 1 else 1
               | None => 1
               end in
      (c, t, k) :: row_number (Some c) k tl
  end.

Definition numbered (b : boundary) (JAAR_raw : connection)
  : list (Z * Z * Z) :=
  row_number None 0
    (map (fun p => (ChamberID (fst p), TIMESTAMP (fst p)))
       (filter (fun p => is_boundary b (snd p))
          (session_boundaries JAAR_raw))).

Definition session_starts := numbered START.
Definition session_ends := numbered END.

(** A row of the result of extract_ch4_3.py's query. *)
Record numbered_session : Type :=
  { session : Session.t;
    session_num : Z }.

Definition numbered_le (a b : numbered_session) : bool :=
  session_le (session a) (session b).

Definition fetch_all_sessions_3 (JAAR_raw : connection)
  : list numbered_session :=
  order_by numbered_le
    (flat_map
       (fun s =>
          match s with
          | (c, st, n) =>
              flat_map
                (fun e =>
                   match e with
                   | (c', en, n') =>
                       if (c =? c') && (n =? n') && (st <? en)
                       then [{| session := mk_session c st en;
                                session_num := n |}]
                       else []
                   end)
                (session_ends JAAR_raw)
          end)
       (session_starts JAAR_raw)).

End Detector.

(** The per-session data query of extract_ch4.py, extract_ch4_2.py and
    extract_ch4_3.py: rows of the chamber with TIMESTAMP in
    [start_time, end_time], ORDER BY TIMESTAMP. *)
Definition data_query (JAAR_raw : connection) (row : Session.t) : DataFrame :=
  Detector.order_by
    (fun a b => Raw.TIMESTAMP a <=? Raw.TIMESTAMP b)
    (filter
       (fun r => (Raw.ChamberID r =? Session.ChamberID row)
                 && (Session.start_time row <=? Raw.TIMESTAMP r)
                 && (Raw.TIMESTAMP r <=? Session.end_time row))
       JAAR_raw).

(** Binding for code that can raise. *)
Definition bind {A B : Type} (r : result A) (k : A -> result B) : result B :=
  match r with
  | Ok a => k a
  | Raise e => Raise e
  end.

Notation "x <- r ;; k" := (bind r (fun x => k))
  (at level 61, r at next level, right associativity).

(** [df.iloc[i]] as a computation. *)
Definition iloc_row {A : Type} (df : list A) (i : Z) : result A :=
  match iloc df i with
  | Some a => Ok a
  | None => Raise IndexError
  end.

(** How a [while True] loop run with bounded fuel ends. *)
Inductive outcome (S : Type) : Type :=
| Returned (st : S)
| Raised (e : exn)
| OutOfFuel.
Arguments Returned {S} st.
Arguments Raised {S} e.
Arguments OutOfFuel {S}.

(** ** extract_ch4.py: the segmenting variant *)

Module ExtractCh4.

(** The local variables of the loop.  [time_diff] is bound only once the
    first [total_duration >= time_sample] test has succeeded. *)
Record state : Type :=
  { session_count : Z;
    segment_count : Z;
    idx : Z;
    dfs : list DataFrame;
    total_duration : Z;
    time_diff : option Z }.

Definition initial : state :=
  {| session_count := 0; segment_count := 0; idx := 0; dfs := [];
     total_duration := 0; time_diff := None |}.

(** A flushed buffer: [combined_df] with the chamber, the segment counter
    and the session counter at the moment it is saved.
    [flushed_duration] is bookkeeping that the script does not store: the
    part of [total_duration] that leaves the accumulator with this flush
    (its value before the reset minus its value after). *)
Record segment : Type :=
  { chamber_id : Z;
    segment_number : Z;
    at_session : Z;
    combined_df : DataFrame;
    flushed_duration : Z }.

Definition session_key (s : segment) : string :=
  ("Chamber_" ++ str (chamber_id s) ++ "_Segment_"
     ++ str (segment_number s))%string.

Definition csv_filename (result_dir : string) (s : segment) : string :=
  path_join result_dir (session_key s ++ ".csv")%string.

(** Lines 143-149: save the frame, or report that it is empty. *)
Definition save (result_dir : string) (s : segment) : event :=
  if (0 <? length (combined_df s))%nat
  then to_csv (csv_filename result_dir s) (combined_df s)
  else print ("No data found for ChamberID " ++ str (chamber_id s)
                ++ " in session " ++ str (at_session s)
                ++ ". Skipping...")%string.

(** [pd.concat] refuses an empty list of frames. *)
Definition concat_frames (l : list DataFrame) : result DataFrame :=
  match l with
  | [] => Raise ValueError
  | _ => Ok (pd_concat l)
  end.

Section Loop.
(** [con.execute(data_query).df()] for a session row. *)
Variable execute : Session.t -> DataFrame.
Variable all_active_sessions : list Session.t.
Variable time_sample : Z.

Definition _len : Z := Z.of_nat (length all_active_sessions).

(** Lines 104-111: append the frame, split when the total has reached
    the sample time. *)
Definition append (st : state) (duration_seconds : Z) (df : DataFrame)
  : list DataFrame * option Z :=
  let total_duration := total_duration st + duration_seconds in
  if time_sample <=? total_duration then
    let time_diff := total_duration - time_sample + 1 in
    let idx_sep := duration_seconds - time_diff in
    (dfs st ++ [iloc_to idx_sep df; iloc_from idx_sep df], Some time_diff)
  else (dfs st ++ [df], time_diff st).

(** One pass through the body of the loop: the new locals, the flushed
    segment if any, and whether [break] was reached. *)
Definition body (st : state) : result (state * option segment * bool) :=
  let session_count := session_count st + 1 in
  row <- iloc_row all_active_sessions (idx st) ;;
  next_row <- (if idx st <? _len - 1
               then r <- iloc_row all_active_sessions (idx st + 1) ;;
                    Ok (Some r)
               else Ok None) ;;
  let chamber_id := Session.ChamberID row in
  let duration_seconds := Session.duration_seconds row in
  let df := execute row in
  let idx := idx st + 1 in
  let total_duration := total_duration st + duration_seconds in
  let '(dfs, time_diff) := append st duration_seconds df in
  let all_session_processed := _len <=? idx in
  let different_id :=
    match next_row with
    | Some n => negb (Session.ChamberID row =? Session.ChamberID n)
    | None => true
    end in
  let time_exceed := time_sample <? total_duration in
  let time_equal := total_duration =? time_sample in
  if time_exceed || time_equal || different_id || all_session_processed
  then
    let segment_count := segment_count st + 1 in
    if time_exceed && negb different_id then
      combined_df <- concat_frames (iloc_to (-1) dfs) ;;
      match time_diff with
      | None => Raise UnboundLocalError
      | Some residue =>
          Ok ({| ExtractCh4.session_count := session_count;
                 ExtractCh4.segment_count := segment_count;
                 ExtractCh4.idx := idx;
                 ExtractCh4.dfs := [last_item dfs];
                 ExtractCh4.total_duration := residue;
                 ExtractCh4.time_diff := time_diff |},
              Some {| ExtractCh4.chamber_id := chamber_id;
                      segment_number := segment_count;
                      at_session := session_count;
                      ExtractCh4.combined_df := combined_df;
                      flushed_duration := total_duration - residue |},
              all_session_processed)
      end
    else
      combined_df <- concat_frames dfs ;;
      Ok ({| ExtractCh4.session_count := session_count;
             ExtractCh4.segment_count := 0;
             ExtractCh4.idx := idx;
             ExtractCh4.dfs := [];
             ExtractCh4.total_duration := 0;
             ExtractCh4.time_diff := time_diff |},
          Some {| ExtractCh4.chamber_id := chamber_id;
                  segment_number := 0;
                  at_session := session_count;
                  ExtractCh4.combined_df := combined_df;
                  flushed_duration := total_duration |},
          all_session_processed)
  else
    Ok ({| ExtractCh4.session_count := session_count;
           ExtractCh4.segment_count := ExtractCh4.segment_count st;
           ExtractCh4.idx := idx;
           ExtractCh4.dfs := dfs;
           ExtractCh4.total_duration := total_duration;
           ExtractCh4.time_diff := time_diff |},
        None, false).

Definition flushed (o : option segment) : list segment :=
  match o with Some s => [s] | None => [] end.

(** [while(True)]: the segments flushed so far and how the loop ended. *)
Fixpoint while_true (fuel : nat) (st : state)
  : list segment * outcome state :=
  match fuel with
  | O => ([], OutOfFuel)
  | S fuel' =>
      match body st with
      | Raise e => ([], Raised e)
      | Ok (st', o, stop) =>
          if stop : bool then (flushed o, Returned st')
          else let '(rest, r) := while_true fuel' st' in
               (flushed o ++ rest, r)
      end
  end.
End Loop.

(** The whole function: the trace of prints and writes, and how it ended,
    when every csv file can be written ([Disk] below has the other case). *)
Definition extract_chamber_ch4 (fuel : nat) (con : connection)
  (result_dir : string) (time_sample : Z) : list event * outcome state :=
  let all_active_sessions := Detector.fetch_all_sessions con in
  let '(segments, r) :=
    while_true (data_query con) all_active_sessions time_sample fuel
      initial in
  ([print "Fetching all of the active sessions...";
    print ("Found " ++ str (Z.of_nat (length all_active_sessions))
             ++ " active sessions")%string;
    print "Fetching data of the active sessions..."]
     ++ map (save result_dir) segments
     ++ match r with
        | Returned st =>
            [print ("Total sessions processed: "
                      ++ str (session_count st))%string]
        | _ => []
        end,
   r).

(** Exit status of the script: an uncaught exception ends the process
    with status 1. *)
Definition exit_status (r : outcome state) : option Z :=
  match r with
  | Returned _ => Some 0
  | Raised _ => Some 1
  | OutOfFuel => None
  end.

End ExtractCh4.

(** ** extract_ch4_2.py: one file per session *)

Module ExtractCh4_2.

Definition session_key (chamber_id i : Z) : string :=
  ("Chamber_" ++ str chamber_id ++ "_Session_" ++ str i)%string.

Section Loop.
Variable execute : Session.t -> DataFrame.
Variable result_dir : string.

(** Lines 59-95 for position [i]: the new [session_count] and what was
    written or printed. *)
Definition body (session_count i : Z) (row_1 : Session.t) : Z * event :=
  let chamber_id := Session.ChamberID row_1 in
  let df := execute row_1 in
  if (0 <? length df)%nat
  then (session_count + 1,
        to_csv (path_join result_dir (session_key chamber_id i ++ ".csv"))
          df)
  else (session_count,
        print ("No data found for ChamberID " ++ str chamber_id
                 ++ " in session " ++ str i ++ ". Skipping...")%string).

(** [for i in range(_len)], from position [i] on. *)
Fixpoint for_range (i : Z) (rows : list Session.t) (session_count : Z)
  : list event * Z :=
  match rows with
  | [] => ([], session_count)
  | row_1 :: rest =>
      let '(session_count', e) := body session_count i row_1 in
      let '(es, n) := for_range (i + 1) rest session_count' in
      (e :: es, n)
  end.
End Loop.

(** The whole function when every csv file can be written ([Disk] below
    has the other case). *)
Definition extract_chamber_ch4 (con : connection) (result_dir : string)
  : list event :=
  let all_active_sessions := Detector.fetch_all_sessions con in
  let '(es, session_count) :=
    for_range (data_query con) result_dir 0 all_active_sessions 0 in
  [print "Fetching all of the active sessions...";
   print ("Found " ++ str (Z.of_nat (length all_active_sessions))
            ++ " active sessions")%string]
    ++ es
    ++ [print ("Total sessions processed: " ++ str session_count)%string].

End ExtractCh4_2.

(** ** Writing the csv files

    [DataFrame.to_csv] raises OSError when the file cannot be created, for
    instance when the result directory is missing.  extract_ch4.py and
    extract_ch4_2.py never create the directory and do not catch the
    exception, so a run ends at the first csv file that cannot be written.
    [can_write] tells which paths can be written; the traces above are what
    the scripts do as long as every write succeeds. *)

Module Disk.

(** The trace up to the first csv file that cannot be written, and the
    exception that write raises. *)
Fixpoint replay (can_write : string -> bool) (es : list event)
  : list event * option exn :=
  match es with
  | [] => ([], None)
  | to_csv csv_filename df :: rest =>
      if can_write csv_filename
      then let '(done, e) := replay can_write rest in
           (to_csv csv_filename df :: done, e)
      else ([], Some OSError)
  | ev :: rest =>
      let '(done, e) := replay can_write rest in (ev :: done, e)
  end.

(** extract_ch4.py on a disk. *)
Definition extract_ch4 (can_write : string -> bool) (fuel : nat)
  (con : connection) (result_dir : string) (time_sample : Z)
  : list event * outcome ExtractCh4.state :=
  let '(es, r) :=
    ExtractCh4.extract_chamber_ch4 fuel con result_dir time_sample in
  match replay can_write es with
  | (done, Some e) => (done, Raised e)
  | (done, None) => (done, r)
  end.

(** extract_ch4_2.py on a disk. *)
Definition extract_ch4_2 (can_write : string -> bool) (con : connection)
  (result_dir : string) : list event * result unit :=
  match replay can_write (ExtractCh4_2.extract_chamber_ch4 con result_dir)
  with
  | (done, Some e) => (done, Raise e)
  | (done, None) => (done, Ok tt)
  end.

End Disk.

(** ** extract_ch4_3.py: validation, metadata headers, error handling *)

Module ExtractCh4_3.

(** What the connection answers: each query can fail. *)
Record con : Type :=
  { fetch_all_sessions : result (list Detector.numbered_session);
    execute : Detector.numbered_session -> result DataFrame;
    validate_database : list event * bool }.

(** The rest of the world the script touches. *)
Record world : Type :=
  { path_exists : string -> bool;
    duckdb_connect : string -> result con;
    makedirs : string -> result unit;
    to_datetime : Z -> result Z;
    strftime : Z -> string;
    open_w : string -> result unit }.

Definition exn_message (e : exn) : string :=
  match e with
  | IndexError => "IndexError"
  | UnboundLocalError => "UnboundLocalError"
  | DataSourceError => "DataSourceError"
  | TimestampParseError => "TimestampParseError"
  | WriteError => "WriteError"
  | OSError => "OSError"
  | ValueError => "ValueError"
  end.

Definition newline : string := String (ascii_of_nat 10) EmptyString.

(** [f"{x:.1f}"] for a whole number of seconds. *)
Definition fmt_1f (x : Z) : string := (str x ++ ".0")%string.

Section Run.
Variable w : world.
Variable c : con.
Variable result_dir : string.

(** Lines 86-160 for position [i]: the counters and the trace. *)
Definition body (i : Z) (row : Detector.numbered_session)
  (session_count skipped_count : Z) : Z * Z * list event :=
  let chamber_id := Session.ChamberID (Detector.session row) in
  let start_time := Session.start_time (Detector.session row) in
  let end_time := Session.end_time (Detector.session row) in
  let session_num := Detector.session_num row in
  let duration_seconds :=
    Session.duration_seconds (Detector.session row) in
  match (s <- to_datetime w start_time ;;
         e <- to_datetime w end_time ;; Ok (s, e)) with
  | Raise e =>
      (session_count, skipped_count + 1,
       [print ("Error parsing timestamps for session " ++ str i ++ ": "
                 ++ exn_message e)%string])
  | Ok (start_time_dt, _) =>
      match execute c row with
      | Raise e =>
          (session_count, skipped_count + 1,
           [print ("Error processing session " ++ str i ++ ": "
                     ++ exn_message e)%string])
      | Ok df =>
          if (0 <? length df)%nat then
            let start_str := strftime w start_time_dt in
            let session_key :=
              ("Chamber_" ++ str chamber_id ++ "_Session_"
                 ++ str session_num ++ "_" ++ start_str)%string in
            let csv_filename :=
              path_join result_dir (session_key ++ ".csv")%string in
            match open_w w csv_filename with
            | Raise e =>
                (session_count + 1, skipped_count + 1,
                 [print ("Error processing session " ++ str i ++ ": "
                           ++ exn_message e)%string])
            | Ok _ =>
                (session_count + 1, skipped_count,
                 [write_lines csv_filename
                    [("# Chamber ID: " ++ str chamber_id)%string;
                     ("# Session Number: " ++ str session_num)%string;
                     ("# Start Time: " ++ str start_time)%string;
                     ("# End Time: " ++ str end_time)%string;
                     ("# Duration: " ++ fmt_1f duration_seconds
                        ++ " seconds")%string;
                     ("# Data Points: "
                        ++ str (Z.of_nat (length df)))%string;
                     "#"%string];
                  append_csv csv_filename df;
                  print ("Saved: " ++ session_key ++ ".csv ("
                           ++ str (Z.of_nat (length df)) ++ " records, "
                           ++ fmt_1f duration_seconds ++ "s)")%string])
            end
          else
            (session_count, skipped_count + 1,
             [print ("No data found for ChamberID " ++ str chamber_id
                       ++ ", session " ++ str session_num
                       ++ ". Skipping...")%string])
      end
  end.

Fixpoint for_range (i : Z) (rows : list Detector.numbered_session)
  (session_count skipped_count : Z) : Z * Z * list event :=
  match rows with
  | [] => (session_count, skipped_count, [])
  | row :: rest =>
      let '(sc, sk, es) := body i row session_count skipped_count in
      let '(sc', sk', es') := for_range (i + 1) rest sc sk in
      (sc', sk', es ++ es')
  end.

(** The function: its trace, and [Ok tt] when it returns (also through
    the early [return]s) or the exception that escapes it. *)
Definition extract_chamber_ch4 : list event * result unit :=
  match makedirs w result_dir with
  | Raise e => ([], Raise e)
  | Ok _ =>
      match fetch_all_sessions c with
      | Raise e =>
          ([print "Fetching all active sessions...";
            print ("Error fetching sessions: " ++ exn_message e)%string],
           Ok tt)
      | Ok all_active_sessions =>
          let found :=
            [print "Fetching all active sessions...";
             print ("Found "
                      ++ str (Z.of_nat (length all_active_sessions))
                      ++ " active sessions")%string] in
          if (length all_active_sessions =? 0)%nat
          then (found ++ [print "No active sessions found."], Ok tt)
          else
            let '(session_count, skipped_count, es) :=
              for_range 0 all_active_sessions 0 0 in
            (found ++ es
               ++ [print (newline ++ "=== Summary ===")%string;
                   print ("Total sessions found: "
                            ++ str (Z.of_nat (length all_active_sessions)))
                     %string;
                   print ("Successfully processed: "
                            ++ str session_count)%string;
                   print ("Skipped due to errors: "
                            ++ str skipped_count)%string;
                   print ("CSV files saved to: " ++ result_dir)%string],
             Ok tt)
      end
  end.
End Run.

Record args : Type :=
  { db : string;
    result_dir : string;
    validate : bool }.

(** The script's main block: the trace and the exit status of the
    process. *)
Definition main (w : world) (a : args) : list event * Z :=
  if negb (path_exists w (db a))
  then ([print ("Error: Database file '" ++ db a ++ "' not found")%string],
        1)
  else
    match duckdb_connect w (db a) with
    | Raise e => ([print ("Fatal error: " ++ exn_message e)%string], 1)
    | Ok c =>
        let connected :=
          [print ("Connected to database: " ++ db a)%string] in
        let '(checks, valid) :=
          if validate a then validate_database c else ([], true) in
        if negb valid then (connected ++ checks, 1)
        else
          match extract_chamber_ch4 w c (result_dir a) with
          | (es, Raise e) =>
              (connected ++ checks ++ es
                 ++ [print ("Fatal error: " ++ exn_message e)%string], 1)
          | (es, Ok _) => (connected ++ checks ++ es, 0)
          end
    end.

End ExtractCh4_3.

(** ** The loop of extract_ch4.py, session by session

    [body_at] is the body of the loop once the row at [idx] and the rows
    after it are known; [unrolled] runs it over the remaining rows.  They
    are proved equal to [body] and [while_true] below and carry the
    inductions. *)

Module Unrolled.
Import ExtractCh4.

Section Loop.
Variable execute : Session.t -> DataFrame.
Variable time_sample : Z.

(** The next row exists and belongs to the same chamber. *)
Definition same_chamber_next (row : Session.t) (rest : list Session.t)
  : bool :=
  match rest with
  | n :: _ => Session.ChamberID row =? Session.ChamberID n
  | [] => false
  end.

Definition body_at (st : state) (row : Session.t)
  (rest : list Session.t) : state * option segment * bool :=
  let d := Session.duration_seconds row in
  let acc := total_duration st + d in
  let df := execute row in
  let residue := acc - time_sample + 1 in
  let td := if time_sample <=? acc then Some residue else time_diff st in
  let stop := match rest with [] => true | _ => false end in
  if same_chamber_next row rest then
    if acc <? time_sample then
      ({| session_count := session_count st + 1;
          segment_count := segment_count st;
          idx := idx st + 1;
          dfs := dfs st ++ [df];
          total_duration := acc;
          time_diff := td |}, None, false)
    else if time_sample <? acc then
      ({| session_count := session_count st + 1;
          segment_count := segment_count st + 1;
          idx := idx st + 1;
          dfs := [iloc_from (d - residue) df];
          total_duration := residue;
          time_diff := td |},
       Some {| chamber_id := Session.ChamberID row;
               segment_number := segment_count st + 1;
               at_session := session_count st + 1;
               combined_df :=
                 concat (dfs st) ++ iloc_to (d - residue) df;
               flushed_duration := acc - residue |},
       false)
    else
      ({| session_count := session_count st + 1;
          segment_count := 0;
          idx := idx st + 1;
          dfs := [];
          total_duration := 0;
          time_diff := td |},
       Some {| chamber_id := Session.ChamberID row;
               segment_number := 0;
               at_session := session_count st + 1;
               combined_df := concat (dfs st) ++ df;
               flushed_duration := acc |},
       false)
  else
    ({| session_count := session_count st + 1;
        segment_count := 0;
        idx := idx st + 1;
        dfs := [];
        total_duration := 0;
        time_diff := td |},
     Some {| chamber_id := Session.ChamberID row;
             segment_number := 0;
             at_session := session_count st + 1;
             combined_df := concat (dfs st) ++ df;
             flushed_duration := acc |},
     stop).

Fixpoint unrolled (st : state) (rows : list Session.t)
  : list segment * state :=
  match rows with
  | [] => ([], st)
  | row :: rest =>
      let '(st', o, _) := body_at st row rest in
      let '(segs, fin) := unrolled st' rest in
      (flushed o ++ segs, fin)
  end.
End Loop.

(** Rows of the sessions of chamber [c], and of the segments labelled
    [c], in order. *)
Definition session_rows (execute : Session.t -> DataFrame) (c : Z)
  (rows : list Session.t) : DataFrame :=
  concat (map execute
            (filter (fun r => Session.ChamberID r =? c) rows)).

Definition segment_rows (c : Z) (segs : list segment) : DataFrame :=
  concat (map combined_df (filter (fun s => chamber_id s =? c) segs)).

(** What the buffer holds for chamber [c] when [rows] are still to come:
    the buffer belongs to the chamber of the next row. *)
Definition carried (c : Z) (st : state) (rows : list Session.t) : DataFrame :=
  match rows with
  | row :: _ => if Session.ChamberID row =? c then concat (dfs st) else []
  | [] => []
  end.

(** Every row of a segment belongs to the chamber the segment is labelled
    with. *)
Definition pure (s : segment) : Prop :=
  Forall (fun r => Raw.ChamberID r = chamber_id s) (combined_df s).

(** The segments that reach a file: those with at least one row. *)
Definition emitted (segs : list segment) : list segment :=
  filter (fun s => (0 <? length (combined_df s))%nat) segs.



End Unrolled.

(** ** Concrete inputs *)

Module Examples.

Definition raw (c t s : Z) : Raw.t :=
  {| Raw.TIMESTAMP := t; Raw.CH4 := 0; Raw.ChamberStatus := s;
     Raw.ChamberID := c; Raw.ChamberTC := 0 |}.

Definition ses (c s d : Z) : Session.t :=
  {| Session.ChamberID := c; Session.start_time := s;
     Session.end_time := s + d; Session.duration_seconds := d |}.

(** One row per second from the start to the end of the session. *)
Definition one_hz (row : Session.t) : DataFrame :=
  map (fun k => raw (Session.ChamberID row)
                  (Session.start_time row + Z.of_nat k) 1)
    (seq 0 (S (Z.to_nat (Session.duration_seconds row)))).

(** Chamber 7 with durations 150, 100, 200 and one more session. *)
Definition chamber7 : list Session.t :=
  [ses 7 0 150; ses 7 1000 100; ses 7 2000 200; ses 7 3000 100].

(** The locals after the first two sessions of [chamber7]. *)
Definition after_two : ExtractCh4.state :=
  {| ExtractCh4.session_count := 2;
     ExtractCh4.segment_count := 0;
     ExtractCh4.idx := 2;
     ExtractCh4.dfs := [one_hz (ses 7 0 150); one_hz (ses 7 1000 100)];
     ExtractCh4.total_duration := 250;
     ExtractCh4.time_diff := None |}.

(** Chamber 7 active on [0, 150] and [1000, 1100], chamber 8 on
    [0, 50]; one reading at each end of a period. *)
Definition two_chambers : connection :=
  [raw 7 0 1; raw 7 150 1; raw 7 151 0; raw 7 1000 1; raw 7 1100 1;
   raw 7 1101 0; raw 8 0 1; raw 8 50 1; raw 8 51 0].

(** Chamber 7 active on [0, 400] and on [1000, 1400]. *)
Definition twice_400 : connection :=
  [raw 7 0 1; raw 7 400 1; raw 7 401 0; raw 7 1000 1; raw 7 1400 1].

(** Chamber 1 with status 1, 1, 0, 1, 1 at seconds 0 to 4. *)
Definition two_runs : connection :=
  [raw 1 0 1; raw 1 1 1; raw 1 2 0; raw 1 3 1; raw 1 4 1].

(** Chamber 1 with status 1, 0, 1, 1 at seconds 0 to 3: the first
    active period is a single reading. *)
Definition lone_reading : connection :=
  [raw 1 0 1; raw 1 1 0; raw 1 2 1; raw 1 3 1].

(** One reading per second of chamber [c] from second [s] to second [e],
    all with status [st]. *)
Definition readings (c s e st : Z) : list Raw.t :=
  map (fun k => raw c (s + Z.of_nat k) st) (seq 0 (S (Z.to_nat (e - s)))).


(** Chamber 7 at one reading per second: active on [0, 150],
    [1000, 1100] and [2000, 2005], with one idle reading after each
    period. *)
Definition long_sessions : connection :=
  readings 7 0 150 1 ++ [raw 7 151 0]
    ++ readings 7 1000 1100 1 ++ [raw 7 1101 0]
    ++ readings 7 2000 2005 1 ++ [raw 7 2006 0].

(** A session whose data query finds nothing, between two that do. *)
Definition gap_execute (row : Session.t) : DataFrame :=
  if Session.start_time row =? 1000 then [] else one_hz row.

(** A world in which everything works except the session query. *)
Definition broken_con : ExtractCh4_3.con :=
  {| ExtractCh4_3.fetch_all_sessions := Raise DataSourceError;
     ExtractCh4_3.execute := fun _ => Raise DataSourceError;
     ExtractCh4_3.validate_database := ([], true) |}.

Definition broken_world : ExtractCh4_3.world :=
  {| ExtractCh4_3.path_exists := fun _ => true;
     ExtractCh4_3.duckdb_connect := fun _ => Ok broken_con;
     ExtractCh4_3.makedirs := fun _ => Ok tt;
     ExtractCh4_3.to_datetime := fun t => Ok t;
     ExtractCh4_3.strftime := str;
     ExtractCh4_3.open_w := fun _ => Ok tt |}.

Definition default_args : ExtractCh4_3.args :=
  {| ExtractCh4_3.db := "dataset/JAAR_DB.duckdb";
     ExtractCh4_3.result_dir := "result";
     ExtractCh4_3.validate := false |}.

End Examples.

(** ** extract_ch4_3.py: validate_database *)

Module Validate.

(** The row of the summary query. *)
Record summary : Type :=
{ total_records : Z;
  min_time : Z;
  max_time : Z;
  num_chambers : Z;
  active_records : Z }.

(** What the connection answers to SHOW TABLES (the names), to DESCRIBE
  JAAR_raw (the column names) and to the summary query. *)
Record catalog : Type :=
{ show_tables : result (list string);
  describe : result (list string);
  summarize : result summary }.

Definition expected_cols : list string :=
["TIMESTAMP"; "ChamberID"; "ChamberStatus"; "ChamberTC"; "CH4"]%string.

(** [x in values]. *)
Definition mem (x : string) (values : list string) : bool :=
existsb (String.eqb x) values.

(** [repr] of a list of strings: ['a', 'b']. *)
Fixpoint join (sep : string) (l : list string) : string :=
match l with
| [] => ""
| [x] => x
| x :: tl => (x ++ sep ++ join sep tl)%string
end.

Definition repr (l : list string) : string :=
("[" ++ join ", " (map (fun s => "'" ++ s ++ "'") l) ++ "]")%string.

Section Validate.
(** How the four lines of the report are formatted from the summary row
(number formats of the database driver). *)
Variable report : summary -> list string.

(** The function: its messages and its verdict.  Every exception is
caught and turned into [False]. *)
Definition validate_database (c : catalog) : list event * bool :=
match show_tables c with
| Raise e =>
  ([print ("Database validation failed: "
             ++ ExtractCh4_3.exn_message e)%string], false)
| Ok tables =>
  if negb (mem "JAAR_raw" tables)
  then ([print "Error: Table 'JAAR_raw' not found in database"], false)
  else
    match describe c with
    | Raise e =>
        ([print ("Database validation failed: "
                   ++ ExtractCh4_3.exn_message e)%string], false)
    | Ok columns =>
        let missing_cols :=
          filter (fun col => negb (mem col columns)) expected_cols in
        match missing_cols with
        | _ :: _ =>
            ([print ("Error: Missing columns in JAAR_raw: "
                       ++ repr missing_cols)%string], false)
        | [] =>
            match summarize c with
            | Raise e =>
                ([print ("Database validation failed: "
                           ++ ExtractCh4_3.exn_message e)%string], false)
            | Ok s =>
                (print "Database validation successful:"
                   :: map print (report s), true)
            end
        end
    end
end.
End Validate.

End Validate.

(** ** extract_chambers.py: extract_chamber_active_periods *)

Module ExtractChambers.

(** A row of JAAR_raw with the columns this script selects. *)
Module Wide.
Record t : Type := mk
{ TIMESTAMP : Z;
ChamberID : Z;
ChamberStatus : Z;
ChamberTC : Z;
CH4 : Z;
CO2 : Z;
N2O : Z;
H2O_LI7810 : Z;
H2O_LI7820 : Z;
PPFD : Z;
PS01 : Z }.
End Wide.

(** The columns the session query looks at. *)
Definition narrow (r : Wide.t) : Raw.t :=
{| Raw.TIMESTAMP := Wide.TIMESTAMP r;
   Raw.CH4 := Wide.CH4 r;
   Raw.ChamberStatus := Wide.ChamberStatus r;
   Raw.ChamberID := Wide.ChamberID r;
   Raw.ChamberTC := Wide.ChamberTC r |}.

(** A row of a session frame once the metadata columns are added. *)
Record enriched : Type :=
{ reading : Wide.t;
  session_number : Z;
  active_start : Z;
  active_end : Z;
  duration_seconds : Z;
  is_active : bool }.

(** A row of the summary; [F] is the type of the averages. *)
Record summary_row (F : Type) : Type :=
{ session_key : string;
  chamber_id : Z;
  summary_session_number : Z;
  summary_active_start : Z;
  summary_active_end : Z;
  summary_duration_seconds : Z;
  total_records : Z;
  active_records : Z;
  avg_ch4 : F;
  avg_co2 : F;
  avg_temp : F;
  min_timestamp : Z;
  max_timestamp : Z }.
Arguments session_key {F} s.
Arguments chamber_id {F} s.
Arguments total_records {F} s.
Arguments active_records {F} s.
Arguments min_timestamp {F} s.
Arguments max_timestamp {F} s.

Inductive error : Type :=
| KeyError (key : string)
| IndexError.

Inductive outcome (A : Type) : Type :=
| Done (a : A)
| Failed (e : error).
Arguments Done {A} a.
Arguments Failed {A} e.

(** What is written: a session or combined frame, or the summary. *)
Inductive table (F : Type) : Type :=
| Data (rows : list enriched)
| Summary (rows : list (summary_row F)).
Arguments Data {F} rows.
Arguments Summary {F} rows.

Inductive event (F : Type) : Type :=
| to_csv (filename : string) (t : table F)
| to_excel (filename : string) (t : table F)
| print (msg : string).
Arguments to_csv {F} filename t.
Arguments to_excel {F} filename t.
Arguments print {F} msg.

(** [all_chamber_data]: a dict keeps its keys in insertion order, and
  assigning to a key that is present replaces the value in place. *)
Definition dict : Type := list (string * list enriched).

Fixpoint dict_set (k : string) (v : list enriched) (d : dict) : dict :=
match d with
| [] => [(k, v)]
| (k', v') :: tl =>
    if String.eqb k' k then (k', v) :: tl else (k', v') :: dict_set k v tl
end.


(** [Series.min()] and [Series.max()] of a frame with a first row. *)
Definition series_min (first : Z) (rest : list Z) : Z :=
fold_left Z.min rest first.

Definition series_max (first : Z) (rest : list Z) : Z :=
fold_left Z.max rest first.

Definition newline : string := String (ascii_of_nat 10) EmptyString.

Section Run.
(** The averages are floating-point numbers; [mean] is pandas' mean of a
column. *)
Variable F : Type.
Variable mean : list Z -> F.
Variable JAAR_raw : list Wide.t.
Variable output_dir : string.

(** The data query with its buffer. *)
Definition data_query (chamber_id buffer_start buffer_end : Z)
: list Wide.t :=
Detector.order_by
(fun a b => Wide.TIMESTAMP a <=? Wide.TIMESTAMP b)
(filter
   (fun r => (Wide.ChamberID r =? chamber_id)
             && (buffer_start <=? Wide.TIMESTAMP r)
             && (Wide.TIMESTAMP r <=? buffer_end))
   JAAR_raw).

Definition session_key_of (chamber_id session_count : Z) : string :=
("Chamber_" ++ str chamber_id ++ "_Session_" ++ str session_count)%string.

(** Lines 64-123 for one period: the new [session_count] and
[all_chamber_data], and the trace. *)
Definition body (period : Session.t) (session_count : Z)
(all_chamber_data : dict) : Z * dict * list (event F) :=
let chamber_id := Session.ChamberID period in
let start_time := Session.start_time period in
let end_time := Session.end_time period in
let duration := Session.duration_seconds period in
let session_count := session_count + 1 in
let buffer_start := start_time - 5 in
let buffer_end := end_time + 5 in
let messages :=
[print ("Processing Chamber " ++ str chamber_id ++ ", Session "
          ++ str session_count)%string;
 print ("  Active period: " ++ str start_time ++ " to " ++ str end_time
          ++ " (" ++ str duration ++ " seconds)")%string;
 print ("  With buffer: " ++ str buffer_start ++ " to "
          ++ str buffer_end)%string] in
let df := data_query chamber_id buffer_start buffer_end in
if (0 <? List.length df)%nat then
let df :=
  map (fun r => {| reading := r;
                   session_number := session_count;
                   active_start := start_time;
                   active_end := end_time;
                   duration_seconds := duration;
                   is_active := negb (Wide.ChamberStatus r =? 0) |})
    df in
let session_key := session_key_of chamber_id session_count in
let csv_filename := path_join output_dir (session_key ++ ".csv")%string in
let excel_filename :=
  path_join output_dir (session_key ++ ".xlsx")%string in
(session_count,
 dict_set session_key df all_chamber_data,
 messages
   ++ [to_csv csv_filename (Data df);
       to_excel excel_filename (Data df);
       print ("  Saved " ++ str (Z.of_nat (List.length df))
                ++ " records to " ++ csv_filename ++ " and "
                ++ excel_filename)%string])
else
(session_count, all_chamber_data,
 messages ++ [print "  No data found for this period"]).


(** One row of the summary (lines 131-145); [iloc[0]] needs a first
row. *)
Definition summarize (key : string) (df : list enriched)
: outcome (summary_row F) :=
match df with
| [] => Failed IndexError
| first :: rest =>
  Done {| session_key := key;
          chamber_id := Wide.ChamberID (reading first);
          summary_session_number := session_number first;
          summary_active_start := active_start first;
          summary_active_end := active_end first;
          summary_duration_seconds := duration_seconds first;
          total_records := Z.of_nat (List.length df);
          active_records :=
            Z.of_nat (List.length (filter is_active df));
          avg_ch4 := mean (map (fun r => Wide.CH4 (reading r)) df);
          avg_co2 := mean (map (fun r => Wide.CO2 (reading r)) df);
          avg_temp := mean (map (fun r => Wide.ChamberTC (reading r)) df);
          min_timestamp :=
            series_min (Wide.TIMESTAMP (reading first))
              (map (fun r => Wide.TIMESTAMP (reading r)) rest);
          max_timestamp :=
            series_max (Wide.TIMESTAMP (reading first))
              (map (fun r => Wide.TIMESTAMP (reading r)) rest) |}
end.





End Run.

(** Vocabulary of the properties of this script. *)







End ExtractChambers.

Module ChamberFixtures.
Import ExtractChambers.

Definition wide (c t s : Z) : Wide.t :=
Wide.mk t c s 0 0 0 0 0 0 0 0.

(** Chamber 1 active on [10, 11] and [20, 21], chamber 2 on [10, 12], one
  reading per second from 0 on. *)
Definition two_chambers : list Wide.t :=
[wide 1 0 0; wide 1 10 1; wide 1 11 1; wide 1 12 0; wide 1 20 1;
 wide 1 21 1; wide 1 22 0;
 wide 2 9 0; wide 2 10 1; wide 2 12 1; wide 2 13 0].


End ChamberFixtures.

(** ** Sessions as maximal runs of active readings *)

Module Walk.

(** The order of the sorted table, strict: no two readings of a chamber
  share a time stamp. *)
Definition key_lt (a b : Raw.t) : Prop :=
Raw.ChamberID a < Raw.ChamberID b
\/ (Raw.ChamberID a = Raw.ChamberID b /\ Raw.TIMESTAMP a < Raw.TIMESTAMP b).

(** [r] is the last reading of its run: no successor, a successor of
  another chamber, or an idle successor. *)
Definition last_of_run (r : Raw.t) (tl : list Raw.t) : bool :=
match tl with
| n :: _ => negb (Raw.ChamberID n =? Raw.ChamberID r)
            || (Raw.ChamberStatus n =? 0)
| [] => true
end.

(** One pass over the sorted table: [open] is the start of the run the
  walk is in.  A run gives a session from its first to its last reading;
  a run of one reading gives none. *)
Fixpoint walk (open : option Z) (l : list Raw.t) : list Session.t :=
match l with
| [] => []
| r :: tl =>
    if Raw.ChamberStatus r =? 0 then walk None tl
    else
      let start :=
        match open with Some s => s | None => Raw.TIMESTAMP r end in
      if last_of_run r tl
      then (if start <? Raw.TIMESTAMP r
            then [Detector.mk_session (Raw.ChamberID r) start
                    (Raw.TIMESTAMP r)]
            else [])
             ++ walk None tl
      else walk (Some start) tl
end.

(** The filters of session_start and session_end. *)
Definition is_start (w : Detector.windowed) : bool :=
negb (Detector.ChamberStatus w =? 0)
&& Detector.eq_or_null (Detector.prev_status w) 0.

Definition is_end (w : Detector.windowed) : bool :=
negb (Detector.ChamberStatus w =? 0)
&& Detector.eq_or_null (Detector.next_status w) 0.

Definition key (w : Detector.windowed) : Z * Z :=
(Detector.ChamberID w, Detector.TIMESTAMP w).

Definition starts (prev : option Raw.t) (l : list Raw.t) : list (Z * Z) :=
map key (filter is_start (Detector.window prev l)).

Definition ends (prev : option Raw.t) (l : list Raw.t) : list (Z * Z) :=
map key (filter is_end (Detector.window prev l)).

(** The session a start gets from the LATERAL join, if any. *)
Definition paired (E : list (Z * Z)) (s : Z * Z) : list Session.t :=
match Detector.lateral E s with
| Some e => [Detector.mk_session (fst s) (snd s) e]
| None => []
end.

(** The start that is still waiting for its end. *)
Definition pending (open : option Z) (prev : option Raw.t) : list (Z * Z) :=
match open, prev with
| Some s, Some p => [(Raw.ChamberID p, s)]
| _, _ => []
end.

(** [open] agrees with the reading before [l] and the head of [l]. *)
Definition in_step (open : option Z) (prev : option Raw.t) (l : list Raw.t)
: Prop :=
match open with
| Some s =>
    exists p n tl,
      prev = Some p /\ l = n :: tl
      /\ s <= Raw.TIMESTAMP p
      /\ Raw.ChamberStatus p <> 0
      /\ Raw.ChamberID n = Raw.ChamberID p
      /\ Raw.ChamberStatus n <> 0
| None =>
    match l with
    | r :: _ =>
        Raw.ChamberStatus r <> 0 ->
        Detector.eq_or_null (Detector.same_partition r prev) 0 = true
    | [] => True
    end
end.

Definition before (prev : option Raw.t) (l : list Raw.t) : Prop :=
match prev with
| Some p => Forall (key_lt p) l
| None => True
end.

Definition no_lone (prev : option Raw.t) (l : list Raw.t) : Prop :=
Forall (fun w => is_start w && is_end w = false) (Detector.window prev l).

End Walk.

(** Sessions in order and apart: the earlier one is of a smaller chamber,
    or of the same chamber and over before the later one starts. *)
Definition apart (a b : Session.t) : Prop :=
  Session.ChamberID a < Session.ChamberID b
  \/ (Session.ChamberID a = Session.ChamberID b
      /\ Session.end_time a < Session.start_time b).

(** Chamber and time stamp of a reading. *)
Definition reading_key (r : Raw.t) : Z * Z :=
  (Raw.ChamberID r, Raw.TIMESTAMP r).

(** ** Vocabulary of the further properties *)

(** A reading of chamber [c] at second [t] with a non-zero status. *)
Definition active_reading (con : connection) (c t : Z) : Prop :=
  exists r, In r con /\ Raw.ChamberID r = c /\ Raw.TIMESTAMP r = t
            /\ Raw.ChamberStatus r <> 0.

(** Sessions in the order of the final ORDER BY. *)
Definition by_chamber_then_start (a b : Session.t) : Prop :=
  Session.ChamberID a < Session.ChamberID b
  \/ (Session.ChamberID a = Session.ChamberID b
      /\ Session.start_time a <= Session.start_time b).

(** Segment numbers that follow the counter: each is 0 (full flush) or one
    more than the counter before it, and becomes the counter. *)
Fixpoint numbered_from (k : Z) (segs : list ExtractCh4.segment) : Prop :=
  match segs with
  | [] => True
  | s :: rest =>
      (ExtractCh4.segment_number s = 0
       \/ ExtractCh4.segment_number s = k + 1)
      /\ numbered_from (ExtractCh4.segment_number s) rest
  end.

(** A csv file in [result_dir]. *)
Definition csv_in (result_dir : string) (e : event) : Prop :=
  exists name df, e = to_csv (path_join result_dir name) df.

(** A csv file in [result_dir], or a message. *)
Definition csv_in_or_print (result_dir : string) (e : event) : Prop :=
  csv_in result_dir e \/ exists msg, e = print msg.

(** What a saved session leaves behind: the header lines written to a new
    file named after the chamber, the session number and the start, the
    frame of the data query appended to that file, and a message. *)
Definition saved_session (w : ExtractCh4_3.world) (c : ExtractCh4_3.con)
  (result_dir : string) (row : Detector.numbered_session)
  (evs : list event) : Prop :=
  exists df start_dt lines msg,
    ExtractCh4_3.execute c row = Ok df
    /\ ExtractCh4_3.to_datetime w
         (Session.start_time (Detector.session row)) = Ok start_dt
    /\ let session_key :=
         ("Chamber_" ++ str (Session.ChamberID (Detector.session row))
            ++ "_Session_" ++ str (Detector.session_num row) ++ "_"
            ++ ExtractCh4_3.strftime w start_dt)%string in
       let csv_filename :=
         path_join result_dir (session_key ++ ".csv")%string in
       evs = [write_lines csv_filename lines; append_csv csv_filename df;
              print msg].

(** A csv file with at least one row, or a message. *)
Definition nonempty_csv_or_print (e : event) : Prop :=
  match e with
  | to_csv _ df => df <> []
  | print _ => True
  | _ => False
  end.

Fixpoint has_char (ch : ascii) (s : string) : bool :=
  match s with
  | EmptyString => false
  | String c s' => Ascii.eqb c ch || has_char ch s'
  end.

(** The paths of the csv files a trace writes, in order. *)
Definition csv_paths (es : list event) : list string :=
  flat_map (fun e => match e with to_csv p _ => [p] | _ => [] end) es.

(** A reading of chamber [c] at second [t] with status 1. *)
Definition on_reading (con : connection) (c t : Z) : Prop :=
  exists r, In r con /\ Raw.ChamberID r = c /\ Raw.TIMESTAMP r = t
            /\ Raw.ChamberStatus r = 1.

(** ** Further concrete inputs *)

Module Fixtures.

(** A world in which the file system and the clock work, connected to
    [c]. *)
Definition working_world (c : ExtractCh4_3.con) : ExtractCh4_3.world :=
  {| ExtractCh4_3.path_exists := fun _ => true;
     ExtractCh4_3.duckdb_connect := fun _ => Ok c;
     ExtractCh4_3.makedirs := fun _ => Ok tt;
     ExtractCh4_3.to_datetime := fun t => Ok t;
     ExtractCh4_3.strftime := str;
     ExtractCh4_3.open_w := fun _ => Ok tt |}.

(** A connection to [Examples.two_runs] whose data query fails for the
    session numbered 1. *)
Definition flaky_con : ExtractCh4_3.con :=
  {| ExtractCh4_3.fetch_all_sessions :=
       Ok (Detector.fetch_all_sessions_3 Examples.two_runs);
     ExtractCh4_3.execute :=
       fun ns => if Detector.session_num ns =? 1
                 then Raise DataSourceError
                 else Ok (data_query Examples.two_runs (Detector.session ns));
     ExtractCh4_3.validate_database := ([], true) |}.

Definition first_session : Detector.numbered_session :=
  {| Detector.session := Detector.mk_session 1 0 1;
     Detector.session_num := 1 |}.

Definition second_session : Detector.numbered_session :=
  {| Detector.session := Detector.mk_session 1 3 4;
     Detector.session_num := 2 |}.

(** A connection that answers these two sessions and, for each of them, a
    frame with one row per second. *)
Definition steady_con : ExtractCh4_3.con :=
  {| ExtractCh4_3.fetch_all_sessions := Ok [first_session; second_session];
     ExtractCh4_3.execute :=
       fun ns => Ok (Examples.one_hz (Detector.session ns));
     ExtractCh4_3.validate_database := ([], true) |}.

End Fixtures.

(** * Properties *)

(** ** Slices *)

Lemma slice_bound_le (n : nat) (k : Z) : (slice_bound n k <= n)%nat.
Proof.
  unfold slice_bound. destruct (k <? 0) eqn:E.
  - apply Z.ltb_lt in E. lia.
  - apply Z.ltb_ge in E. lia.
Qed.

Lemma iloc_to_from {A : Type} (k : Z) (l : list A) :
  iloc_to k l ++ iloc_from k l = l.
Proof. unfold iloc_to, iloc_from. apply firstn_skipn. Qed.

Lemma iloc_to_minus_one {A : Type} (l : list A) (x : A) :
  iloc_to (-1) (l ++ [x]) = l.
Proof.
  unfold iloc_to, slice_bound. rewrite length_app. cbn [List.length Z.ltb Z.compare].
  replace (Z.to_nat (Z.max 0 (Z.of_nat (List.length l + 1) + -1)))
    with (List.length l + 0)%nat by lia.
  rewrite firstn_app_2. cbn. apply app_nil_r.
Qed.

Lemma last_item_snoc {A : Type} (l : list (list A)) (x : list A) :
  last_item (l ++ [x]) = x.
Proof. unfold last_item. apply last_last. Qed.

Lemma iloc_nth {A : Type} (l : list A) (i : nat) :
  iloc l (Z.of_nat i) = nth_error l i.
Proof.
  unfold iloc. rewrite Nat2Z.id.
  destruct (Z.ltb_spec (Z.of_nat i) (Z.of_nat (List.length l))) as [H | H].
  - replace (0 <=? Z.of_nat i) with true by (symmetry; apply Z.leb_le; lia).
    reflexivity.
  - rewrite andb_false_r.
    replace (Z.of_nat i <? 0) with false by (symmetry; apply Z.ltb_ge; lia).
    rewrite andb_false_r. symmetry. apply nth_error_None. lia.
Qed.

Lemma iloc_middle {A : Type} (pre : list A) (x : A) (post : list A) :
  iloc (pre ++ x :: post) (Z.of_nat (List.length pre)) = Some x.
Proof.
  rewrite iloc_nth, nth_error_app2 by lia.
  rewrite Nat.sub_diag. reflexivity.
Qed.

(** ** The body of the loop at a known position *)

Section BodyAt.
Import ExtractCh4 Unrolled.
Variable execute : Session.t -> DataFrame.
Variable time_sample : Z.

Lemma append_spec (st : state) (d : Z) (df : DataFrame) :
  let acc := total_duration st + d in
  let residue := acc - time_sample + 1 in
  append time_sample st d df =
    if time_sample <=? acc
    then (dfs st ++ [iloc_to (d - residue) df; iloc_from (d - residue) df],
          Some residue)
    else (dfs st ++ [df], time_diff st).
Proof. reflexivity. Qed.

Lemma concat_frames_snoc (l : list DataFrame) (x : DataFrame) :
  concat_frames (l ++ [x]) = Ok (concat l ++ x).
Proof.
  unfold concat_frames, pd_concat.
  rewrite concat_app. cbn [concat]. rewrite app_nil_r.
  destruct (l ++ [x]) eqn:E; [ | reflexivity ].
  destruct l; discriminate E.
Qed.

Lemma concat_frames_split (l : list DataFrame) (k : Z) (df : DataFrame) :
  concat_frames (l ++ [iloc_to k df; iloc_from k df]) = Ok (concat l ++ df).
Proof.
  change (l ++ [iloc_to k df; iloc_from k df])
    with (l ++ [iloc_to k df] ++ [iloc_from k df]).
  rewrite app_assoc, concat_frames_snoc, concat_app.
  cbn [concat]. rewrite app_nil_r, <- app_assoc, iloc_to_from.
  reflexivity.
Qed.

Lemma body_eq (all pre rest : list Session.t) (row : Session.t) (st : state) :
  all = pre ++ row :: rest ->
  idx st = Z.of_nat (List.length pre) ->
  body execute all time_sample st = Ok (body_at execute time_sample st row rest).
Proof.
  intros Hall Hidx. unfold body, iloc_row, _len.
  rewrite Hidx. rewrite Hall at 1. rewrite iloc_middle. cbn [bind].
  assert (Hlen : Z.of_nat (List.length all)
                 = Z.of_nat (List.length pre) + 1 + Z.of_nat (List.length rest)).
  { rewrite Hall, length_app. cbn [List.length]. lia. }
  rewrite append_spec. unfold body_at. rewrite Hidx.
  set (acc := total_duration st + Session.duration_seconds row).
  destruct rest as [ | n rest'].
  - (* last row *)
    cbn [List.length] in Hlen.
    replace (Z.of_nat (List.length pre) <? Z.of_nat (List.length all) - 1)
      with false by (symmetry; apply Z.ltb_ge; lia).
    cbn [bind same_chamber_next].
    replace (Z.of_nat (List.length all) <=? Z.of_nat (List.length pre) + 1)
      with true by (symmetry; apply Z.leb_le; lia).
    rewrite !orb_true_r, andb_false_r.
    destruct (time_sample <=? acc);
      [ rewrite concat_frames_split | rewrite concat_frames_snoc ];
      reflexivity.
  - cbn [List.length] in Hlen.
    replace (Z.of_nat (List.length pre) <? Z.of_nat (List.length all) - 1)
      with true by (symmetry; apply Z.ltb_lt; lia).
    replace (Z.of_nat (List.length pre) + 1)
      with (Z.of_nat (List.length (pre ++ [row]))) at 1
      by (rewrite length_app; cbn [List.length]; lia).
    replace all with ((pre ++ [row]) ++ n :: rest') at 1
      by (rewrite Hall, <- app_assoc; reflexivity).
    rewrite iloc_middle. cbn [bind same_chamber_next].
    replace (Z.of_nat (List.length all) <=? Z.of_nat (List.length pre) + 1)
      with false by (symmetry; apply Z.leb_gt; lia).
    rewrite orb_false_r.
    destruct (Session.ChamberID row =? Session.ChamberID n) eqn:Hc;
      cbn [negb]; rewrite ?orb_true_r, ?orb_false_r, ?andb_true_r, ?andb_false_r.
    + destruct (Z.ltb_spec acc time_sample) as [Hlt | Hge].
      * replace (time_sample <=? acc) with false by (symmetry; apply Z.leb_gt; lia).
        replace (time_sample <? acc) with false by (symmetry; apply Z.ltb_ge; lia).
        replace (acc =? time_sample) with false by (symmetry; apply Z.eqb_neq; lia).
        reflexivity.
      * replace (time_sample <=? acc) with true by (symmetry; apply Z.leb_le; lia).
        destruct (Z.ltb_spec time_sample acc) as [Hgt | Hle].
        -- cbn [orb].
           change (dfs st ++ [iloc_to (Session.duration_seconds row - (acc - time_sample + 1)) (execute row);
                              iloc_from (Session.duration_seconds row - (acc - time_sample + 1)) (execute row)])
             with (dfs st ++ [iloc_to (Session.duration_seconds row - (acc - time_sample + 1)) (execute row)]
                     ++ [iloc_from (Session.duration_seconds row - (acc - time_sample + 1)) (execute row)]).
           rewrite app_assoc, iloc_to_minus_one, last_item_snoc, concat_frames_snoc.
           reflexivity.
        -- replace (acc =? time_sample) with true by (symmetry; apply Z.eqb_eq; lia).
           cbn [orb]. rewrite concat_frames_split. reflexivity.
    + destruct (time_sample <=? acc);
        [ rewrite concat_frames_split | rewrite concat_frames_snoc ];
        reflexivity.
Qed.
End BodyAt.

Section UnrolledFacts.
Import ExtractCh4 Unrolled.
Variable execute : Session.t -> DataFrame.
Variable time_sample : Z.

Abbreviation body_at := (body_at execute time_sample).
Abbreviation unrolled := (unrolled execute time_sample).

Lemma body_at_stop (st : state) (row : Session.t) (rest : list Session.t) :
  snd (body_at st row rest) = match rest with [] => true | _ => false end.
Proof.
  unfold Unrolled.body_at. destruct rest as [ | n rest']; [ reflexivity | ].
  cbn [same_chamber_next].
  destruct (Session.ChamberID row =? Session.ChamberID n);
    [ | reflexivity ].
  destruct (_ <? _); [ reflexivity | ].
  destruct (_ <? _); reflexivity.
Qed.

Lemma body_at_idx (st : state) (row : Session.t) (rest : list Session.t) :
  idx (fst (fst (body_at st row rest))) = idx st + 1.
Proof.
  unfold Unrolled.body_at.
  destruct (same_chamber_next row rest); [ | reflexivity ].
  destruct (_ <? _); [ reflexivity | ].
  destruct (_ <? _); reflexivity.
Qed.

Lemma body_at_session_count (st : state) (row : Session.t)
  (rest : list Session.t) :
  session_count (fst (fst (body_at st row rest))) = session_count st + 1.
Proof.
  unfold Unrolled.body_at.
  destruct (same_chamber_next row rest); [ | reflexivity ].
  destruct (_ <? _); [ reflexivity | ].
  destruct (_ <? _); reflexivity.
Qed.

Lemma unrolled_cons (st : state) (row : Session.t) (rest : list Session.t) :
  unrolled st (row :: rest) =
    (flushed (snd (fst (body_at st row rest)))
       ++ fst (unrolled (fst (fst (body_at st row rest))) rest),
     snd (unrolled (fst (fst (body_at st row rest))) rest)).
Proof.
  cbn [Unrolled.unrolled].
  destruct (body_at st row rest) as [[st' o] stop]. cbn [fst snd].
  destruct (unrolled st' rest). reflexivity.
Qed.

(** With fuel for every remaining row, the loop returns what the unrolled
    run computes. *)
Lemma while_true_unrolled (all : list Session.t) :
  forall (rest pre : list Session.t) (row : Session.t) (st : state)
         (fuel : nat),
    all = pre ++ row :: rest ->
    idx st = Z.of_nat (List.length pre) ->
    (List.length rest < fuel)%nat ->
    while_true execute all time_sample fuel st =
      (fst (unrolled st (row :: rest)),
       Returned (snd (unrolled st (row :: rest)))).
Proof.
  induction rest as [ | n rest' IH]; intros pre row st fuel Hall Hidx Hfuel;
    (destruct fuel as [ | fuel']; [ cbn [List.length] in Hfuel; lia | ]);
    cbn [while_true]; rewrite (body_eq execute time_sample all pre _ row st Hall Hidx);
    rewrite unrolled_cons;
    pose proof (body_at_stop st row) as Hstop;
    pose proof (body_at_idx st row) as Hi.
  - specialize (Hstop []). specialize (Hi []).
    destruct (body_at st row []) as [[st' o] stop].
    cbn [fst snd] in *. subst stop. cbn [Unrolled.unrolled fst snd].
    rewrite app_nil_r. reflexivity.
  - specialize (Hstop (n :: rest')). specialize (Hi (n :: rest')).
    destruct (body_at st row (n :: rest')) as [[st' o] stop].
    cbn [fst snd] in *. subst stop.
    rewrite (IH (pre ++ [row]) n st' fuel').
    + reflexivity.
    + rewrite Hall, <- app_assoc. reflexivity.
    + rewrite Hi, Hidx, length_app. cbn [List.length]. lia.
    + cbn [List.length] in Hfuel. lia.
Qed.

Lemma unrolled_idx (rows : list Session.t) :
  forall st, idx (snd (unrolled st rows)) = idx st + Z.of_nat (List.length rows).
Proof.
  induction rows as [ | row rest IH]; intros st.
  - cbn. lia.
  - rewrite unrolled_cons. cbn [snd]. rewrite IH, body_at_idx.
    cbn [List.length]. lia.
Qed.

Lemma unrolled_session_count (rows : list Session.t) :
  forall st, session_count (snd (unrolled st rows))
             = session_count st + Z.of_nat (List.length rows).
Proof.
  induction rows as [ | row rest IH]; intros st.
  - cbn. lia.
  - rewrite unrolled_cons. cbn [snd]. rewrite IH, body_at_session_count.
    cbn [List.length]. lia.
Qed.
End UnrolledFacts.

Section Conservation.
Import ExtractCh4 Unrolled.
Variable execute : Session.t -> DataFrame.
Variable time_sample : Z.

Abbreviation body_at := (body_at execute time_sample).
Abbreviation unrolled := (unrolled execute time_sample).

Lemma segment_rows_app (c : Z) (l1 l2 : list segment) :
  segment_rows c (l1 ++ l2) = segment_rows c l1 ++ segment_rows c l2.
Proof.
  unfold segment_rows. rewrite filter_app, map_app, concat_app. reflexivity.
Qed.

Lemma session_rows_cons (c : Z) (row : Session.t) (rest : list Session.t) :
  session_rows execute c (row :: rest) =
    (if Session.ChamberID row =? c then execute row else [])
      ++ session_rows execute c rest.
Proof.
  unfold session_rows. cbn [filter].
  destruct (Session.ChamberID row =? c); reflexivity.
Qed.

Lemma iloc_to_from_app {A : Type} (k : Z) (l m : list A) :
  iloc_to k l ++ iloc_from k l ++ m = l ++ m.
Proof. rewrite app_assoc, iloc_to_from. reflexivity. Qed.

Lemma unrolled_rows (c : Z) (rows : list Session.t) :
  forall st,
    segment_rows c (fst (unrolled st rows)) =
      carried c st rows ++ session_rows execute c rows.
Proof.
  induction rows as [ | row rest IH]; intros st; [ reflexivity | ].
  rewrite unrolled_cons. cbn [fst]. rewrite segment_rows_app, IH.
  rewrite session_rows_cons. cbn [carried].
  unfold Unrolled.body_at.
  destruct rest as [ | n rest']; cbn [same_chamber_next fst snd flushed carried].
  - unfold segment_rows. cbn [filter chamber_id].
    destruct (Session.ChamberID row =? c); cbn; rewrite ?app_nil_r; reflexivity.
  - destruct (Session.ChamberID row =? Session.ChamberID n) eqn:Hc.
    + apply Z.eqb_eq in Hc. rewrite <- Hc.
      destruct (_ <? _); [ | destruct (_ <? _) ];
        cbn [fst snd flushed dfs]; unfold segment_rows;
        cbn [filter chamber_id map combined_df concat];
        destruct (Session.ChamberID row =? c);
        cbn [filter chamber_id map combined_df concat app];
        rewrite ?concat_app; cbn [concat];
        rewrite ?app_nil_r, <- ?app_assoc, ?iloc_to_from_app; reflexivity.
    + cbn [fst snd flushed dfs]. unfold segment_rows.
      cbn [filter chamber_id map combined_df concat].
      destruct (Session.ChamberID row =? c);
        cbn [filter chamber_id map combined_df concat app];
        destruct (Session.ChamberID n =? c);
        rewrite ?app_nil_r, <- ?app_assoc; reflexivity.
Qed.

Hypothesis execute_chamber :
  forall row, Forall (fun r => Raw.ChamberID r = Session.ChamberID row)
                (execute row).

Lemma Forall_slices {A : Type} (P : A -> Prop) (k : Z) (l : list A) :
  Forall P l -> Forall P (iloc_to k l) /\ Forall P (iloc_from k l).
Proof.
  intros H. apply Forall_app. rewrite iloc_to_from. exact H.
Qed.

Lemma unrolled_pure (rows : list Session.t) :
  forall st,
    (forall row rest, rows = row :: rest ->
       Forall (fun r => Raw.ChamberID r = Session.ChamberID row)
         (concat (dfs st))) ->
    Forall pure (fst (unrolled st rows)).
Proof.
  induction rows as [ | row rest IH]; intros st Hst; [ constructor | ].
  rewrite unrolled_cons. cbn [fst]. apply Forall_app.
  specialize (Hst row rest eq_refl).
  pose proof (execute_chamber row) as Hrow.
  destruct (Forall_slices _ (Session.duration_seconds row
              - (total_duration st + Session.duration_seconds row - time_sample + 1))
              _ Hrow) as [Hto Hfrom].
  unfold Unrolled.body_at.
  destruct rest as [ | n rest']; cbn [same_chamber_next fst snd flushed].
  - split; [ | constructor ]. repeat constructor. unfold pure. cbn.
    apply Forall_app. split; assumption.
  - destruct (Session.ChamberID row =? Session.ChamberID n) eqn:Hc.
    + apply Z.eqb_eq in Hc.
      destruct (_ <? _); [ | destruct (_ <? _) ]; cbn [fst snd flushed].
      * split; [ constructor | ]. apply IH. intros r' rs' E.
        injection E as <- <-. rewrite <- Hc. cbn [dfs].
        rewrite concat_app. cbn [concat]. rewrite app_nil_r.
        apply Forall_app. split; assumption.
      * split.
        -- repeat constructor. unfold pure. cbn.
           apply Forall_app. split; assumption.
        -- apply IH. intros r' rs' E. injection E as <- <-.
           rewrite <- Hc. cbn [dfs concat]. rewrite app_nil_r. assumption.
      * split.
        -- repeat constructor. unfold pure. cbn.
           apply Forall_app. split; assumption.
        -- apply IH. intros r' rs' E. cbn. constructor.
    + split.
      * repeat constructor. unfold pure. cbn.
        apply Forall_app. split; assumption.
      * apply IH. intros r' rs' E. cbn. constructor.
Qed.
End Conservation.

Section Durations.
Import ExtractCh4 Unrolled.
Variable execute : Session.t -> DataFrame.
Variable time_sample : Z.

Abbreviation body_at := (body_at execute time_sample).
Abbreviation unrolled := (unrolled execute time_sample).

(** The first segment flushed from a run of rows carries the chamber of
    the first row. *)
Lemma unrolled_first (rest : list Session.t) :
  forall (row : Session.t) (st : state),
  exists s segs,
    fst (unrolled st (row :: rest)) = s :: segs
    /\ chamber_id s = Session.ChamberID row.
Proof.
  induction rest as [ | n rest' IH]; intros row st;
    rewrite unrolled_cons; cbn [fst]; unfold Unrolled.body_at;
    cbn [same_chamber_next fst snd flushed].
  - eexists. eexists. split; reflexivity.
  - destruct (Session.ChamberID row =? Session.ChamberID n) eqn:Hc.
    + apply Z.eqb_eq in Hc.
      destruct (_ <? _); [ | destruct (_ <? _) ]; cbn [fst snd flushed].
      * rewrite Hc. apply IH.
      * eexists. eexists. split; reflexivity.
      * eexists. eexists. split; reflexivity.
    + eexists. eexists. split; reflexivity.
Qed.

End Durations.

(** ** Whole runs of the segmenting loop *)

Lemma while_true_run (execute : Session.t -> DataFrame)
  (all : list Session.t) (time_sample : Z) (fuel : nat) :
  all <> [] ->
  (List.length all <= fuel)%nat ->
  ExtractCh4.while_true execute all time_sample fuel ExtractCh4.initial =
    (fst (Unrolled.unrolled execute time_sample ExtractCh4.initial all),
     Returned (snd (Unrolled.unrolled execute time_sample ExtractCh4.initial
                      all))).
Proof.
  intros Hne Hfuel. destruct all as [ | row rest]; [ congruence | ].
  apply (while_true_unrolled execute time_sample (row :: rest) rest []).
  - reflexivity.
  - reflexivity.
  - cbn [List.length] in Hfuel. lia.
Qed.

Lemma segment_rows_emitted (c : Z) (segs : list ExtractCh4.segment) :
  Unrolled.segment_rows c (Unrolled.emitted segs) = Unrolled.segment_rows c segs.
Proof.
  unfold Unrolled.segment_rows, Unrolled.emitted.
  induction segs as [ | s segs IH]; [ reflexivity | ].
  cbn [filter].
  destruct (0 <? List.length (ExtractCh4.combined_df s))%nat eqn:E.
  - cbn [filter]. destruct (ExtractCh4.chamber_id s =? c); [ | exact IH ].
    cbn [map concat]. rewrite IH. reflexivity.
  - rewrite IH. destruct (ExtractCh4.chamber_id s =? c); [ | reflexivity ].
    cbn [map concat]. apply Nat.ltb_ge in E.
    destruct (ExtractCh4.combined_df s); [ reflexivity | cbn in E; lia ].
Qed.

(** ** The data query *)

Lemma insert_by_Forall {A : Type} (P : A -> Prop) (le : A -> A -> bool)
  (x : A) (l : list A) :
  P x -> Forall P l -> Forall P (Detector.insert_by le x l).
Proof.
  intros Hx Hl. induction Hl as [ | y tl Hy Htl IH]; cbn.
  - repeat constructor. exact Hx.
  - destruct (le x y); repeat constructor; assumption.
Qed.

Lemma order_by_Forall {A : Type} (P : A -> Prop) (le : A -> A -> bool)
  (l : list A) :
  Forall P l -> Forall P (Detector.order_by le l).
Proof.
  unfold Detector.order_by. induction 1 as [ | x tl Hx Htl IH]; cbn.
  - constructor.
  - apply insert_by_Forall; assumption.
Qed.

Lemma data_query_chamber (con : connection) (row : Session.t) :
  Forall (fun r => Raw.ChamberID r = Session.ChamberID row)
    (data_query con row).
Proof.
  unfold data_query. apply order_by_Forall. apply Forall_forall.
  intros r Hr. apply filter_In in Hr. destruct Hr as [_ Hr].
  apply andb_prop in Hr. destruct Hr as [Hr _].
  apply andb_prop in Hr. destruct Hr as [Hr _].
  apply Z.eqb_eq. exact Hr.
Qed.

(** ** The split (C1) *)

(** The state [Examples.after_two] is where the loop stands after the
    first two sessions of [Examples.chamber7]. *)
Lemma after_two_reached :
  exists st1,
    ExtractCh4.body Examples.one_hz Examples.chamber7 400 ExtractCh4.initial
    = Ok (st1, None, false)
    /\ ExtractCh4.body Examples.one_hz Examples.chamber7 400 st1
       = Ok (Examples.after_two, None, false).
Proof. eexists. split; vm_compute; reflexivity. Qed.

Lemma chamber7_third_step :
  exists st' seg,
    ExtractCh4.body Examples.one_hz Examples.chamber7 400 Examples.after_two
    = Ok (st', Some seg, false)
    /\ ExtractCh4.total_duration st' = 51.
Proof. eexists. eexists. split; [ vm_compute | ]; reflexivity. Qed.

(** C1 (as amended): when appending a session takes the accumulated
    duration above the sample time and the next session belongs to the same
    chamber, the loop sheds [overflow + 1] seconds, where
    [overflow = acc - time_sample]: the appended frame is cut at row index
    [duration_seconds - (overflow + 1)], the rows before the cut are flushed
    with the buffer as one segment accounting for [time_sample - 1]
    seconds, the rows from the cut on become the new buffer, and the
    accumulated duration restarts at [overflow + 1]. *)
Theorem C1_split_sheds_overflow_plus_one :
  forall (execute : Session.t -> DataFrame) (all pre rest : list Session.t)
         (row n : Session.t) (time_sample : Z) (st : ExtractCh4.state),
    all = pre ++ row :: n :: rest ->
    ExtractCh4.idx st = Z.of_nat (List.length pre) ->
    Session.ChamberID row = Session.ChamberID n ->
    time_sample < ExtractCh4.total_duration st + Session.duration_seconds row ->
    let overflow :=
      ExtractCh4.total_duration st + Session.duration_seconds row
      - time_sample in
    let idx_sep := Session.duration_seconds row - (overflow + 1) in
    exists st' seg,
      ExtractCh4.body execute all time_sample st = Ok (st', Some seg, false)
      /\ ExtractCh4.combined_df seg
         = concat (ExtractCh4.dfs st) ++ iloc_to idx_sep (execute row)
      /\ ExtractCh4.flushed_duration seg = time_sample - 1
      /\ ExtractCh4.segment_number seg = ExtractCh4.segment_count st + 1
      /\ ExtractCh4.dfs st' = [iloc_from idx_sep (execute row)]
      /\ ExtractCh4.total_duration st' = overflow + 1.
Proof.
  intros execute all pre rest row n time_sample st Hall Hidx Hc Hgt
    overflow idx_sep.
  rewrite (body_eq execute time_sample all pre (n :: rest) row st Hall Hidx).
  unfold Unrolled.body_at. cbn [Unrolled.same_chamber_next].
  rewrite (proj2 (Z.eqb_eq _ _) Hc).
  replace (ExtractCh4.total_duration st + Session.duration_seconds row
           <? time_sample) with false by (symmetry; apply Z.ltb_ge; lia).
  rewrite (proj2 (Z.ltb_lt _ _) Hgt).
  eexists. eexists. split; [ reflexivity | ].
  cbn. subst idx_sep overflow.
  repeat split; try reflexivity; lia.
Qed.

(** The example of C1 run on the code: sample time 400, chamber 7 with
    durations 150, 100, 200 and one more session.  The third frame (rows
    for seconds 2000..2200) is cut at row index 149. *)
Lemma C1_split_witness :
  exists st' seg,
    ExtractCh4.body Examples.one_hz Examples.chamber7 400 Examples.after_two
    = Ok (st', Some seg, false)
    /\ ExtractCh4.combined_df seg
       = Examples.one_hz (Examples.ses 7 0 150)
           ++ Examples.one_hz (Examples.ses 7 1000 100)
           ++ firstn 149 (Examples.one_hz (Examples.ses 7 2000 200))
    /\ ExtractCh4.flushed_duration seg = 399
    /\ ExtractCh4.session_key seg = "Chamber_7_Segment_1"%string
    /\ ExtractCh4.dfs st'
       = [skipn 149 (Examples.one_hz (Examples.ses 7 2000 200))]
    /\ ExtractCh4.total_duration st' = 51.
Proof.
  destruct (C1_split_sheds_overflow_plus_one Examples.one_hz
              Examples.chamber7
              [Examples.ses 7 0 150; Examples.ses 7 1000 100]
              []
              (Examples.ses 7 2000 200) (Examples.ses 7 3000 100)
              400 Examples.after_two
              eq_refl eq_refl eq_refl eq_refl)
    as (st' & seg & Hbody & Hdf & Hdur & Hnum & Hdfs & Htot).
  exists st', seg.
  split; [ exact Hbody | ].
  split; [ rewrite Hdf; vm_compute; reflexivity | ].
  split; [ exact Hdur | ].
  split; [ unfold ExtractCh4.session_key; rewrite Hnum;
           vm_compute in Hbody; injection Hbody as _ Hseg; rewrite <- Hseg;
           reflexivity | ].
  split; [ rewrite Hdfs; vm_compute; reflexivity | exact Htot ].
Defined.

(** The claim as first stated (the residue is [acc - time_sample] and the
    cut is at [duration_seconds - (acc - time_sample)]) fails on the
    example: the residue is 51, not 50, and the cut is at 149, not 150. *)
Lemma C1_counterexample :
  ~ (forall (execute : Session.t -> DataFrame) (all pre rest : list Session.t)
            (row n : Session.t) (time_sample : Z)
            (st st' : ExtractCh4.state) (seg : ExtractCh4.segment),
        all = pre ++ row :: n :: rest ->
        ExtractCh4.idx st = Z.of_nat (List.length pre) ->
        Session.ChamberID row = Session.ChamberID n ->
        time_sample
        < ExtractCh4.total_duration st + Session.duration_seconds row ->
        ExtractCh4.body execute all time_sample st
        = Ok (st', Some seg, false) ->
        let overflow :=
          ExtractCh4.total_duration st + Session.duration_seconds row
          - time_sample in
        ExtractCh4.total_duration st' = overflow
        /\ ExtractCh4.dfs st'
           = [iloc_from (Session.duration_seconds row - overflow)
                (execute row)]).
Proof.
  intros H.
  destruct chamber7_third_step as (st' & seg & Hbody & Htot).
  specialize (H Examples.one_hz Examples.chamber7
                [Examples.ses 7 0 150; Examples.ses 7 1000 100]
                []
                (Examples.ses 7 2000 200) (Examples.ses 7 3000 100)
                400 Examples.after_two st' seg
                eq_refl eq_refl eq_refl eq_refl Hbody).
  cbv zeta in H. destruct H as [H _]. rewrite Htot in H. discriminate H.
Qed.

(** ** The exact match (C6) *)

(** C6: when the accumulated duration equals the sample time after a
    session is appended, the whole buffer together with all rows of that
    session is flushed as one segment, the new buffer is empty and the
    accumulated duration restarts at 0. *)
Theorem C6_exact_match_flushes_everything :
  forall (execute : Session.t -> DataFrame) (all pre rest : list Session.t)
         (row : Session.t) (time_sample : Z) (st : ExtractCh4.state),
    all = pre ++ row :: rest ->
    ExtractCh4.idx st = Z.of_nat (List.length pre) ->
    ExtractCh4.total_duration st + Session.duration_seconds row
    = time_sample ->
    exists st' seg stop,
      ExtractCh4.body execute all time_sample st = Ok (st', Some seg, stop)
      /\ ExtractCh4.combined_df seg
         = concat (ExtractCh4.dfs st) ++ execute row
      /\ ExtractCh4.chamber_id seg = Session.ChamberID row
      /\ ExtractCh4.flushed_duration seg = time_sample
      /\ ExtractCh4.dfs st' = []
      /\ ExtractCh4.total_duration st' = 0.
Proof.
  intros execute all pre rest row time_sample st Hall Hidx Heq.
  rewrite (body_eq execute time_sample all pre rest row st Hall Hidx).
  unfold Unrolled.body_at. rewrite Heq, !Z.ltb_irrefl.
  destruct (Unrolled.same_chamber_next row rest);
    eexists; eexists; eexists; (split; [ reflexivity | ]); cbn;
    repeat split; reflexivity.
Qed.

Lemma C6_exact_match_witness :
  exists st' seg stop,
    ExtractCh4.body Examples.one_hz
      [Examples.ses 7 0 150; Examples.ses 7 1000 100;
       Examples.ses 7 2000 150; Examples.ses 7 3000 100]
      400 Examples.after_two
    = Ok (st', Some seg, stop)
    /\ ExtractCh4.combined_df seg
       = concat (ExtractCh4.dfs Examples.after_two)
           ++ Examples.one_hz (Examples.ses 7 2000 150)
    /\ ExtractCh4.chamber_id seg = 7
    /\ ExtractCh4.flushed_duration seg = 400
    /\ ExtractCh4.dfs st' = []
    /\ ExtractCh4.total_duration st' = 0.
Proof.
  exact (C6_exact_match_flushes_everything Examples.one_hz
           [Examples.ses 7 0 150; Examples.ses 7 1000 100;
            Examples.ses 7 2000 150; Examples.ses 7 3000 100]
           [Examples.ses 7 0 150; Examples.ses 7 1000 100]
           [Examples.ses 7 3000 100]
           (Examples.ses 7 2000 150) 400 Examples.after_two
           eq_refl eq_refl eq_refl).
Defined.

(** ** Row conservation (C2) *)

Lemma carried_initial (c : Z) (rows : list Session.t) :
  Unrolled.carried c ExtractCh4.initial rows = [].
Proof.
  destruct rows as [ | row rest]; [ reflexivity | ].
  cbn. destruct (Session.ChamberID row =? c); reflexivity.
Qed.

(** C2: for every chamber, the rows of the segments written for it are,
    as a multiset, the rows of the frames fetched for its sessions,
    whatever the durations and the sizes of the frames (so also when the
    cut index is 0, negative or past the end of the frame). *)
Theorem C2_rows_conserved :
  forall (execute : Session.t -> DataFrame) (all : list Session.t)
         (time_sample : Z) (fuel : nat) (c : Z),
    all <> [] ->
    (List.length all <= fuel)%nat ->
    exists segs fin,
      ExtractCh4.while_true execute all time_sample fuel ExtractCh4.initial
      = (segs, Returned fin)
      /\ Permutation (Unrolled.segment_rows c (Unrolled.emitted segs))
           (Unrolled.session_rows execute c all).
Proof.
  intros execute all time_sample fuel c Hne Hfuel.
  rewrite (while_true_run execute all time_sample fuel Hne Hfuel).
  eexists. eexists. split; [ reflexivity | ].
  rewrite segment_rows_emitted, unrolled_rows, carried_initial.
  apply Permutation_refl.
Qed.

(** Sample time 400 and durations 1000, 300, 5: the second cut index is
    negative (300 - 902). *)
Lemma C2_rows_conserved_witness :
  exists segs fin,
    ExtractCh4.while_true Examples.one_hz
      [Examples.ses 7 0 1000; Examples.ses 7 2000 300; Examples.ses 7 3000 5]
      400 3 ExtractCh4.initial
    = (segs, Returned fin)
    /\ Permutation (Unrolled.segment_rows 7 (Unrolled.emitted segs))
         (Unrolled.session_rows Examples.one_hz 7
            [Examples.ses 7 0 1000; Examples.ses 7 2000 300;
             Examples.ses 7 3000 5]).
Proof.
  apply (C2_rows_conserved Examples.one_hz
           [Examples.ses 7 0 1000; Examples.ses 7 2000 300;
            Examples.ses 7 3000 5] 400 3 7).
  - discriminate.
  - cbn. lia.
Defined.

(** ** Durations of the segments (C4) *)

(** ** Rows of the segments (C4) *)



Section Rows.
Import ExtractCh4 Unrolled.
Variable execute : Session.t -> DataFrame.
Variable time_sample : Z.

Abbreviation body_at := (body_at execute time_sample).
Abbreviation unrolled := (unrolled execute time_sample).



End Rows.





(** The condition on the length of the sessions is needed for the segments
    in between as well.  Sessions of 150 s, 100 s and 5 s with sample time
    60: the residue of the first cut is 91, above the sample time, so the
    second cut index is negative (100 - 132) and counts from the end of the
    frame; the second segment holds 161 rows and is followed by a third. *)
Lemma long_sessions_segments :
  exists s1 s2 s3 fin,
    ExtractCh4.while_true (data_query Examples.long_sessions)
      (Detector.fetch_all_sessions Examples.long_sessions) 60 3
      ExtractCh4.initial
    = ([s1; s2; s3], Returned fin)
    /\ ExtractCh4.chamber_id s2 = ExtractCh4.chamber_id s3
    /\ ExtractCh4.at_session s2 = 2
    /\ map (fun s => List.length (ExtractCh4.combined_df s)) [s1; s2; s3]
       = [59; 161; 38]%nat.
Proof.
  do 4 eexists. split; [ vm_compute; reflexivity | ].
  repeat split.
Qed.

(** ** Chamber changes (C5) *)

(** C5: when the next session belongs to another chamber, the buffer and
    the current frame are flushed as one segment and the buffer is left
    empty, whatever the accumulated duration; so every segment holds rows
    of its own chamber only, and for each chamber the segments, read in
    order, are the frames of its sessions in order. *)
Theorem C5_chamber_change_flushes :
  forall (execute : Session.t -> DataFrame) (all : list Session.t)
         (time_sample : Z) (fuel : nat),
    (forall row,
        Forall (fun r => Raw.ChamberID r = Session.ChamberID row)
          (execute row)) ->
    all <> [] ->
    (List.length all <= fuel)%nat ->
    exists segs fin,
      ExtractCh4.while_true execute all time_sample fuel ExtractCh4.initial
      = (segs, Returned fin)
      /\ Forall Unrolled.pure segs
      /\ (forall c, Unrolled.segment_rows c segs
                    = Unrolled.session_rows execute c all)
      /\ (forall (pre rest : list Session.t) (row n : Session.t)
                 (st : ExtractCh4.state),
             all = pre ++ row :: n :: rest ->
             ExtractCh4.idx st = Z.of_nat (List.length pre) ->
             Session.ChamberID row <> Session.ChamberID n ->
             exists st' seg,
               ExtractCh4.body execute all time_sample st
               = Ok (st', Some seg, false)
               /\ ExtractCh4.chamber_id seg = Session.ChamberID row
               /\ ExtractCh4.combined_df seg
                  = concat (ExtractCh4.dfs st) ++ execute row
               /\ ExtractCh4.flushed_duration seg
                  = ExtractCh4.total_duration st
                    + Session.duration_seconds row
               /\ ExtractCh4.dfs st' = []
               /\ ExtractCh4.total_duration st' = 0).
Proof.
  intros execute all time_sample fuel Hexec Hne Hfuel.
  rewrite (while_true_run execute all time_sample fuel Hne Hfuel).
  eexists. eexists. split; [ reflexivity | ].
  split; [ | split ].
  - apply unrolled_pure; [ exact Hexec | ].
    intros row rest _. constructor.
  - intros c. rewrite unrolled_rows, carried_initial. reflexivity.
  - intros pre rest row n st Hall Hidx Hc.
    rewrite (body_eq execute time_sample all pre (n :: rest) row st Hall Hidx).
    unfold Unrolled.body_at. cbn [Unrolled.same_chamber_next].
    rewrite (proj2 (Z.eqb_neq _ _) Hc).
    eexists. eexists. split; [ reflexivity | ].
    cbn. repeat split; reflexivity.
Qed.

(** Chamber 7 has accumulated 250 s (sessions of 150 s and 100 s) when the
    session of chamber 8 arrives; the sample time is 400. *)
Lemma C5_chamber_change_witness :
  exists segs fin,
    ExtractCh4.while_true (data_query Examples.two_chambers)
      (Detector.fetch_all_sessions Examples.two_chambers) 400 3
      ExtractCh4.initial
    = (segs, Returned fin)
    /\ map (fun s => (ExtractCh4.chamber_id s,
                      ExtractCh4.flushed_duration s)) segs
       = [(7, 250); (8, 50)]
    /\ Forall Unrolled.pure segs
    /\ (forall c, Unrolled.segment_rows c segs
                  = Unrolled.session_rows (data_query Examples.two_chambers)
                      c (Detector.fetch_all_sessions Examples.two_chambers)).
Proof.
  destruct (C5_chamber_change_flushes (data_query Examples.two_chambers)
              (Detector.fetch_all_sessions Examples.two_chambers) 400 3
              (data_query_chamber Examples.two_chambers))
    as (segs & fin & Hrun & Hpure & Hrows & _).
  - vm_compute. discriminate.
  - vm_compute. lia.
  - exists segs, fin. split; [ exact Hrun | ].
    split; [ | split; assumption ].
    vm_compute in Hrun. injection Hrun as Hsegs _. rewrite <- Hsegs.
    reflexivity.
Defined.

(** ** Empty results (C9) *)

Lemma for_range_app (execute : Session.t -> DataFrame) (result_dir : string)
  (pre : list Session.t) :
  forall (rest : list Session.t) (i session_count : Z),
    ExtractCh4_2.for_range execute result_dir i (pre ++ rest) session_count =
      (fst (ExtractCh4_2.for_range execute result_dir i pre session_count)
         ++ fst (ExtractCh4_2.for_range execute result_dir
                   (i + Z.of_nat (List.length pre)) rest
                   (snd (ExtractCh4_2.for_range execute result_dir i pre
                           session_count))),
       snd (ExtractCh4_2.for_range execute result_dir
              (i + Z.of_nat (List.length pre)) rest
              (snd (ExtractCh4_2.for_range execute result_dir i pre
                      session_count)))).
Proof.
  induction pre as [ | row pre IH]; intros rest i session_count.
  - cbn [app List.length ExtractCh4_2.for_range fst snd Z.of_nat].
    rewrite Z.add_0_r.
    destruct (ExtractCh4_2.for_range execute result_dir i rest session_count).
    reflexivity.
  - cbn [app ExtractCh4_2.for_range].
    destruct (ExtractCh4_2.body execute result_dir session_count i row)
      as [sc e].
    rewrite IH.
    replace (i + 1 + Z.of_nat (List.length pre))
      with (i + Z.of_nat (List.length (row :: pre)))
      by (cbn [List.length]; lia).
    destruct (ExtractCh4_2.for_range execute result_dir (i + 1) pre sc)
      as [es1 sc1].
    reflexivity.
Qed.

(** C9: an empty result is reported and skipped, and the run goes on.  In
    extract_ch4_2.py a session whose frame is empty adds one skip message
    to the trace, between what the sessions before it and the sessions
    after it produce, and leaves the count of saved sessions unchanged.  In
    extract_ch4.py an empty flushed frame is answered by the skip message
    instead of a file, and the loop still goes through every session and
    returns. *)
Theorem C9_empty_result_is_skipped :
  forall (execute : Session.t -> DataFrame) (result_dir : string)
         (pre rest : list Session.t) (row : Session.t) (i session_count : Z)
         (all : list Session.t) (time_sample : Z) (fuel : nat),
    execute row = [] ->
    all <> [] ->
    (List.length all <= fuel)%nat ->
    (let before :=
       ExtractCh4_2.for_range execute result_dir i pre session_count in
     let after :=
       ExtractCh4_2.for_range execute result_dir
         (i + Z.of_nat (List.length pre) + 1) rest (snd before) in
     ExtractCh4_2.for_range execute result_dir i (pre ++ row :: rest)
       session_count
     = (fst before
          ++ print ("No data found for ChamberID "
                      ++ str (Session.ChamberID row) ++ " in session "
                      ++ str (i + Z.of_nat (List.length pre))
                      ++ ". Skipping...")%string
          :: fst after,
        snd after))
    /\ exists segs fin,
        ExtractCh4.while_true execute all time_sample fuel ExtractCh4.initial
        = (segs, Returned fin)
        /\ ExtractCh4.session_count fin = Z.of_nat (List.length all)
        /\ forall s,
            In s segs ->
            ExtractCh4.combined_df s = [] ->
            ExtractCh4.save result_dir s
            = print ("No data found for ChamberID "
                       ++ str (ExtractCh4.chamber_id s) ++ " in session "
                       ++ str (ExtractCh4.at_session s)
                       ++ ". Skipping...")%string.
Proof.
  intros execute result_dir pre rest row i session_count all time_sample fuel
    Hempty Hne Hfuel.
  split.
  - cbv zeta. rewrite for_range_app. cbn [ExtractCh4_2.for_range].
    unfold ExtractCh4_2.body. rewrite Hempty.
    cbn [List.length Nat.ltb Nat.leb].
    destruct (ExtractCh4_2.for_range execute result_dir
                (i + Z.of_nat (List.length pre) + 1) rest
                (snd (ExtractCh4_2.for_range execute result_dir i pre
                        session_count))).
    reflexivity.
  - rewrite (while_true_run execute all time_sample fuel Hne Hfuel).
    eexists. eexists. split; [ reflexivity | ]. split.
    + rewrite unrolled_session_count. reflexivity.
    + intros s _ Hs. unfold ExtractCh4.save. rewrite Hs. reflexivity.
Qed.

(** Three sessions, the middle one without data, sample time 100. *)
Lemma C9_empty_result_witness :
  ExtractCh4_2.for_range Examples.gap_execute "result" 0
    [Examples.ses 7 0 150; Examples.ses 7 1000 100; Examples.ses 7 2000 200]
    0
  = ([to_csv "result/Chamber_7_Session_0.csv"
        (Examples.one_hz (Examples.ses 7 0 150));
      print "No data found for ChamberID 7 in session 1. Skipping...";
      to_csv "result/Chamber_7_Session_2.csv"
        (Examples.one_hz (Examples.ses 7 2000 200))],
     2)
  /\ exists segs fin,
      ExtractCh4.while_true Examples.gap_execute
        [Examples.ses 7 1000 100; Examples.ses 8 0 150]
        100 2 ExtractCh4.initial
      = (segs, Returned fin)
      /\ ExtractCh4.session_count fin = 2
      /\ map (ExtractCh4.save "result") segs
         = [print "No data found for ChamberID 7 in session 1. Skipping...";
            to_csv "result/Chamber_8_Segment_0.csv"
              (Examples.one_hz (Examples.ses 8 0 150))].
Proof.
  destruct (C9_empty_result_is_skipped Examples.gap_execute "result"
              [Examples.ses 7 0 150] [Examples.ses 7 2000 200]
              (Examples.ses 7 1000 100) 0 0
              [Examples.ses 7 1000 100; Examples.ses 8 0 150] 100 2)
    as [H2 (segs & fin & Hrun & Hcount & Hsave)].
  - reflexivity.
  - discriminate.
  - cbn. lia.
  - split.
    + cbv zeta in H2.
      change [Examples.ses 7 0 150; Examples.ses 7 1000 100;
              Examples.ses 7 2000 200]
        with ([Examples.ses 7 0 150]
                ++ Examples.ses 7 1000 100 :: [Examples.ses 7 2000 200]).
      rewrite H2. vm_compute. reflexivity.
    + exists segs, fin. split; [ exact Hrun | ]. split; [ exact Hcount | ].
      vm_compute in Hrun. injection Hrun as Hsegs _. rewrite <- Hsegs.
      vm_compute. reflexivity.
Defined.

(** ** No session at all (C10) *)

Lemma while_true_no_session (execute : Session.t -> DataFrame)
  (time_sample : Z) (fuel : nat) :
  ExtractCh4.while_true execute [] time_sample fuel ExtractCh4.initial
  = ([], match fuel with O => OutOfFuel | S _ => Raised IndexError end).
Proof. destruct fuel; reflexivity. Qed.

(** C10: when the session query finds no session, the loop of
    extract_ch4.py reads row 0 of an empty frame before any exit test: the
    function raises IndexError after its three opening messages, nothing is
    written, the process ends with status 1, and for no amount of fuel
    does the function return normally. *)
Theorem C10_no_session_raises_index_error :
  forall (con : connection) (result_dir : string) (time_sample : Z)
         (fuel : nat),
    Detector.fetch_all_sessions con = [] ->
    ExtractCh4.extract_chamber_ch4 (S fuel) con result_dir time_sample
    = ([print "Fetching all of the active sessions...";
        print "Found 0 active sessions";
        print "Fetching data of the active sessions..."],
       Raised IndexError)
    /\ ExtractCh4.exit_status
         (snd (ExtractCh4.extract_chamber_ch4 (S fuel) con result_dir
                 time_sample))
       = Some 1
    /\ forall (fuel' : nat) (fin : ExtractCh4.state),
        snd (ExtractCh4.extract_chamber_ch4 fuel' con result_dir time_sample)
        <> Returned fin.
Proof.
  intros con result_dir time_sample fuel Hnone.
  unfold ExtractCh4.extract_chamber_ch4. rewrite Hnone.
  split; [ | split ].
  - rewrite while_true_no_session. reflexivity.
  - rewrite while_true_no_session. reflexivity.
  - intros fuel' fin. rewrite while_true_no_session.
    destruct fuel'; discriminate.
Qed.

(** An empty table has no session. *)
Lemma C10_no_session_witness :
  ExtractCh4.extract_chamber_ch4 1 [] "result" 400
  = ([print "Fetching all of the active sessions...";
      print "Found 0 active sessions";
      print "Fetching data of the active sessions..."],
     Raised IndexError)
  /\ ExtractCh4.exit_status
       (snd (ExtractCh4.extract_chamber_ch4 1 [] "result" 400))
     = Some 1
  /\ forall (fuel' : nat) (fin : ExtractCh4.state),
      snd (ExtractCh4.extract_chamber_ch4 fuel' [] "result" 400)
      <> Returned fin.
Proof.
  apply (C10_no_session_raises_index_error [] "result" 400 0).
  reflexivity.
Defined.

(** ** Names of the segment files (C7) *)

(** C7 on the code: chamber 7 is active on [0, 400] and on [1000, 1400]
    and the sample time is 400.  Both sessions are exact matches, both are
    flushed with the counter reset to 0 before the name is built, and the
    second file replaces the first. *)
Theorem C7_second_segment_overwrites_first :
  filter is_to_csv
    (fst (ExtractCh4.extract_chamber_ch4 2 Examples.twice_400 "result" 400))
  = [to_csv "result/Chamber_7_Segment_0.csv"
       [Examples.raw 7 0 1; Examples.raw 7 400 1];
     to_csv "result/Chamber_7_Segment_0.csv"
       [Examples.raw 7 1000 1; Examples.raw 7 1400 1]]
  /\ snd (ExtractCh4.extract_chamber_ch4 2 Examples.twice_400 "result" 400)
     = Returned
         {| ExtractCh4.session_count := 2;
            ExtractCh4.segment_count := 0;
            ExtractCh4.idx := 2;
            ExtractCh4.dfs := [];
            ExtractCh4.total_duration := 0;
            ExtractCh4.time_diff := Some 1 |}.
Proof. split; vm_compute; reflexivity. Qed.

(** ** Detected sessions (C3) *)

(** C3 on the code.  Chamber 1 with status 1, 1, 0, 1, 1 at seconds 0..4
    has two active periods, [0, 1] and [3, 4]; the query of
    extract_chambers.py also reports [0, 4], which overlaps both and
    repeats the start 0.  Chamber 1 with status 1, 0, 1, 1 at seconds 0..3
    has the periods [0, 0] and [2, 3]; the queries of extract_ch4.py and
    extract_ch4_3.py report [0, 3], which runs across the idle second 1 and
    overlaps [2, 3]. *)
Theorem C3_detected_sessions_overlap :
  Detector.active_periods_query Examples.two_runs
  = [Detector.mk_session 1 0 1; Detector.mk_session 1 0 4;
     Detector.mk_session 1 3 4]
  /\ Detector.fetch_all_sessions Examples.lone_reading
     = [Detector.mk_session 1 0 3; Detector.mk_session 1 2 3]
  /\ map Detector.session
       (Detector.fetch_all_sessions_3 Examples.lone_reading)
     = [Detector.mk_session 1 0 3].
Proof. repeat split; vm_compute; reflexivity. Qed.

(** ** A failing session query (C8) *)

(** C8 (as amended): when the session query of extract_ch4_3.py fails, the
    function prints the error and returns: no session is processed,
    nothing is written, and the process ends with status 0. *)
Theorem C8_failed_session_query_returns :
  forall (w : ExtractCh4_3.world) (a : ExtractCh4_3.args)
         (c : ExtractCh4_3.con) (e : exn),
    ExtractCh4_3.path_exists w (ExtractCh4_3.db a) = true ->
    ExtractCh4_3.duckdb_connect w (ExtractCh4_3.db a) = Ok c ->
    (ExtractCh4_3.validate a = true ->
     snd (ExtractCh4_3.validate_database c) = true) ->
    ExtractCh4_3.makedirs w (ExtractCh4_3.result_dir a) = Ok tt ->
    ExtractCh4_3.fetch_all_sessions c = Raise e ->
    ExtractCh4_3.extract_chamber_ch4 w c (ExtractCh4_3.result_dir a)
    = ([print "Fetching all active sessions...";
        print ("Error fetching sessions: "
                 ++ ExtractCh4_3.exn_message e)%string],
       Ok tt)
    /\ ExtractCh4_3.main w a
       = ([print ("Connected to database: " ++ ExtractCh4_3.db a)%string]
            ++ (if ExtractCh4_3.validate a
                then fst (ExtractCh4_3.validate_database c) else [])
            ++ [print "Fetching all active sessions...";
                print ("Error fetching sessions: "
                         ++ ExtractCh4_3.exn_message e)%string],
          0).
Proof.
  intros w a c e Hexists Hconnect Hvalid Hdirs Hfetch.
  assert (Hrun :
            ExtractCh4_3.extract_chamber_ch4 w c (ExtractCh4_3.result_dir a)
            = ([print "Fetching all active sessions...";
                print ("Error fetching sessions: "
                         ++ ExtractCh4_3.exn_message e)%string],
               Ok tt)).
  { unfold ExtractCh4_3.extract_chamber_ch4. rewrite Hdirs, Hfetch.
    reflexivity. }
  split; [ exact Hrun | ].
  unfold ExtractCh4_3.main. rewrite Hexists, Hconnect. cbn [negb].
  destruct (ExtractCh4_3.validate a).
  - specialize (Hvalid eq_refl).
    destruct (ExtractCh4_3.validate_database c) as [checks valid].
    cbn [snd] in Hvalid. subst valid. cbn [negb fst]. rewrite Hrun.
    reflexivity.
  - cbn [negb]. rewrite Hrun. reflexivity.
Qed.

Lemma C8_failed_session_query_witness :
  ExtractCh4_3.extract_chamber_ch4 Examples.broken_world Examples.broken_con
    "result"
  = ([print "Fetching all active sessions...";
      print "Error fetching sessions: DataSourceError"],
     Ok tt)
  /\ ExtractCh4_3.main Examples.broken_world Examples.default_args
     = ([print "Connected to database: dataset/JAAR_DB.duckdb";
         print "Fetching all active sessions...";
         print "Error fetching sessions: DataSourceError"],
        0).
Proof.
  apply (C8_failed_session_query_returns Examples.broken_world
           Examples.default_args Examples.broken_con DataSourceError).
  - reflexivity.
  - reflexivity.
  - intros H. discriminate H.
  - reflexivity.
  - reflexivity.
Defined.

(** The claim as first stated (a failed session query ends the process
    with a status other than 0) fails. *)
Lemma C8_counterexample :
  ~ (forall (w : ExtractCh4_3.world) (a : ExtractCh4_3.args)
            (c : ExtractCh4_3.con) (e : exn),
        ExtractCh4_3.path_exists w (ExtractCh4_3.db a) = true ->
        ExtractCh4_3.duckdb_connect w (ExtractCh4_3.db a) = Ok c ->
        ExtractCh4_3.fetch_all_sessions c = Raise e ->
        snd (ExtractCh4_3.main w a) <> 0).
Proof.
  intros H.
  apply (H Examples.broken_world Examples.default_args Examples.broken_con
           DataSourceError eq_refl eq_refl eq_refl).
  reflexivity.
Qed.

(** * Further properties *)

(** ** ORDER BY *)

Section OrderBy.
Context {A : Type}.
Variable le : A -> A -> bool.

Lemma insert_by_perm (x : A) (l : list A) :
Permutation (Detector.insert_by le x l) (x :: l).
Proof.
induction l as [ | y tl IH]; cbn.
- apply Permutation_refl.
- destruct (le x y).
  + apply Permutation_refl.
  + apply perm_trans with (y :: x :: tl).
    * apply perm_skip. exact IH.
    * apply perm_swap.
Qed.

Lemma order_by_perm (l : list A) : Permutation (Detector.order_by le l) l.
Proof.
unfold Detector.order_by. induction l as [ | x tl IH]; cbn.
- apply perm_nil.
- eapply perm_trans; [ apply insert_by_perm | ].
  apply perm_skip. exact IH.
Qed.

Lemma order_by_In (x : A) (l : list A) :
In x (Detector.order_by le l) <-> In x l.
Proof.
split; apply Permutation_in.
- apply order_by_perm.
- apply Permutation_sym, order_by_perm.
Qed.

Lemma order_by_length (l : list A) :
List.length (Detector.order_by le l) = List.length l.
Proof. apply Permutation_length, order_by_perm. Qed.

Hypothesis le_total : forall a b, le a b = false -> le b a = true.

Lemma insert_by_sorted (x : A) (l : list A) :
Sorted (fun a b => le a b = true) l ->
Sorted (fun a b => le a b = true) (Detector.insert_by le x l).
Proof.
induction 1 as [ | y tl Hs IH Hhd]; cbn.
- repeat constructor.
- destruct (le x y) eqn:E.
  + constructor; [ constructor; assumption | constructor; exact E ].
  + constructor; [ exact IH | ].
    destruct tl as [ | z tl']; cbn.
    * constructor. apply le_total. exact E.
    * destruct (le x z).
      -- constructor. apply le_total. exact E.
      -- inversion Hhd; subst. constructor. assumption.
Qed.

Lemma order_by_sorted (l : list A) :
Sorted (fun a b => le a b = true) (Detector.order_by le l).
Proof.
unfold Detector.order_by. induction l as [ | x tl IH]; cbn.
- constructor.
- apply insert_by_sorted. exact IH.
Qed.
End OrderBy.

Lemma session_le_total (a b : Session.t) :
  Detector.session_le a b = false -> Detector.session_le b a = true.
Proof.
  unfold Detector.session_le. intros H.
  apply orb_false_iff in H. destruct H as [H1 H2].
  apply Z.ltb_ge in H1.
  destruct (Z.ltb_spec (Session.ChamberID b) (Session.ChamberID a)) as [Hlt | Hge];
    [ reflexivity | ].
  assert (E : Session.ChamberID a = Session.ChamberID b) by lia.
  rewrite E, Z.eqb_refl in *. cbn in *.
  apply Z.leb_gt in H2. apply Z.leb_le. lia.
Qed.

Lemma order_by_leb_head (l : list Z) (m : Z) :
  hd_error (Detector.order_by Z.leb l) = Some m ->
  In m l /\ forall x, In x l -> m <= x.
Proof.
  revert m. unfold Detector.order_by.
  induction l as [ | y tl IH]; intros m; cbn; [ discriminate | ].
  destruct (fold_right (Detector.insert_by Z.leb) [] tl) as [ | h rest] eqn:E.
  - cbn. intros [= <-]. destruct tl as [ | z tl'].
    + split; [ left; reflexivity | ]. intros x [<- | []]. lia.
    + exfalso.
      assert (Hl : List.length (Detector.order_by Z.leb (z :: tl')) = 0%nat)
        by (unfold Detector.order_by; rewrite E; reflexivity).
      rewrite order_by_length in Hl. discriminate Hl.
  - destruct (IH h eq_refl) as [Hin Hmin]. cbn.
    destruct (Z.leb_spec y h) as [Hle | Hgt]; cbn; intros [= <-].
    + split; [ left; reflexivity | ].
      intros x [<- | Hx]; [ lia | ]. specialize (Hmin x Hx). lia.
    + split; [ right; exact Hin | ].
      intros x [<- | Hx]; [ lia | ]. apply Hmin. exact Hx.
Qed.

(** ** Rows behind the detected starts and ends *)

Lemma window_In (l : list Raw.t) :
  forall (prev : option Raw.t) (w : Detector.windowed),
    In w (Detector.window prev l) ->
    exists r, In r l
              /\ Detector.ChamberID w = Raw.ChamberID r
              /\ Detector.TIMESTAMP w = Raw.TIMESTAMP r
              /\ Detector.ChamberStatus w = Raw.ChamberStatus r.
Proof.
  induction l as [ | r tl IH]; intros prev w; cbn; [ intros [] | ].
  intros [<- | Hw].
  - exists r. cbn. repeat split. left. reflexivity.
  - destruct (IH _ _ Hw) as (r' & Hin & H). exists r'. split; [ right | ]; assumption.
Qed.

Lemma session_start_active (con : connection) (p : Z * Z) :
  In p (Detector.session_start con) -> active_reading con (fst p) (snd p).
Proof.
  unfold Detector.session_start. intros H.
  apply in_map_iff in H. destruct H as (w & <- & Hw).
  apply filter_In in Hw. destruct Hw as [Hw Hf].
  apply andb_prop in Hf. destruct Hf as [Hf _].
  apply window_In in Hw. destruct Hw as (r & Hin & Hc & Ht & Hs).
  apply order_by_In in Hin.
  exists r. cbn. repeat split; try congruence.
  apply negb_true_iff, Z.eqb_neq in Hf. congruence.
Qed.

Lemma session_end_active (con : connection) (p : Z * Z) :
  In p (Detector.session_end con) -> active_reading con (fst p) (snd p).
Proof.
  unfold Detector.session_end. intros H.
  apply in_map_iff in H. destruct H as (w & <- & Hw).
  apply filter_In in Hw. destruct Hw as [Hw Hf].
  apply andb_prop in Hf. destruct Hf as [Hf _].
  apply window_In in Hw. destruct Hw as (r & Hin & Hc & Ht & Hs).
  apply order_by_In in Hin.
  exists r. cbn. repeat split; try congruence.
  apply negb_true_iff, Z.eqb_neq in Hf. congruence.
Qed.

Lemma lateral_spec (ends : list (Z * Z)) (s : Z * Z) (e : Z) :
  Detector.lateral ends s = Some e ->
  In (fst s, e) ends
  /\ snd s < e
  /\ forall e', In (fst s, e') ends -> snd s < e' -> e <= e'.
Proof.
  unfold Detector.lateral. intros H.
  apply order_by_leb_head in H. destruct H as [Hin Hmin].
  apply in_map_iff in Hin. destruct Hin as ([c e0] & He & Hin).
  cbn in He. subst e0.
  apply filter_In in Hin. destruct Hin as [Hin Hf]. cbn in Hf.
  apply andb_prop in Hf. destruct Hf as [Hc Ht].
  apply Z.eqb_eq in Hc. apply Z.ltb_lt in Ht. subst c.
  split; [ exact Hin | ]. split; [ exact Ht | ].
  intros e' Hin' Ht'. apply Hmin.
  apply in_map_iff. exists (fst s, e'). split; [ reflexivity | ].
  apply filter_In. split; [ exact Hin' | ]. cbn.
  rewrite Z.eqb_refl. apply Z.ltb_lt. exact Ht'.
Qed.

Lemma fetch_all_sessions_In (con : connection) (s : Session.t) :
  In s (Detector.fetch_all_sessions con) <->
  exists p e,
    In p (Detector.session_start con)
    /\ Detector.lateral (Detector.session_end con) p = Some e
    /\ s = Detector.mk_session (fst p) (snd p) e.
Proof.
  unfold Detector.fetch_all_sessions. rewrite order_by_In, in_flat_map.
  split.
  - intros (p & Hp & Hs).
    destruct (Detector.lateral (Detector.session_end con) p) as [e | ] eqn:E;
      [ | destruct Hs ].
    destruct Hs as [<- | []]. exists p, e. repeat split; assumption.
  - intros (p & e & Hp & E & ->). exists p. split; [ exact Hp | ].
    rewrite E. left. reflexivity.
Qed.

(** ** What the session queries return *)

Lemma session_le_true (a b : Session.t) :
  Detector.session_le a b = true -> by_chamber_then_start a b.
Proof.
  unfold Detector.session_le, by_chamber_then_start. intros H.
  apply orb_prop in H. destruct H as [H | H].
  - left. apply Z.ltb_lt. exact H.
  - right. apply andb_prop in H. destruct H as [H1 H2].
    split; [ apply Z.eqb_eq | apply Z.leb_le ]; assumption.
Qed.

Lemma Sorted_weaken {A : Type} (R R' : A -> A -> Prop) (l : list A) :
  (forall a b, R a b -> R' a b) -> Sorted R l -> Sorted R' l.
Proof.
  intros HR. induction 1 as [ | a l Hs IH Hhd]; constructor.
  - exact IH.
  - destruct Hhd; constructor. apply HR. assumption.
Qed.

Lemma Sorted_map {A B : Type} (R : B -> B -> Prop) (f : A -> B) (l : list A) :
  Sorted (fun a b => R (f a) (f b)) l -> Sorted R (map f l).
Proof.
  induction 1 as [ | a l Hs IH Hhd]; cbn; constructor.
  - exact IH.
  - destruct Hhd; cbn; constructor. assumption.
Qed.

(** X1: the three session queries return their rows ordered by
    (ChamberID, start_time). *)
Theorem session_queries_sorted (con : connection) :
  Sorted by_chamber_then_start (Detector.fetch_all_sessions con)
  /\ Sorted by_chamber_then_start (Detector.active_periods_query con)
  /\ Sorted by_chamber_then_start
       (map Detector.session (Detector.fetch_all_sessions_3 con)).
Proof.
  split; [ | split ].
  - apply Sorted_weaken with (R := fun a b => Detector.session_le a b = true);
      [ exact session_le_true | ].
    apply order_by_sorted. exact session_le_total.
  - apply Sorted_weaken with (R := fun a b => Detector.session_le a b = true);
      [ exact session_le_true | ].
    apply order_by_sorted. exact session_le_total.
  - apply Sorted_map.
    apply Sorted_weaken
      with (R := fun a b => Detector.numbered_le a b = true).
    + intros a b. apply session_le_true.
    + apply order_by_sorted. intros a b. apply session_le_total.
Qed.

(** X2: a session reported by extract_ch4.py's query starts on a detected
    start and ends on a detected end of its chamber, both of them active
    readings of the table, and ends after it starts. *)
Theorem fetch_all_sessions_well_formed (con : connection) (s : Session.t) :
  In s (Detector.fetch_all_sessions con) ->
  Session.start_time s < Session.end_time s
  /\ In (Session.ChamberID s, Session.start_time s)
       (Detector.session_start con)
  /\ In (Session.ChamberID s, Session.end_time s)
       (Detector.session_end con)
  /\ active_reading con (Session.ChamberID s) (Session.start_time s)
  /\ active_reading con (Session.ChamberID s) (Session.end_time s).
Proof.
  intros H. apply fetch_all_sessions_In in H.
  destruct H as (p & e & Hp & Hl & ->).
  apply lateral_spec in Hl. destruct Hl as (He & Hlt & _).
  cbn. split; [ exact Hlt | ]. split; [ | split; [ exact He | split ] ].
  - destruct p as [c t]. exact Hp.
  - apply (session_start_active con p Hp).
  - apply (session_end_active con (fst p, e) He).
Qed.

Lemma fetch_all_sessions_well_formed_witness :
  In (Detector.mk_session 1 3 4)
    (Detector.fetch_all_sessions Examples.two_runs)
  /\ 3 < 4
  /\ In (1, 3) (Detector.session_start Examples.two_runs)
  /\ In (1, 4) (Detector.session_end Examples.two_runs)
  /\ active_reading Examples.two_runs 1 3
  /\ active_reading Examples.two_runs 1 4.
Proof.
  assert (H : In (Detector.mk_session 1 3 4)
                (Detector.fetch_all_sessions Examples.two_runs))
    by (vm_compute; right; left; reflexivity).
  split; [ exact H | ].
  exact (fetch_all_sessions_well_formed Examples.two_runs _ H).
Defined.

(** X3: the end paired with a start is the nearest one: it is an end of the
    same chamber, and no end of that chamber lies strictly between the
    start and it. *)
Theorem fetch_all_sessions_nearest_end (con : connection) (s : Session.t)
  (e' : Z) :
  In s (Detector.fetch_all_sessions con) ->
  In (Session.ChamberID s, e') (Detector.session_end con) ->
  Session.start_time s < e' ->
  In (Session.ChamberID s, Session.end_time s) (Detector.session_end con)
  /\ Session.end_time s <= e'.
Proof.
  intros H He' Hlt. apply fetch_all_sessions_In in H.
  destruct H as (p & e & Hp & Hl & ->).
  apply lateral_spec in Hl. destruct Hl as (He & _ & Hmin).
  cbn in *. split; [ exact He | ]. apply Hmin; assumption.
Qed.

Lemma fetch_all_sessions_nearest_end_witness :
  In (Detector.mk_session 1 0 1)
    (Detector.fetch_all_sessions Examples.two_runs)
  /\ In (1, 4) (Detector.session_end Examples.two_runs)
  /\ In (1, 1) (Detector.session_end Examples.two_runs)
  /\ 1 <= 4.
Proof.
  assert (H : In (Detector.mk_session 1 0 1)
                (Detector.fetch_all_sessions Examples.two_runs))
    by (vm_compute; left; reflexivity).
  assert (He : In (1, 4) (Detector.session_end Examples.two_runs))
    by (vm_compute; right; left; reflexivity).
  split; [ exact H | ]. split; [ exact He | ].
  apply (fetch_all_sessions_nearest_end Examples.two_runs
           (Detector.mk_session 1 0 1) 4 H He).
  reflexivity.
Defined.

(** X4: each detected start gives at most one session in extract_ch4.py's
    query. *)
Theorem fetch_all_sessions_at_most_starts (con : connection) :
  (List.length (Detector.fetch_all_sessions con)
   <= List.length (Detector.session_start con))%nat.
Proof.
  unfold Detector.fetch_all_sessions. rewrite order_by_length.
  induction (Detector.session_start con) as [ | p tl IH]; cbn; [ lia | ].
  rewrite length_app.
  destruct (Detector.lateral (Detector.session_end con) p); cbn; lia.
Qed.

(** X5: every session of extract_ch4.py's query is also a row of
    extract_chambers.py's query on the same table. *)
Theorem fetch_all_sessions_in_active_periods (con : connection)
  (s : Session.t) :
  In s (Detector.fetch_all_sessions con) ->
  In s (Detector.active_periods_query con).
Proof.
  intros H. apply fetch_all_sessions_In in H.
  destruct H as (p & e & Hp & Hl & ->).
  apply lateral_spec in Hl. destruct Hl as (He & Hlt & _).
  unfold Detector.active_periods_query.
  apply order_by_In, in_flat_map. exists p. split; [ exact Hp | ].
  apply in_map_iff. exists (fst p, e). split; [ reflexivity | ].
  apply filter_In. split; [ exact He | ]. cbn.
  rewrite Z.eqb_refl. apply Z.ltb_lt. exact Hlt.
Qed.

Lemma fetch_all_sessions_in_active_periods_witness :
  In (Detector.mk_session 1 3 4)
    (Detector.fetch_all_sessions Examples.two_runs)
  /\ In (Detector.mk_session 1 3 4)
       (Detector.active_periods_query Examples.two_runs).
Proof.
  assert (H : In (Detector.mk_session 1 3 4)
                (Detector.fetch_all_sessions Examples.two_runs))
    by (vm_compute; right; left; reflexivity).
  split; [ exact H | ].
  exact (fetch_all_sessions_in_active_periods Examples.two_runs _ H).
Defined.

(** X6: a row of extract_chambers.py's query starts on a detected start
    and ends on a detected end of the same chamber, later than the start;
    both are active readings of the table. *)
Theorem active_periods_query_well_formed (con : connection) (s : Session.t) :
  In s (Detector.active_periods_query con) ->
  Session.start_time s < Session.end_time s
  /\ In (Session.ChamberID s, Session.start_time s)
       (Detector.session_start con)
  /\ In (Session.ChamberID s, Session.end_time s)
       (Detector.session_end con)
  /\ active_reading con (Session.ChamberID s) (Session.start_time s)
  /\ active_reading con (Session.ChamberID s) (Session.end_time s).
Proof.
  unfold Detector.active_periods_query. intros H.
  apply order_by_In, in_flat_map in H. destruct H as ([c t] & Hp & H).
  apply in_map_iff in H. destruct H as ([c' e] & <- & H).
  apply filter_In in H. destruct H as [He Hf]. cbn in Hf.
  apply andb_prop in Hf. destruct Hf as [Hc Ht].
  apply Z.eqb_eq in Hc. apply Z.ltb_lt in Ht. subst c'. cbn.
  repeat split; try assumption; try lia.
  - apply (session_start_active con (c, t) Hp).
  - apply (session_end_active con (c, e) He).
Qed.

Lemma active_periods_query_well_formed_witness :
  In (Detector.mk_session 1 0 4)
    (Detector.active_periods_query Examples.two_runs)
  /\ 0 < 4
  /\ In (1, 0) (Detector.session_start Examples.two_runs)
  /\ In (1, 4) (Detector.session_end Examples.two_runs)
  /\ active_reading Examples.two_runs 1 0
  /\ active_reading Examples.two_runs 1 4.
Proof.
  assert (H : In (Detector.mk_session 1 0 4)
                (Detector.active_periods_query Examples.two_runs))
    by (vm_compute; right; left; reflexivity).
  split; [ exact H | ].
  exact (active_periods_query_well_formed Examples.two_runs _ H).
Defined.

(** ** The data query *)

(** X7: the data query returns exactly the readings of the session's
    chamber taken between its start and its end (both included), each as
    often as the table holds it, ordered by time. *)
Theorem data_query_spec (con : connection) (row : Session.t) :
  (forall r,
      In r (data_query con row) <->
      In r con
      /\ Raw.ChamberID r = Session.ChamberID row
      /\ Session.start_time row <= Raw.TIMESTAMP r <= Session.end_time row)
  /\ Sorted (fun a b => Raw.TIMESTAMP a <= Raw.TIMESTAMP b)
       (data_query con row)
  /\ Permutation (data_query con row)
       (filter
          (fun r => (Raw.ChamberID r =? Session.ChamberID row)
                    && (Session.start_time row <=? Raw.TIMESTAMP r)
                    && (Raw.TIMESTAMP r <=? Session.end_time row))
          con).
Proof.
  unfold data_query. split; [ | split ].
  - intros r. rewrite order_by_In, filter_In, !andb_true_iff.
    rewrite Z.eqb_eq, !Z.leb_le. tauto.
  - apply Sorted_weaken
      with (R := fun a b => (Raw.TIMESTAMP a <=? Raw.TIMESTAMP b) = true).
    + intros a b. apply Z.leb_le.
    + apply order_by_sorted. intros a b H.
      apply Z.leb_gt in H. apply Z.leb_le. lia.
  - apply order_by_perm.
Qed.

Lemma data_query_In (con : connection) (row : Session.t) (r : Raw.t) :
  In r (data_query con row) <->
  In r con
  /\ Raw.ChamberID r = Session.ChamberID row
  /\ Session.start_time row <= Raw.TIMESTAMP r <= Session.end_time row.
Proof.
  unfold data_query. rewrite order_by_In, filter_In, !andb_true_iff.
  rewrite Z.eqb_eq, !Z.leb_le. tauto.
Qed.

Lemma detected_start_reading (con : connection) (s : Session.t) :
  In s (Detector.fetch_all_sessions con) ->
  exists r, In r (data_query con s)
            /\ Raw.TIMESTAMP r = Session.start_time s
            /\ Raw.ChamberStatus r <> 0.
Proof.
  intros H. apply fetch_all_sessions_In in H.
  destruct H as (p & e & Hp & Hl & ->).
  apply lateral_spec in Hl. destruct Hl as (_ & Hlt & _).
  destruct (session_start_active con p Hp) as (r & Hin & Hc & Ht & Hs).
  exists r. split; [ | split; assumption ].
  apply data_query_In. cbn. repeat split; try assumption; lia.
Qed.

Lemma detected_nonempty (con : connection) (s : Session.t) :
  In s (Detector.fetch_all_sessions con) -> data_query con s <> [].
Proof.
  intros H E. destruct (detected_start_reading con s H) as (r & Hr & _).
  rewrite E in Hr. destruct Hr.
Qed.

(** X8: a session detected on a table always has data in that table: the
    data query returns at least the reading the session starts on. *)
Theorem detected_session_has_data (con : connection) (s : Session.t) :
  In s (Detector.fetch_all_sessions con) ->
  data_query con s <> []
  /\ exists r, In r (data_query con s)
               /\ Raw.TIMESTAMP r = Session.start_time s
               /\ Raw.ChamberStatus r <> 0.
Proof.
  intros H. split.
  - apply detected_nonempty. exact H.
  - apply detected_start_reading. exact H.
Qed.

Lemma detected_session_has_data_witness :
  In (Detector.mk_session 1 3 4)
    (Detector.fetch_all_sessions Examples.two_runs)
  /\ data_query Examples.two_runs (Detector.mk_session 1 3 4) <> []
  /\ exists r,
      In r (data_query Examples.two_runs (Detector.mk_session 1 3 4))
      /\ Raw.TIMESTAMP r = 3
      /\ Raw.ChamberStatus r <> 0.
Proof.
  assert (H : In (Detector.mk_session 1 3 4)
                (Detector.fetch_all_sessions Examples.two_runs))
    by (vm_compute; right; left; reflexivity).
  split; [ exact H | ].
  exact (detected_session_has_data Examples.two_runs _ H).
Defined.

(** ** extract_ch4_2.py over a whole table *)

(** ** Runs on a disk *)

Lemma print_shape (result_dir msg : string) :
  csv_in_or_print result_dir (print msg).
Proof. right. exists msg. reflexivity. Qed.

Lemma replay_writable (can_write : string -> bool) (result_dir : string)
  (es : list event) :
  (forall name, can_write (path_join result_dir name) = true) ->
  Forall (csv_in_or_print result_dir) es ->
  Disk.replay can_write es = (es, None).
Proof.
  intros Hw. induction 1 as [ | e es He Hes IH]; [ reflexivity | ].
  cbn [Disk.replay]. rewrite IH.
  destruct He as [(name & df & ->) | (msg & ->)]; [ | reflexivity ].
  rewrite Hw. reflexivity.
Qed.

Lemma replay_blocked (can_write : string -> bool) (result_dir : string)
  (es : list event) :
  (forall name, can_write (path_join result_dir name) = false) ->
  Forall (csv_in_or_print result_dir) es ->
  Exists (csv_in result_dir) es ->
  exists msgs,
    Disk.replay can_write es = (msgs, Some OSError)
    /\ Forall (fun e => is_write e = false) msgs.
Proof.
  intros Hw Hes. induction Hes as [ | e es He Hes IH]; intros Hex;
    [ inversion Hex | ].
  cbn [Disk.replay].
  destruct He as [(name & df & ->) | (msg & ->)].
  - rewrite Hw. exists []. split; [ reflexivity | constructor ].
  - destruct IH as (msgs & -> & Hm).
    + inversion Hex as [? ? (name & df & E) | ]; [ discriminate E | assumption ].
    + exists (print msg :: msgs). split; [ reflexivity | ].
      constructor; [ reflexivity | exact Hm ].
Qed.

(** ** extract_ch4_2.py over a whole table *)

Lemma for_range_all_data (execute : Session.t -> DataFrame)
  (result_dir : string) (rows : list Session.t) :
  (forall row, In row rows -> execute row <> []) ->
  forall (i session_count : Z),
    Forall (csv_in result_dir)
      (fst (ExtractCh4_2.for_range execute result_dir i rows session_count))
    /\ List.length
         (fst (ExtractCh4_2.for_range execute result_dir i rows
                 session_count))
       = List.length rows
    /\ snd (ExtractCh4_2.for_range execute result_dir i rows session_count)
       = session_count + Z.of_nat (List.length rows).
Proof.
  induction rows as [ | row rest IH]; intros Hdata i session_count.
  - cbn. repeat split; [ constructor | lia ].
  - cbn [ExtractCh4_2.for_range]. unfold ExtractCh4_2.body.
    assert (Hrow : execute row <> []) by (apply Hdata; left; reflexivity).
    destruct (execute row) as [ | r df] eqn:E; [ congruence | ].
    cbn [List.length Nat.ltb Nat.leb].
    specialize (IH (fun x Hx => Hdata x (or_intror Hx)) (i + 1)
                  (session_count + 1)).
    destruct (ExtractCh4_2.for_range execute result_dir (i + 1) rest
                (session_count + 1)) as [es n].
    cbn [fst snd] in *. destruct IH as (Hall & Hlen & Hn).
    repeat split.
    + constructor; [ | exact Hall ]. eexists. eexists. reflexivity.
    + cbn [List.length]. rewrite Hlen. reflexivity.
    + rewrite Hn. cbn [List.length]. lia.
Qed.

(** X9: run on a table, extract_ch4_2.py writes one csv file into the
    result directory for every detected session and never reaches its skip
    message, provided the files can be written; it then reports the number
    of detected sessions as processed.  When nothing can be written in the
    result directory (the script does not create it) and there is a
    session, the run ends with OSError at the first file, after the two
    opening messages. *)
Theorem extract_ch4_2_one_file_per_session (can_write : string -> bool)
  (con : connection) (result_dir : string) :
  let n := List.length (Detector.fetch_all_sessions con) in
  let opening :=
    [print "Fetching all of the active sessions...";
     print ("Found " ++ str (Z.of_nat n) ++ " active sessions")%string] in
  ((forall name, can_write (path_join result_dir name) = true) ->
   exists files,
     Disk.extract_ch4_2 can_write con result_dir
     = (opening ++ files
          ++ [print ("Total sessions processed: "
                       ++ str (Z.of_nat n))%string],
        Ok tt)
     /\ Forall (csv_in result_dir) files
     /\ List.length files = n)
  /\ ((forall name, can_write (path_join result_dir name) = false) ->
      n <> 0%nat ->
      Disk.extract_ch4_2 can_write con result_dir
      = (opening, Raise OSError)).
Proof.
  cbv zeta. unfold Disk.extract_ch4_2, ExtractCh4_2.extract_chamber_ch4.
  destruct (for_range_all_data (data_query con) result_dir
              (Detector.fetch_all_sessions con)
              (detected_nonempty con)
              0 0) as (Hall & Hlen & Hn).
  destruct (ExtractCh4_2.for_range (data_query con) result_dir 0
              (Detector.fetch_all_sessions con) 0) as [es k].
  cbn [fst snd] in *. subst k. cbn [Z.add]. split.
  - intros Hw. exists es.
    rewrite (replay_writable can_write result_dir); [ auto | exact Hw | ].
    do 2 (apply Forall_cons; [ apply print_shape | ]).
    apply Forall_app. split.
    + revert Hall. apply Forall_impl. intros e He. left. exact He.
    + apply Forall_cons; [ apply print_shape | constructor ].
  - intros Hw Hne.
    destruct es as [ | e es]; [ cbn in Hlen; congruence | ].
    inversion Hall as [ | ? ? (name & df & ->) _]; subst.
    cbn [app Disk.replay]. rewrite Hw. reflexivity.
Qed.

Lemma extract_ch4_2_one_file_per_session_witness :
  (exists files,
      Disk.extract_ch4_2 (fun _ => true) Examples.two_chambers "result"
      = ([print "Fetching all of the active sessions...";
          print "Found 3 active sessions"]
           ++ files ++ [print "Total sessions processed: 3"],
         Ok tt)
      /\ Forall (csv_in "result") files
      /\ List.length files = 3%nat)
  /\ Disk.extract_ch4_2 (fun _ => false) Examples.two_chambers "result"
     = ([print "Fetching all of the active sessions...";
         print "Found 3 active sessions"],
        Raise OSError).
Proof.
  split.
  - apply (proj1 (extract_ch4_2_one_file_per_session (fun _ => true)
                    Examples.two_chambers "result")).
    intros name. reflexivity.
  - apply (proj2 (extract_ch4_2_one_file_per_session (fun _ => false)
                    Examples.two_chambers "result")).
    + intros name. reflexivity.
    + vm_compute. discriminate.
Defined.

(** ** More on the segmenting loop *)

Section MoreUnrolled.
Import ExtractCh4 Unrolled.
Variable execute : Session.t -> DataFrame.
Variable time_sample : Z.

Abbreviation body_at := (body_at execute time_sample).
Abbreviation unrolled := (unrolled execute time_sample).

Lemma unrolled_final (rest : list Session.t) :
forall (row : Session.t) (st : state),
  let fin := snd (unrolled st (row :: rest)) in
  dfs fin = [] /\ total_duration fin = 0 /\ segment_count fin = 0.
Proof.
induction rest as [ | n rest' IH]; intros row st;
  rewrite unrolled_cons; cbn [snd].
- unfold Unrolled.body_at. cbn. repeat split.
- apply IH.
Qed.

Lemma unrolled_count (rows : list Session.t) :
forall st, (List.length (fst (unrolled st rows)) <= List.length rows)%nat.
Proof.
induction rows as [ | row rest IH]; intros st; [ cbn; lia | ].
rewrite unrolled_cons. cbn [fst]. rewrite length_app.
specialize (IH (fst (fst (body_at st row rest)))).
destruct (snd (fst (body_at st row rest))); cbn [flushed List.length] in *; lia.
Qed.

Lemma unrolled_numbered (rows : list Session.t) :
forall st, numbered_from (segment_count st) (fst (unrolled st rows)).
Proof.
induction rows as [ | row rest IH]; intros st; [ exact I | ].
rewrite unrolled_cons. cbn [fst].
specialize (IH (fst (fst (body_at st row rest)))).
revert IH. unfold Unrolled.body_at.
destruct (same_chamber_next row rest);
  [ destruct (_ <? _); [ | destruct (_ <? _) ] | ];
  cbn [fst snd flushed app segment_count numbered_from segment_number];
  intros IH.
- exact IH.
- split; [ right; reflexivity | exact IH ].
- split; [ left; reflexivity | exact IH ].
- split; [ left; reflexivity | exact IH ].
Qed.

Lemma numbered_from_adjacent (segs : list segment) :
forall (k : Z) (pre : list segment) (s s' : segment) (post : list segment),
  numbered_from k segs ->
  segs = pre ++ s :: s' :: post ->
  segment_number s' = 0 \/ segment_number s' = segment_number s + 1.
Proof.
induction segs as [ | x segs IH]; intros k pre s s' post Hn Hsegs.
- destruct pre; discriminate Hsegs.
- destruct Hn as [_ Hn]. destruct pre as [ | p pre'].
  + injection Hsegs as -> ->. destruct Hn as [Hn _]. exact Hn.
  + injection Hsegs as _ ->. eapply IH; [ exact Hn | reflexivity ].
Qed.

Lemma numbered_from_nonneg (segs : list segment) :
forall k, 0 <= k -> numbered_from k segs ->
          Forall (fun s => 0 <= segment_number s) segs.
Proof.
induction segs as [ | x segs IH]; intros k Hk Hn; constructor.
- destruct Hn as [[H | H] _]; lia.
- destruct Hn as [[H | H] Hn];
    (apply (IH (segment_number x)); [ lia | exact Hn ]).
Qed.
End MoreUnrolled.

(** X10: below the sample time, with the next session in the same chamber,
    nothing is flushed: the whole frame joins the buffer, the duration is
    added to the total and the segment counter stays. *)
Theorem below_target_accumulates :
  forall (execute : Session.t -> DataFrame) (all pre rest : list Session.t)
         (row n : Session.t) (time_sample : Z) (st : ExtractCh4.state),
    all = pre ++ row :: n :: rest ->
    ExtractCh4.idx st = Z.of_nat (List.length pre) ->
    Session.ChamberID row = Session.ChamberID n ->
    ExtractCh4.total_duration st + Session.duration_seconds row
    < time_sample ->
    exists st',
      ExtractCh4.body execute all time_sample st = Ok (st', None, false)
      /\ ExtractCh4.dfs st' = ExtractCh4.dfs st ++ [execute row]
      /\ ExtractCh4.total_duration st'
         = ExtractCh4.total_duration st + Session.duration_seconds row
      /\ ExtractCh4.segment_count st' = ExtractCh4.segment_count st
      /\ ExtractCh4.idx st' = ExtractCh4.idx st + 1
      /\ ExtractCh4.session_count st' = ExtractCh4.session_count st + 1.
Proof.
  intros execute all pre rest row n time_sample st Hall Hidx Hc Hlt.
  rewrite (body_eq execute time_sample all pre (n :: rest) row st Hall Hidx).
  unfold Unrolled.body_at. cbn [Unrolled.same_chamber_next].
  rewrite (proj2 (Z.eqb_eq _ _) Hc), (proj2 (Z.ltb_lt _ _) Hlt).
  eexists. split; [ reflexivity | ]. cbn. repeat split.
Qed.

Lemma below_target_accumulates_witness :
  exists st',
    ExtractCh4.body Examples.one_hz Examples.chamber7 400 ExtractCh4.initial
    = Ok (st', None, false)
    /\ ExtractCh4.dfs st' = [] ++ [Examples.one_hz (Examples.ses 7 0 150)]
    /\ ExtractCh4.total_duration st' = 0 + 150
    /\ ExtractCh4.segment_count st' = 0
    /\ ExtractCh4.idx st' = 0 + 1
    /\ ExtractCh4.session_count st' = 0 + 1.
Proof.
  apply (below_target_accumulates Examples.one_hz Examples.chamber7 []
           [Examples.ses 7 2000 200; Examples.ses 7 3000 100]
           (Examples.ses 7 0 150) (Examples.ses 7 1000 100) 400
           ExtractCh4.initial);
    reflexivity.
Defined.

(** X11: the loop always ends on a full flush: when it returns, every
    session has been read, the buffer is empty, the total and the segment
    counter are 0, and between one segment and one per session have been
    flushed. *)
Theorem loop_ends_with_empty_buffer :
  forall (execute : Session.t -> DataFrame) (all : list Session.t)
         (time_sample : Z) (fuel : nat),
    all <> [] ->
    (List.length all <= fuel)%nat ->
    exists segs fin,
      ExtractCh4.while_true execute all time_sample fuel ExtractCh4.initial
      = (segs, Returned fin)
      /\ ExtractCh4.idx fin = Z.of_nat (List.length all)
      /\ ExtractCh4.session_count fin = Z.of_nat (List.length all)
      /\ ExtractCh4.dfs fin = []
      /\ ExtractCh4.total_duration fin = 0
      /\ ExtractCh4.segment_count fin = 0
      /\ (1 <= List.length segs <= List.length all)%nat.
Proof.
  intros execute all time_sample fuel Hne Hfuel.
  rewrite (while_true_run execute all time_sample fuel Hne Hfuel).
  eexists. eexists. split; [ reflexivity | ].
  rewrite unrolled_idx, unrolled_session_count.
  destruct all as [ | row rest]; [ congruence | ].
  destruct (unrolled_final execute time_sample rest row ExtractCh4.initial)
    as (Hdfs & Htot & Hseg).
  destruct (unrolled_first execute time_sample rest row ExtractCh4.initial)
    as (s & segs & E & _).
  pose proof (unrolled_count execute time_sample (row :: rest)
                ExtractCh4.initial) as Hcount.
  rewrite E in *. cbn [List.length] in *.
  repeat split; try assumption; lia.
Qed.

Lemma loop_ends_with_empty_buffer_witness :
  exists segs fin,
    ExtractCh4.while_true Examples.one_hz Examples.chamber7 400 4
      ExtractCh4.initial
    = (segs, Returned fin)
    /\ ExtractCh4.idx fin = Z.of_nat (List.length Examples.chamber7)
    /\ ExtractCh4.session_count fin
       = Z.of_nat (List.length Examples.chamber7)
    /\ ExtractCh4.dfs fin = []
    /\ ExtractCh4.total_duration fin = 0
    /\ ExtractCh4.segment_count fin = 0
    /\ (1 <= List.length segs <= List.length Examples.chamber7)%nat.
Proof.
  apply (loop_ends_with_empty_buffer Examples.one_hz Examples.chamber7 400 4).
  - discriminate.
  - cbn. lia.
Defined.

(** X12: the segment numbers follow the counter: the first segment is
    numbered 0 or 1, every later one 0 or one more than the segment before
    it, and no number is negative. *)
Theorem segment_numbers_follow_counter :
  forall (execute : Session.t -> DataFrame) (all : list Session.t)
         (time_sample : Z) (fuel : nat),
    all <> [] ->
    (List.length all <= fuel)%nat ->
    exists segs fin,
      ExtractCh4.while_true execute all time_sample fuel ExtractCh4.initial
      = (segs, Returned fin)
      /\ (forall s rest, segs = s :: rest ->
            ExtractCh4.segment_number s = 0
            \/ ExtractCh4.segment_number s = 1)
      /\ (forall pre s s' post, segs = pre ++ s :: s' :: post ->
            ExtractCh4.segment_number s' = 0
            \/ ExtractCh4.segment_number s'
               = ExtractCh4.segment_number s + 1)
      /\ Forall (fun s => 0 <= ExtractCh4.segment_number s) segs.
Proof.
  intros execute all time_sample fuel Hne Hfuel.
  rewrite (while_true_run execute all time_sample fuel Hne Hfuel).
  eexists. eexists. split; [ reflexivity | ].
  pose proof (unrolled_numbered execute time_sample all ExtractCh4.initial)
    as Hn.
  cbn [ExtractCh4.segment_count ExtractCh4.initial] in Hn.
  split; [ | split ].
  - intros s rest E. rewrite E in Hn. destruct Hn as [Hn _]. exact Hn.
  - intros pre s s' post E.
    apply (numbered_from_adjacent _ 0 pre s s' post Hn E).
  - apply (numbered_from_nonneg _ 0); [ lia | exact Hn ].
Qed.

Lemma segment_numbers_follow_counter_witness :
  exists segs fin,
    ExtractCh4.while_true Examples.one_hz
      [Examples.ses 7 0 1000; Examples.ses 7 2000 300; Examples.ses 7 3000 5]
      400 3 ExtractCh4.initial
    = (segs, Returned fin)
    /\ map ExtractCh4.segment_number segs = [1; 2; 0]
    /\ (forall pre s s' post, segs = pre ++ s :: s' :: post ->
          ExtractCh4.segment_number s' = 0
          \/ ExtractCh4.segment_number s'
             = ExtractCh4.segment_number s + 1).
Proof.
  destruct (segment_numbers_follow_counter Examples.one_hz
              [Examples.ses 7 0 1000; Examples.ses 7 2000 300;
               Examples.ses 7 3000 5] 400 3)
    as (segs & fin & Hrun & _ & Hadj & _).
  - discriminate.
  - cbn. lia.
  - exists segs, fin. split; [ exact Hrun | ]. split; [ | exact Hadj ].
    vm_compute in Hrun. injection Hrun as Hsegs _. rewrite <- Hsegs.
    reflexivity.
Defined.

(** ** The trace of extract_ch4.py *)

Lemma save_shape (result_dir : string) (s : ExtractCh4.segment) :
  nonempty_csv_or_print (ExtractCh4.save result_dir s)
  /\ csv_in_or_print result_dir (ExtractCh4.save result_dir s).
Proof.
  unfold ExtractCh4.save, ExtractCh4.csv_filename.
  destruct (ExtractCh4.combined_df s) as [ | r df]; cbn.
  - split; [ exact I | right; eexists; reflexivity ].
  - split; [ discriminate | left; eexists; eexists; reflexivity ].
Qed.

Lemma saves_shape (result_dir : string) (segs : list ExtractCh4.segment) :
  Forall nonempty_csv_or_print (map (ExtractCh4.save result_dir) segs)
  /\ Forall (csv_in_or_print result_dir)
       (map (ExtractCh4.save result_dir) segs).
Proof.
  split; apply Forall_forall; intros e He; apply in_map_iff in He;
    destruct He as (s & <- & _); apply save_shape.
Qed.

(** A run over sessions that all have data writes at least one file. *)
Lemma some_segment_saved (execute : Session.t -> DataFrame)
  (time_sample : Z) (result_dir : string) (row : Session.t)
  (rest : list Session.t) :
  execute row <> [] ->
  Exists (csv_in result_dir)
    (map (ExtractCh4.save result_dir)
       (fst (Unrolled.unrolled execute time_sample ExtractCh4.initial
               (row :: rest)))).
Proof.
  intros Hrow.
  pose proof (unrolled_rows execute time_sample (Session.ChamberID row)
                (row :: rest) ExtractCh4.initial) as Hrows.
  rewrite carried_initial, session_rows_cons, Z.eqb_refl in Hrows.
  cbn [app] in Hrows.
  set (segs := fst (Unrolled.unrolled execute time_sample ExtractCh4.initial
                      (row :: rest))) in *.
  clearbody segs. unfold Unrolled.segment_rows in Hrows.
  induction segs as [ | s segs IH].
  - cbn in Hrows. destruct (execute row); [ congruence | discriminate Hrows ].
  - cbn [map]. unfold ExtractCh4.save at 1.
    destruct (ExtractCh4.combined_df s) as [ | r df] eqn:E.
    + apply Exists_cons_tl. apply IH. cbn [filter] in Hrows.
      destruct (ExtractCh4.chamber_id s =? Session.ChamberID row);
        [ cbn [map concat] in Hrows; rewrite E in Hrows | ]; exact Hrows.
    + apply Exists_cons_hd. cbn. eexists. eexists. reflexivity.
Qed.

(** X14: run on a table with at least one session, extract_ch4.py returns
    normally when the files of the result directory can be written: after
    its three opening messages it saves or reports at most one segment per
    session, writes at least one file and never an empty one, and closes
    with the number of detected sessions.  When nothing can be written in
    the result directory (the script does not create it), the run ends with
    OSError at the first file: nothing but messages precedes it and the
    exit status is 1. *)
Theorem extract_ch4_trace :
  forall (can_write : string -> bool) (con : connection)
         (result_dir : string) (time_sample : Z) (fuel : nat),
    Detector.fetch_all_sessions con <> [] ->
    (List.length (Detector.fetch_all_sessions con) <= fuel)%nat ->
    let n := Z.of_nat (List.length (Detector.fetch_all_sessions con)) in
    let opening :=
      [print "Fetching all of the active sessions...";
       print ("Found " ++ str n ++ " active sessions")%string;
       print "Fetching data of the active sessions..."] in
    ((forall name, can_write (path_join result_dir name) = true) ->
     exists saved fin,
       Disk.extract_ch4 can_write fuel con result_dir time_sample
       = (opening ++ saved
            ++ [print ("Total sessions processed: " ++ str n)%string],
          Returned fin)
       /\ Forall nonempty_csv_or_print saved
       /\ Exists (csv_in result_dir) saved
       /\ (List.length saved
           <= List.length (Detector.fetch_all_sessions con))%nat
       /\ ExtractCh4.exit_status (Returned fin) = Some 0)
    /\ ((forall name, can_write (path_join result_dir name) = false) ->
        exists msgs,
          Disk.extract_ch4 can_write fuel con result_dir time_sample
          = (opening ++ msgs, Raised OSError)
          /\ Forall (fun e => is_write e = false) msgs
          /\ ExtractCh4.exit_status (Raised OSError) = Some 1).
Proof.
  intros can_write con result_dir time_sample fuel Hne Hfuel n opening.
  unfold Disk.extract_ch4, ExtractCh4.extract_chamber_ch4.
  rewrite (while_true_run (data_query con) (Detector.fetch_all_sessions con)
             time_sample fuel Hne Hfuel).
  rewrite unrolled_session_count.
  cbn [ExtractCh4.session_count ExtractCh4.initial Z.add].
  fold n. fold opening.
  set (segs := fst (Unrolled.unrolled (data_query con) time_sample
                      ExtractCh4.initial (Detector.fetch_all_sessions con))).
  destruct (saves_shape result_dir segs) as [Hne_csv Hshape].
  assert (Hex : Exists (csv_in result_dir)
                  (map (ExtractCh4.save result_dir) segs)).
  { subst segs.
    destruct (Detector.fetch_all_sessions con) as [ | row rest] eqn:E;
      [ congruence | ].
    apply some_segment_saved. apply detected_nonempty.
    rewrite E. left. reflexivity. }
  assert (Hopening : Forall (csv_in_or_print result_dir) opening)
    by (repeat (apply Forall_cons; [ apply print_shape | ]); constructor).
  split.
  - intros Hw.
    rewrite (replay_writable can_write result_dir); [ | exact Hw | ].
    + exists (map (ExtractCh4.save result_dir) segs). eexists.
      split; [ reflexivity | ].
      split; [ exact Hne_csv | ]. split; [ exact Hex | ].
      split; [ | reflexivity ].
      rewrite length_map. subst segs. apply unrolled_count.
    + apply Forall_app. split; [ exact Hopening | ].
      apply Forall_app. split; [ exact Hshape | ].
      apply Forall_cons; [ apply print_shape | constructor ].
  - intros Hw.
    destruct (replay_blocked can_write result_dir
                (map (ExtractCh4.save result_dir) segs
                   ++ [print ("Total sessions processed: " ++ str n)%string])
                Hw) as (msgs & Hr & Hm).
    + apply Forall_app. split; [ exact Hshape | ].
      apply Forall_cons; [ apply print_shape | constructor ].
    + apply Exists_app. left. exact Hex.
    + exists msgs. subst opening. cbn [app Disk.replay]. rewrite Hr.
      split; [ reflexivity | ]. split; [ exact Hm | reflexivity ].
Qed.

Lemma extract_ch4_trace_witness :
  (exists saved fin,
      Disk.extract_ch4 (fun _ => true) 3 Examples.two_chambers "result" 400
      = ([print "Fetching all of the active sessions...";
          print "Found 3 active sessions";
          print "Fetching data of the active sessions..."]
           ++ saved
           ++ [print "Total sessions processed: 3"],
         Returned fin)
      /\ Forall nonempty_csv_or_print saved
      /\ Exists (csv_in "result") saved
      /\ (List.length saved <= 3)%nat
      /\ ExtractCh4.exit_status (Returned fin) = Some 0)
  /\ (exists msgs,
         Disk.extract_ch4 (fun _ => false) 3 Examples.two_chambers "result"
           400
         = ([print "Fetching all of the active sessions...";
             print "Found 3 active sessions";
             print "Fetching data of the active sessions..."] ++ msgs,
            Raised OSError)
         /\ Forall (fun e => is_write e = false) msgs
         /\ ExtractCh4.exit_status (Raised OSError) = Some 1).
Proof.
  split.
  - apply (proj1 (extract_ch4_trace (fun _ => true) Examples.two_chambers
                    "result" 400 3
                    ltac:(vm_compute; discriminate)
                    ltac:(vm_compute; lia))).
    intros name. reflexivity.
  - apply (proj2 (extract_ch4_trace (fun _ => false) Examples.two_chambers
                    "result" 400 3
                    ltac:(vm_compute; discriminate)
                    ltac:(vm_compute; lia))).
    intros name. reflexivity.
Defined.

(** ** Strings and file names *)

Lemma str_inj (a b : Z) : str a = str b -> a = b.
Proof.
  unfold str. intros H. apply DecimalZ.to_int_inj.
  assert (Hnz : forall z, Z.to_int z <> Decimal.Pos Decimal.Nil
                          /\ Z.to_int z <> Decimal.Neg Decimal.Nil).
  { intros [ | p | p]; cbn; split; try discriminate;
      intros [= E]; exact (DecimalPos.Unsigned.to_uint_nonnil p E). }
  assert (Some (Z.to_int a) = Some (Z.to_int b)) as [= E]; [ | exact E ].
  rewrite <- (NilZero.isi (Z.to_int a)), <- (NilZero.isi (Z.to_int b));
    try apply Hnz.
  rewrite H. reflexivity.
Qed.

Lemma uint_no_underscore (d : Decimal.uint) :
  has_char "_" (NilEmpty.string_of_uint d) = false.
Proof. induction d; cbn; try assumption; reflexivity. Qed.

Lemma uint_no_dot (d : Decimal.uint) :
  has_char "." (NilEmpty.string_of_uint d) = false.
Proof. induction d; cbn; try assumption; reflexivity. Qed.

Lemma str_no_underscore (z : Z) : has_char "_" (str z) = false.
Proof.
  unfold str, NilZero.string_of_int, NilZero.string_of_uint.
  destruct (Z.to_int z) as [d | d]; destruct d; cbn;
    try reflexivity; apply uint_no_underscore.
Qed.

Lemma str_no_dot (z : Z) : has_char "." (str z) = false.
Proof.
  unfold str, NilZero.string_of_int, NilZero.string_of_uint.
  destruct (Z.to_int z) as [d | d]; destruct d; cbn;
    try reflexivity; apply uint_no_dot.
Qed.

Lemma split_at_char (ch : ascii) (s1 : string) :
  forall (s2 t1 t2 : string),
    has_char ch s1 = false ->
    has_char ch s2 = false ->
    (s1 ++ String ch t1)%string = (s2 ++ String ch t2)%string ->
    s1 = s2 /\ t1 = t2.
Proof.
  induction s1 as [ | c s1 IH]; intros s2 t1 t2 H1 H2 E;
    destruct s2 as [ | c2 s2]; cbn in *.
  - injection E as ->. split; reflexivity.
  - injection E as -> _. rewrite Ascii.eqb_refl in H2. discriminate H2.
  - injection E as -> _. rewrite Ascii.eqb_refl in H1. discriminate H1.
  - injection E as -> E.
    apply orb_false_iff in H1. apply orb_false_iff in H2.
    destruct (IH s2 t1 t2 (proj2 H1) (proj2 H2) E) as [-> ->].
    split; reflexivity.
Qed.

Lemma append_inv_head (s a b : string) :
  (s ++ a)%string = (s ++ b)%string -> a = b.
Proof.
  induction s as [ | c s IH]; cbn; intros E; [ exact E | ].
  injection E as E. apply IH. exact E.
Qed.

Lemma path_join_inj (dir a b : string) :
  path_join dir a = path_join dir b -> a = b.
Proof.
  unfold path_join.
  destruct (String.length dir =? 0)%nat; [ intros E; exact E | ].
  destruct (ends_with_slash dir); intros E.
  - apply append_inv_head in E. exact E.
  - apply append_inv_head in E. cbn in E. injection E as E. exact E.
Qed.

Lemma append_assoc (a b c : string) :
  ((a ++ b) ++ c)%string = (a ++ (b ++ c))%string.
Proof.
  induction a as [ | x a IH]; cbn; [ reflexivity | ].
  rewrite IH. reflexivity.
Qed.

Lemma session_csv_inj (c i c' i' : Z) :
  (ExtractCh4_2.session_key c i ++ ".csv")%string
  = (ExtractCh4_2.session_key c' i' ++ ".csv")%string ->
  c = c' /\ i = i'.
Proof.
  unfold ExtractCh4_2.session_key. cbn [String.append]. intros E.
  injection E as E. rewrite !append_assoc in E. cbn [String.append] in E.
  apply split_at_char in E; try apply str_no_underscore.
  destruct E as [Hc E]. apply str_inj in Hc. split; [ exact Hc | ].
  injection E as E.
  apply (split_at_char "." (str i) (str i') "csv" "csv") in E;
    try apply str_no_dot.
  apply str_inj. apply E.
Qed.

Lemma csv_paths_app (l1 l2 : list event) :
  csv_paths (l1 ++ l2) = csv_paths l1 ++ csv_paths l2.
Proof. unfold csv_paths. apply flat_map_app. Qed.

Lemma for_range_paths (execute : Session.t -> DataFrame)
  (result_dir : string) (rows : list Session.t) :
  forall (i session_count : Z) (p : string),
    In p (csv_paths
            (fst (ExtractCh4_2.for_range execute result_dir i rows
                    session_count))) ->
    exists c j,
      i <= j
      /\ p = path_join result_dir
               (ExtractCh4_2.session_key c j ++ ".csv")%string.
Proof.
  induction rows as [ | row rest IH]; intros i session_count p;
    cbn [ExtractCh4_2.for_range]; [ intros [] | ].
  unfold ExtractCh4_2.body.
  destruct (0 <? List.length (execute row))%nat;
    match goal with
    | |- context [ExtractCh4_2.for_range _ _ (i + 1) rest ?sc] =>
        specialize (IH (i + 1) sc p);
        destruct (ExtractCh4_2.for_range execute result_dir (i + 1) rest sc)
          as [es n]
    end; cbn [fst csv_paths flat_map app In].
  - intros [<- | Hp].
    + exists (Session.ChamberID row), i. split; [ lia | reflexivity ].
    + destruct (IH Hp) as (c & j & Hj & ->). exists c, j. split; [ lia | ].
      reflexivity.
  - intros Hp. destruct (IH Hp) as (c & j & Hj & ->). exists c, j.
    split; [ lia | reflexivity ].
Qed.

(** X15: extract_ch4_2.py never writes two files of one run under the same
    name: the position of the session in the query result is part of the
    name. *)
Theorem extract_ch4_2_distinct_files :
  forall (execute : Session.t -> DataFrame) (result_dir : string)
         (rows : list Session.t) (i session_count : Z) (con : connection),
    NoDup (csv_paths
             (fst (ExtractCh4_2.for_range execute result_dir i rows
                     session_count)))
    /\ NoDup (csv_paths (ExtractCh4_2.extract_chamber_ch4 con result_dir)).
Proof.
  intros execute result_dir rows i session_count con.
  assert (Hloop : forall ex l k sc,
             NoDup (csv_paths
                      (fst (ExtractCh4_2.for_range ex result_dir k l sc)))).
  { intros ex l. induction l as [ | row rest IH]; intros k sc;
      cbn [ExtractCh4_2.for_range]; [ constructor | ].
    unfold ExtractCh4_2.body.
    destruct (0 <? List.length (ex row))%nat;
      match goal with
      | |- context [ExtractCh4_2.for_range _ _ (k + 1) rest ?sc'] =>
          pose proof (for_range_paths ex result_dir rest (k + 1) sc') as Hp;
          specialize (IH (k + 1) sc');
          destruct (ExtractCh4_2.for_range ex result_dir (k + 1) rest sc')
            as [es n]
      end; cbn [fst csv_paths flat_map app] in *; [ | exact IH ].
    constructor; [ | exact IH ].
    intros Hin. destruct (Hp _ Hin) as (c & j & Hj & E).
    apply path_join_inj, session_csv_inj in E. lia. }
  split; [ apply Hloop | ].
  unfold ExtractCh4_2.extract_chamber_ch4.
  specialize (Hloop (data_query con) (Detector.fetch_all_sessions con) 0 0).
  destruct (ExtractCh4_2.for_range (data_query con) result_dir 0
              (Detector.fetch_all_sessions con) 0) as [es n].
  cbn [fst] in Hloop. rewrite !csv_paths_app. cbn [csv_paths flat_map app].
  rewrite app_nil_r. exact Hloop.
Qed.

(** ** extract_ch4_3.py *)

(** X16: the exit status of extract_ch4_3.py depends on the set-up only: it
    is 0 when the database file exists, the connection opens, the
    validation (if asked for) passes and the result directory can be made,
    and 1 otherwise; failing queries, timestamps or file writes do not
    change it. *)
Theorem main_exit_status (w : ExtractCh4_3.world) (a : ExtractCh4_3.args) :
  (snd (ExtractCh4_3.main w a) = 0 \/ snd (ExtractCh4_3.main w a) = 1)
  /\ (snd (ExtractCh4_3.main w a) = 0 <->
      ExtractCh4_3.path_exists w (ExtractCh4_3.db a) = true
      /\ exists c,
          ExtractCh4_3.duckdb_connect w (ExtractCh4_3.db a) = Ok c
          /\ (ExtractCh4_3.validate a = true ->
              snd (ExtractCh4_3.validate_database c) = true)
          /\ ExtractCh4_3.makedirs w (ExtractCh4_3.result_dir a) = Ok tt).
Proof.
  unfold ExtractCh4_3.main.
  destruct (ExtractCh4_3.path_exists w (ExtractCh4_3.db a)); cbn [negb];
    [ | split; [ right; reflexivity | ];
        split; [ discriminate | intros [H _]; discriminate H ] ].
  destruct (ExtractCh4_3.duckdb_connect w (ExtractCh4_3.db a)) as [c | e];
    [ | split; [ right; reflexivity | ];
        split; [ discriminate | intros [_ (c & H & _)]; discriminate H ] ].
  assert (Hrun :
            (exists es,
                ExtractCh4_3.extract_chamber_ch4 w c (ExtractCh4_3.result_dir a)
                = (es, Ok tt))
            /\ ExtractCh4_3.makedirs w (ExtractCh4_3.result_dir a) = Ok tt
            \/ (exists es e,
                   ExtractCh4_3.extract_chamber_ch4 w c
                     (ExtractCh4_3.result_dir a) = (es, Raise e))
               /\ ExtractCh4_3.makedirs w (ExtractCh4_3.result_dir a)
                  <> Ok tt).
  { unfold ExtractCh4_3.extract_chamber_ch4.
    destruct (ExtractCh4_3.makedirs w (ExtractCh4_3.result_dir a))
      as [[] | e].
    - left. split; [ | reflexivity ].
      destruct (ExtractCh4_3.fetch_all_sessions c) as [rows | e];
        [ | eexists; reflexivity ].
      destruct (List.length rows =? 0)%nat; [ eexists; reflexivity | ].
      destruct (ExtractCh4_3.for_range w c (ExtractCh4_3.result_dir a) 0 rows
                  0 0) as [[sc sk] es].
      eexists. reflexivity.
    - right. split; [ eexists; eexists; reflexivity | discriminate ]. }
  destruct (ExtractCh4_3.validate a).
  - destruct (ExtractCh4_3.validate_database c) as [checks valid] eqn:Ev.
    destruct valid; cbn [negb snd].
    + destruct Hrun as [[(es & E) Hd] | [(es & e & E) Hd]]; rewrite E;
        cbn [snd].
      * split; [ left; reflexivity | ].
        split; [ intros _ | reflexivity ].
        split; [ reflexivity | ]. exists c. repeat split; auto.
        intros _. rewrite Ev. reflexivity.
      * split; [ right; reflexivity | ].
        split; [ discriminate | ].
        intros [_ (c' & [= <-] & _ & Hd')]. contradiction.
    + split; [ right; reflexivity | ].
      split; [ discriminate | ].
      intros [_ (c' & [= <-] & Hv & _)]. specialize (Hv eq_refl).
      rewrite Ev in Hv. discriminate Hv.
  - destruct Hrun as [[(es & E) Hd] | [(es & e & E) Hd]]; rewrite E;
      cbn [snd].
    + split; [ left; reflexivity | ].
      split; [ intros _ | reflexivity ].
      split; [ reflexivity | ]. exists c. repeat split; auto.
      discriminate.
    + split; [ right; reflexivity | ].
      split; [ discriminate | ].
      intros [_ (c' & [= <-] & _ & Hd')]. contradiction.
Qed.

Section Run3.
Variable w : ExtractCh4_3.world.
Variable c : ExtractCh4_3.con.
Variable result_dir : string.

Abbreviation body3 := (ExtractCh4_3.body w c result_dir).
Abbreviation for_range3 := (ExtractCh4_3.for_range w c result_dir).

Lemma for_range3_app (pre : list Detector.numbered_session) :
forall (rest : list Detector.numbered_session) (i sc sk : Z),
  for_range3 i (pre ++ rest) sc sk =
    (let '(sc1, sk1, es1) := for_range3 i pre sc sk in
     let '(sc2, sk2, es2) :=
       for_range3 (i + Z.of_nat (List.length pre)) rest sc1 sk1 in
     (sc2, sk2, es1 ++ es2)).
Proof.
induction pre as [ | row pre IH]; intros rest i sc sk.
- cbn [app List.length ExtractCh4_3.for_range Z.of_nat].
  rewrite Z.add_0_r.
  destruct (for_range3 i rest sc sk) as [[sc2 sk2] es2]. reflexivity.
- cbn [app ExtractCh4_3.for_range].
  destruct (body3 i row sc sk) as [[sc1 sk1] es1].
  rewrite IH.
  replace (i + 1 + Z.of_nat (List.length pre))
    with (i + Z.of_nat (List.length (row :: pre)))
    by (cbn [List.length]; lia).
  destruct (for_range3 (i + 1) pre sc1 sk1) as [[sc2 sk2] es2].
  destruct (for_range3 (i + Z.of_nat (List.length (row :: pre))) rest sc2
              sk2) as [[sc3 sk3] es3].
  rewrite app_assoc. reflexivity.
Qed.

Lemma body3_counters (i : Z) (row : Detector.numbered_session) (sc sk : Z) :
let '(sc', sk', _) := body3 i row sc sk in
sc <= sc' /\ sk <= sk'
/\ sc + sk + 1 <= sc' + sk' <= sc + sk + 2
/\ ((forall p, ExtractCh4_3.open_w w p = Ok tt) ->
    sc' + sk' = sc + sk + 1).
Proof.
unfold ExtractCh4_3.body.
destruct (ExtractCh4_3.to_datetime w _) as [s | e]; cbn [bind];
  [ | repeat split; lia ].
destruct (ExtractCh4_3.to_datetime w _) as [s' | e]; cbn [bind];
  [ | repeat split; lia ].
destruct (ExtractCh4_3.execute c row) as [df | e]; [ | repeat split; lia ].
destruct (0 <? List.length df)%nat; [ | repeat split; lia ].
destruct (ExtractCh4_3.open_w w _) as [[] | e] eqn:E.
- repeat split; lia.
- repeat split; try lia. intros H. rewrite H in E. discriminate E.
Qed.
End Run3.

(** X17: the two counters of extract_ch4_3.py's summary never decrease,
    and every session adds one or two to their sum; when no file fails to
    open, every session adds exactly one, so the two counters add up to the
    number of sessions. *)
Theorem summary_counters (w : ExtractCh4_3.world) (c : ExtractCh4_3.con)
  (result_dir : string) (rows : list Detector.numbered_session) :
  forall (i sc sk : Z),
    let '(sc', sk', _) :=
      ExtractCh4_3.for_range w c result_dir i rows sc sk in
    let n := Z.of_nat (List.length rows) in
    sc <= sc' /\ sk <= sk'
    /\ sc + sk + n <= sc' + sk' <= sc + sk + 2 * n
    /\ ((forall p, ExtractCh4_3.open_w w p = Ok tt) ->
        sc' + sk' = sc + sk + n).
Proof.
  induction rows as [ | row rest IH]; intros i sc sk.
  - cbn. repeat split; lia.
  - cbn [ExtractCh4_3.for_range].
    pose proof (body3_counters w c result_dir i row sc sk) as Hb.
    destruct (ExtractCh4_3.body w c result_dir i row sc sk)
      as [[sc1 sk1] es1].
    specialize (IH (i + 1) sc1 sk1).
    destruct (ExtractCh4_3.for_range w c result_dir (i + 1) rest sc1 sk1)
      as [[sc2 sk2] es2].
    cbv zeta in *. cbn [List.length].
    destruct Hb as (H1 & H2 & H3 & H4). destruct IH as (K1 & K2 & K3 & K4).
    repeat split; try lia.
    intros Hopen. specialize (H4 Hopen). specialize (K4 Hopen). lia.
Qed.

(** X18: a session whose data query fails is reported and skipped, and the
    sessions after it are still processed: the trace is what the sessions
    before it produce, the error message, and what the sessions after it
    produce with one more skip counted. *)
Theorem failed_data_query_is_skipped (w : ExtractCh4_3.world)
  (c : ExtractCh4_3.con) (result_dir : string)
  (pre rest : list Detector.numbered_session)
  (row : Detector.numbered_session) (i sc sk : Z) (e : exn) (s1 s2 : Z) :
  ExtractCh4_3.to_datetime w (Session.start_time (Detector.session row))
  = Ok s1 ->
  ExtractCh4_3.to_datetime w (Session.end_time (Detector.session row))
  = Ok s2 ->
  ExtractCh4_3.execute c row = Raise e ->
  ExtractCh4_3.for_range w c result_dir i (pre ++ row :: rest) sc sk =
    (let '(sc1, sk1, es1) :=
       ExtractCh4_3.for_range w c result_dir i pre sc sk in
     let '(sc2, sk2, es2) :=
       ExtractCh4_3.for_range w c result_dir
         (i + Z.of_nat (List.length pre) + 1) rest sc1 (sk1 + 1) in
     (sc2, sk2,
      es1
        ++ print ("Error processing session "
                    ++ str (i + Z.of_nat (List.length pre)) ++ ": "
                    ++ ExtractCh4_3.exn_message e)%string
        :: es2)).
Proof.
  intros Hs He Hx. rewrite for_range3_app.
  destruct (ExtractCh4_3.for_range w c result_dir i pre sc sk)
    as [[sc1 sk1] es1].
  cbn [ExtractCh4_3.for_range]. unfold ExtractCh4_3.body.
  rewrite Hs, He. cbn [bind]. rewrite Hx.
  destruct (ExtractCh4_3.for_range w c result_dir
              (i + Z.of_nat (List.length pre) + 1) rest sc1 (sk1 + 1))
    as [[sc2 sk2] es2].
  reflexivity.
Qed.

Lemma row_number_In (l : list (Z * Z)) :
  forall (prev : option Z) (n c t k : Z),
    0 <= n ->
    In (c, t, k) (Detector.row_number prev n l) ->
    In (c, t) l /\ 1 <= k.
Proof.
  induction l as [ | [c0 t0] tl IH]; intros prev n c t k Hn; cbn;
    [ intros [] | ].
  intros [[= <- <- <-] | H].
  - split; [ left; reflexivity | ].
    destruct prev as [p | ]; [ destruct (p =? c0) | ]; lia.
  - apply IH in H.
    + destruct H as [H Hk]. split; [ right; exact H | exact Hk ].
    + destruct prev as [p | ]; [ destruct (p =? c0) | ]; lia.
Qed.

Lemma numbered_In (b : Detector.boundary) (con : connection) (c t k : Z) :
  In (c, t, k) (Detector.numbered b con) -> on_reading con c t /\ 1 <= k.
Proof.
  unfold Detector.numbered. intros H.
  apply row_number_In in H; [ | lia ]. destruct H as [H Hk].
  split; [ | exact Hk ].
  apply in_map_iff in H. destruct H as ([w o] & [= <- <-] & H).
  apply filter_In in H. destruct H as [H _].
  unfold Detector.session_boundaries in H.
  apply in_map_iff in H. destruct H as (w' & [= <- _] & H).
  apply filter_In in H. destruct H as [H Hf].
  apply andb_prop in Hf. destruct Hf as [Hf _]. apply Z.eqb_eq in Hf.
  apply window_In in H. destruct H as (r & Hin & Hc & Ht & Hs).
  apply order_by_In in Hin. exists r. cbn. repeat split; congruence.
Qed.

Lemma fetch_all_sessions_3_In (con : connection)
  (ns : Detector.numbered_session) :
  In ns (Detector.fetch_all_sessions_3 con) ->
  exists c st en n,
    ns = {| Detector.session := Detector.mk_session c st en;
            Detector.session_num := n |}
    /\ st < en
    /\ In (c, st, n) (Detector.session_starts con)
    /\ In (c, en, n) (Detector.session_ends con).
Proof.
  unfold Detector.fetch_all_sessions_3. intros H.
  apply order_by_In, in_flat_map in H.
  destruct H as ([[c st] n] & Hs & H).
  apply in_flat_map in H. destruct H as ([[c' en] n'] & He & H).
  destruct ((c =? c') && (n =? n') && (st <? en)) eqn:E; [ | destruct H ].
  destruct H as [<- | []].
  apply andb_prop in E. destruct E as [E Hlt].
  apply andb_prop in E. destruct E as [Hc Hn].
  apply Z.eqb_eq in Hc, Hn. apply Z.ltb_lt in Hlt. subst c' n'.
  exists c, st, en, n. repeat split; assumption.
Qed.

(** X19: a session reported by extract_ch4_3.py's query starts and ends on
    a reading of its chamber with status 1, ends after it starts, lasts
    end - start seconds and carries a session number of at least 1. *)
Theorem fetch_all_sessions_3_well_formed (con : connection)
  (ns : Detector.numbered_session) :
  In ns (Detector.fetch_all_sessions_3 con) ->
  let s := Detector.session ns in
  Session.start_time s < Session.end_time s
  /\ Session.duration_seconds s = Session.end_time s - Session.start_time s
  /\ 1 <= Detector.session_num ns
  /\ on_reading con (Session.ChamberID s) (Session.start_time s)
  /\ on_reading con (Session.ChamberID s) (Session.end_time s).
Proof.
  intros H. apply fetch_all_sessions_3_In in H.
  destruct H as (c & st & en & n & -> & Hlt & Hs & He).
  apply numbered_In in Hs, He. cbn.
  repeat split; try lia; tauto.
Qed.

Lemma fetch_all_sessions_3_well_formed_witness :
  In {| Detector.session := Detector.mk_session 1 3 4;
        Detector.session_num := 2 |}
    (Detector.fetch_all_sessions_3 Examples.two_runs)
  /\ 3 < 4
  /\ Session.duration_seconds (Detector.mk_session 1 3 4) = 4 - 3
  /\ 1 <= 2
  /\ on_reading Examples.two_runs 1 3
  /\ on_reading Examples.two_runs 1 4.
Proof.
  assert (H : In {| Detector.session := Detector.mk_session 1 3 4;
                    Detector.session_num := 2 |}
                (Detector.fetch_all_sessions_3 Examples.two_runs))
    by (vm_compute; right; left; reflexivity).
  split; [ exact H | ].
  exact (fetch_all_sessions_3_well_formed Examples.two_runs _ H).
Defined.

Lemma for_range3_all_saved (w : ExtractCh4_3.world) (c : ExtractCh4_3.con)
  (result_dir : string) (rows : list Detector.numbered_session) :
  (forall t, exists d, ExtractCh4_3.to_datetime w t = Ok d) ->
  (forall p, ExtractCh4_3.open_w w p = Ok tt) ->
  (forall row, In row rows ->
     exists df, ExtractCh4_3.execute c row = Ok df /\ df <> []) ->
  forall (i sc sk : Z),
  exists saved,
    ExtractCh4_3.for_range w c result_dir i rows sc sk
    = (sc + Z.of_nat (List.length rows), sk, concat saved)
    /\ Forall2 (saved_session w c result_dir) rows saved.
Proof.
  intros Hclock Hopen.
  induction rows as [ | row rest IH]; intros Hdata i sc sk.
  - exists []. cbn. rewrite Z.add_0_r. split; [ reflexivity | constructor ].
  - cbn [ExtractCh4_3.for_range]. unfold ExtractCh4_3.body.
    destruct (Hclock (Session.start_time (Detector.session row)))
      as (d1 & E1).
    destruct (Hclock (Session.end_time (Detector.session row)))
      as (d2 & E2).
    rewrite E1, E2. cbn [bind].
    destruct (Hdata row (or_introl eq_refl)) as (df & Edf & Hne).
    rewrite Edf.
    destruct df as [ | r df]; [ congruence | ].
    cbn [List.length Nat.ltb Nat.leb]. rewrite Hopen.
    destruct (IH (fun x Hx => Hdata x (or_intror Hx)) (i + 1) (sc + 1) sk)
      as (saved & -> & Hsaved).
    eexists (_ :: saved). split.
    + cbn [concat List.length]. f_equal. f_equal. lia.
    + constructor; [ | exact Hsaved ].
      exists (r :: df), d1. eexists. eexists.
      split; [ exact Edf | ]. split; [ exact E1 | ]. reflexivity.
Qed.

(** X20: when the session query answers at least one session, every data
    query answers at least one row, the time stamps parse, the files open
    and the result directory can be created, extract_ch4_3.py saves every
    session in turn: for each one the header goes to a new file named after
    chamber, session number and start, the frame of its data query is
    appended to that file, and a message follows; the summary reports all
    sessions processed and none skipped. *)
Theorem extract_ch4_3_saves_every_session (w : ExtractCh4_3.world)
  (c : ExtractCh4_3.con) (result_dir : string)
  (rows : list Detector.numbered_session) :
  ExtractCh4_3.makedirs w result_dir = Ok tt ->
  ExtractCh4_3.fetch_all_sessions c = Ok rows ->
  rows <> [] ->
  (forall t, exists d, ExtractCh4_3.to_datetime w t = Ok d) ->
  (forall p, ExtractCh4_3.open_w w p = Ok tt) ->
  (forall row, In row rows ->
     exists df, ExtractCh4_3.execute c row = Ok df /\ df <> []) ->
  let n := Z.of_nat (List.length rows) in
  exists saved,
    ExtractCh4_3.extract_chamber_ch4 w c result_dir
    = ([print "Fetching all active sessions...";
        print ("Found " ++ str n ++ " active sessions")%string]
         ++ concat saved
         ++ [print (ExtractCh4_3.newline ++ "=== Summary ===")%string;
             print ("Total sessions found: " ++ str n)%string;
             print ("Successfully processed: " ++ str n)%string;
             print "Skipped due to errors: 0";
             print ("CSV files saved to: " ++ result_dir)%string],
       Ok tt)
    /\ Forall2 (saved_session w c result_dir) rows saved.
Proof.
  intros Hdirs Hrows Hne Hclock Hopen Hdata n.
  unfold ExtractCh4_3.extract_chamber_ch4. rewrite Hdirs, Hrows.
  fold n.
  destruct (Nat.eqb_spec (List.length rows) 0) as [E | _].
  { destruct rows; [ congruence | discriminate E ]. }
  destruct (for_range3_all_saved w c result_dir rows Hclock Hopen Hdata
              0 0 0) as (saved & -> & Hsaved).
  exists saved. fold n. cbn [Z.add]. split; [ reflexivity | exact Hsaved ].
Qed.

Lemma summary_counters_witness :
  let '(sc', sk', _) :=
    ExtractCh4_3.for_range (Fixtures.working_world Fixtures.flaky_con)
      Fixtures.flaky_con "result" 0
      [Fixtures.first_session; Fixtures.second_session] 0 0 in
  sc' = 1 /\ sk' = 1 /\ sc' + sk' = 0 + 0 + 2.
Proof.
  pose proof (summary_counters (Fixtures.working_world Fixtures.flaky_con)
                Fixtures.flaky_con "result"
                [Fixtures.first_session; Fixtures.second_session] 0 0 0)
    as H.
  destruct (ExtractCh4_3.for_range (Fixtures.working_world Fixtures.flaky_con)
              Fixtures.flaky_con "result" 0
              [Fixtures.first_session; Fixtures.second_session] 0 0)
    as [[sc' sk'] es] eqn:E.
  cbv zeta in H. destruct H as (_ & _ & _ & H).
  specialize (H (fun p => eq_refl)).
  vm_compute in E. injection E as <- <- _.
  split; [ reflexivity | ]. split; [ reflexivity | exact H ].
Defined.

Lemma failed_data_query_is_skipped_witness :
  ExtractCh4_3.for_range (Fixtures.working_world Fixtures.flaky_con)
    Fixtures.flaky_con "result" 0
    [Fixtures.first_session; Fixtures.second_session] 0 0
  = (1, 1,
     [print "Error processing session 0: DataSourceError";
      write_lines "result/Chamber_1_Session_2_3.csv"
        ["# Chamber ID: 1"; "# Session Number: 2"; "# Start Time: 3";
         "# End Time: 4"; "# Duration: 1.0 seconds"; "# Data Points: 2";
         "#"]%string;
      append_csv "result/Chamber_1_Session_2_3.csv"
        [Examples.raw 1 3 1; Examples.raw 1 4 1];
      print "Saved: Chamber_1_Session_2_3.csv (2 records, 1.0s)"]).
Proof.
  change [Fixtures.first_session; Fixtures.second_session]
    with ([] ++ Fixtures.first_session :: [Fixtures.second_session]).
  rewrite (failed_data_query_is_skipped
             (Fixtures.working_world Fixtures.flaky_con) Fixtures.flaky_con
             "result" [] [Fixtures.second_session] Fixtures.first_session
             0 0 0 DataSourceError 0 1 eq_refl eq_refl eq_refl).
  vm_compute. reflexivity.
Defined.

Lemma extract_ch4_3_saves_every_session_witness :
  exists saved,
    ExtractCh4_3.extract_chamber_ch4
      (Fixtures.working_world Fixtures.steady_con) Fixtures.steady_con
      "result"
    = ([print "Fetching all active sessions...";
        print "Found 2 active sessions"]
         ++ concat saved
         ++ [print (ExtractCh4_3.newline ++ "=== Summary ===")%string;
             print "Total sessions found: 2";
             print "Successfully processed: 2";
             print "Skipped due to errors: 0";
             print "CSV files saved to: result"],
       Ok tt)
    /\ Forall2
         (saved_session (Fixtures.working_world Fixtures.steady_con)
            Fixtures.steady_con "result")
         [Fixtures.first_session; Fixtures.second_session] saved.
Proof.
  apply (extract_ch4_3_saves_every_session
           (Fixtures.working_world Fixtures.steady_con) Fixtures.steady_con
           "result" [Fixtures.first_session; Fixtures.second_session]).
  - reflexivity.
  - vm_compute. reflexivity.
  - discriminate.
  - intros t. exists t. reflexivity.
  - intros p. reflexivity.
  - intros row [<- | [<- | []]]; eexists; (split; [ reflexivity | ]);
      vm_compute; discriminate.
Defined.

(** ** validate_database *)

Lemma mem_In (x : string) (l : list string) :
  Validate.mem x l = true <-> In x l.
Proof.
  unfold Validate.mem. rewrite existsb_exists. split.
  - intros (y & Hy & E). apply String.eqb_eq in E. subst y. exact Hy.
  - intros H. exists x. split; [ exact H | apply String.eqb_refl ].
Qed.

(** X21: validate_database never raises and only prints; it answers True
    exactly when SHOW TABLES lists JAAR_raw, DESCRIBE shows the five
    expected columns and the summary query succeeds.  When columns are
    missing, its message lists the missing expected columns, in the order
    of the expected list. *)
Theorem validate_database_verdict (report : Validate.summary -> list string)
  (c : Validate.catalog) :
  Forall (fun e => is_write e = false)
    (fst (Validate.validate_database report c))
  /\ (snd (Validate.validate_database report c) = true <->
      exists tables columns s,
        Validate.show_tables c = Ok tables
        /\ In "JAAR_raw"%string tables
        /\ Validate.describe c = Ok columns
        /\ (forall col, In col Validate.expected_cols -> In col columns)
        /\ Validate.summarize c = Ok s)
  /\ (forall tables columns col,
         Validate.show_tables c = Ok tables ->
         In "JAAR_raw"%string tables ->
         Validate.describe c = Ok columns ->
         In col Validate.expected_cols ->
         ~ In col columns ->
         Validate.validate_database report c
         = ([print ("Error: Missing columns in JAAR_raw: "
                      ++ Validate.repr
                           (filter (fun x => negb (Validate.mem x columns))
                              Validate.expected_cols))%string],
            false)).
Proof.
  unfold Validate.validate_database.
  destruct (Validate.show_tables c) as [tables | e].
  2:{ split; [ repeat constructor | ].
      split; [ split; [ discriminate | intros (t & _ & _ & H & _); discriminate H ] | ].
      intros t cs col H. discriminate H. }
  destruct (Validate.mem "JAAR_raw" tables) eqn:Ht; cbn [negb].
  2:{ split; [ repeat constructor | ].
      split.
      - split; [ discriminate | ].
        intros (t & _ & _ & [= <-] & Hin & _).
        apply mem_In in Hin. congruence.
      - intros t cs col [= <-] Hin. apply mem_In in Hin. congruence. }
  destruct (Validate.describe c) as [columns | e].
  2:{ split; [ repeat constructor | ].
      split; [ split; [ discriminate
                      | intros (_ & cs & _ & _ & _ & H & _); discriminate H ] | ].
      intros t cs col _ _ H. discriminate H. }
  destruct (filter (fun col => negb (Validate.mem col columns))
              Validate.expected_cols) as [ | m ms] eqn:Hm.
  - assert (Hall : forall col, In col Validate.expected_cols -> In col columns).
    { intros col Hcol. apply mem_In.
      destruct (Validate.mem col columns) eqn:E; [ reflexivity | ].
      assert (Hin : In col (filter (fun x => negb (Validate.mem x columns))
                              Validate.expected_cols)).
      { apply filter_In. split; [ exact Hcol | ]. rewrite E. reflexivity. }
      rewrite Hm in Hin. destruct Hin. }
    destruct (Validate.summarize c) as [s | e].
    + split.
      { constructor; [ reflexivity | ].
        apply Forall_forall. intros ev Hev. apply in_map_iff in Hev.
        destruct Hev as (x & <- & _). reflexivity. }
      split.
      * split; [ intros _ | reflexivity ].
        exists tables, columns, s. repeat split; try assumption.
        apply mem_In. exact Ht.
      * intros t cs col _ _ [= <-] Hcol Hnot. exfalso. apply Hnot.
        apply Hall. exact Hcol.
    + split; [ repeat constructor | ].
      split; [ split; [ discriminate
                      | intros (_ & _ & s & _ & _ & _ & _ & H); discriminate H ] | ].
      intros t cs col _ _ [= <-] Hcol Hnot. exfalso. apply Hnot.
      apply Hall. exact Hcol.
  - split; [ repeat constructor | ].
    split.
    + split; [ discriminate | ].
      intros (_ & cs & _ & _ & _ & [= <-] & Hall & _).
      assert (Hin : In m (filter (fun col => negb (Validate.mem col columns))
                            Validate.expected_cols))
        by (rewrite Hm; left; reflexivity).
      apply filter_In in Hin. destruct Hin as [Hin Hneg].
      apply Hall, mem_In in Hin. rewrite Hin in Hneg. discriminate Hneg.
    + intros t cs col _ _ [= <-] _ _. rewrite Hm. reflexivity.
Qed.

Lemma validate_database_verdict_witness :
  Validate.validate_database (fun _ => [])
    {| Validate.show_tables := Ok ["JAAR_raw"%string];
       Validate.describe :=
         Ok ["TIMESTAMP"; "ChamberID"; "ChamberStatus"]%string;
       Validate.summarize := Raise DataSourceError |}
  = ([print "Error: Missing columns in JAAR_raw: ['ChamberTC', 'CH4']"],
     false).
Proof.
  apply (proj2 (proj2 (validate_database_verdict (fun _ => [])
                         {| Validate.show_tables := Ok ["JAAR_raw"%string];
                            Validate.describe :=
                              Ok ["TIMESTAMP"; "ChamberID";
                                  "ChamberStatus"]%string;
                            Validate.summarize := Raise DataSourceError |}))
           ["JAAR_raw"%string]
           ["TIMESTAMP"; "ChamberID"; "ChamberStatus"]%string
           "CH4"%string).
  - reflexivity.
  - left. reflexivity.
  - reflexivity.
  - do 4 right. left. reflexivity.
  - intros [H | [H | [H | []]]]; discriminate H.
Defined.

(** ** extract_chambers.py *)

Section ChambersFacts.
Import ExtractChambers.



Lemma wide_query_In (tb : list Wide.t) (c lo hi : Z) (r : Wide.t) :
  In r (ExtractChambers.data_query tb c lo hi) <->
  In r tb /\ Wide.ChamberID r = c /\ lo <= Wide.TIMESTAMP r <= hi.
Proof.
  unfold ExtractChambers.data_query.
  rewrite order_by_In, filter_In, !andb_true_iff.
  rewrite Z.eqb_eq, !Z.leb_le. tauto.
Qed.

Lemma narrow_reading (tb : list Wide.t) (c t : Z) :
  active_reading (map narrow tb) c t ->
  exists r, In r tb /\ Wide.ChamberID r = c /\ Wide.TIMESTAMP r = t
            /\ Wide.ChamberStatus r <> 0.
Proof.
  intros (x & Hin & Hc & Ht & Hs).
  apply in_map_iff in Hin. destruct Hin as (r & <- & Hin).
  exists r. cbn in *. repeat split; assumption.
Qed.

Lemma period_shape (tb : list Wide.t) (p : Session.t) :
  In p (Detector.active_periods_query (map narrow tb)) ->
  Session.start_time p < Session.end_time p
  /\ exists r, In r tb /\ Wide.ChamberID r = Session.ChamberID p
               /\ Wide.TIMESTAMP r = Session.start_time p
               /\ Wide.ChamberStatus r <> 0.
Proof.
  unfold Detector.active_periods_query. intros H.
  apply order_by_In, in_flat_map in H. destruct H as ([c t] & Hp & H).
  apply in_map_iff in H. destruct H as ([c' e] & <- & H).
  apply filter_In in H. destruct H as [_ Hf]. cbn in Hf.
  apply andb_prop in Hf. destruct Hf as [_ Ht]. apply Z.ltb_lt in Ht.
  cbn. split; [ exact Ht | ].
  apply narrow_reading. apply (session_start_active _ (c, t) Hp).
Qed.

(** X22: the data query of extract_chambers.py returns the readings of the
    chamber from 5 seconds before the start to 5 seconds after the end of
    the period, ordered by time; for a period detected on the same table
    it holds every reading of the period itself and is never empty, so the
    "No data found" branch is not taken. *)
Theorem buffered_data_query (tb : list Wide.t) (p : Session.t) :
  In p (Detector.active_periods_query (map narrow tb)) ->
  let df :=
    ExtractChambers.data_query tb (Session.ChamberID p)
      (Session.start_time p - 5) (Session.end_time p + 5) in
  df <> []
  /\ Sorted (fun a b => Wide.TIMESTAMP a <= Wide.TIMESTAMP b) df
  /\ (forall r,
         In r df <->
         In r tb
         /\ Wide.ChamberID r = Session.ChamberID p
         /\ Session.start_time p - 5 <= Wide.TIMESTAMP r
            <= Session.end_time p + 5)
  /\ (forall r,
         In r tb ->
         Wide.ChamberID r = Session.ChamberID p ->
         Session.start_time p <= Wide.TIMESTAMP r <= Session.end_time p ->
         In r df).
Proof.
  intros Hp df. destruct (period_shape tb p Hp) as (Hlt & r0 & Hin & Hc & Ht & _).
  split; [ | split; [ | split ] ].
  - assert (Hr : In r0 df) by (apply wide_query_In; repeat split; try assumption; lia).
    intros E. rewrite E in Hr. destruct Hr.
  - subst df. unfold ExtractChambers.data_query.
    apply Sorted_weaken
      with (R := fun a b => (Wide.TIMESTAMP a <=? Wide.TIMESTAMP b) = true).
    + intros a b. apply Z.leb_le.
    + apply order_by_sorted. intros a b H.
      apply Z.leb_gt in H. apply Z.leb_le. lia.
  - intros r. apply wide_query_In.
  - intros r Hr Hrc Hrt. apply wide_query_In. repeat split; try assumption; lia.
Qed.

Lemma buffered_data_query_witness :
  In (Detector.mk_session 2 10 12)
    (Detector.active_periods_query (map narrow ChamberFixtures.two_chambers))
  /\ (let df :=
        ExtractChambers.data_query ChamberFixtures.two_chambers 2 (10 - 5)
          (12 + 5) in
      df <> []
      /\ Sorted (fun a b => Wide.TIMESTAMP a <= Wide.TIMESTAMP b) df
      /\ (forall r,
             In r df <->
             In r ChamberFixtures.two_chambers
             /\ Wide.ChamberID r = 2
             /\ 10 - 5 <= Wide.TIMESTAMP r <= 12 + 5)
      /\ (forall r,
             In r ChamberFixtures.two_chambers ->
             Wide.ChamberID r = 2 ->
             10 <= Wide.TIMESTAMP r <= 12 ->
             In r df)).
Proof.
  assert (H : In (Detector.mk_session 2 10 12)
                (Detector.active_periods_query
                   (map narrow ChamberFixtures.two_chambers)))
    by (vm_compute; do 3 right; left; reflexivity).
  split; [ exact H | ].
  exact (buffered_data_query ChamberFixtures.two_chambers _ H).
Defined.







Section Periods.
Variable F : Type.
Variable mean : list Z -> F.
Variable tb : list Wide.t.
Variable output_dir : string.

End Periods.



Section Summary.
Variable F : Type.
Variable mean : list Z -> F.
Variable tb : list Wide.t.
Variable output_dir : string.




End Summary.




End ChambersFacts.

(** ** Sessions as maximal runs of active readings *)


Section WalkFacts.
Import Walk.

Lemma fetch_all_sessions_paired (con : connection) :
Detector.fetch_all_sessions con
= Detector.order_by Detector.session_le
    (flat_map (paired (ends None (Detector.order_by Detector.key_le con)))
       (starts None (Detector.order_by Detector.key_le con))).
Proof. reflexivity. Qed.

Lemma window_cons (prev : option Raw.t) (r : Raw.t) (tl : list Raw.t) :
Detector.window prev (r :: tl)
= {| Detector.ChamberID := Raw.ChamberID r;
     Detector.TIMESTAMP := Raw.TIMESTAMP r;
     Detector.ChamberStatus := Raw.ChamberStatus r;
     Detector.prev_status := Detector.same_partition r prev;
     Detector.next_status := Detector.same_partition r (hd_error tl) |}
    :: Detector.window (Some r) tl.
Proof. reflexivity. Qed.

Lemma is_end_last_of_run (prev : option Raw.t) (r : Raw.t) (tl : list Raw.t) :
Raw.ChamberStatus r <> 0 ->
is_end {| Detector.ChamberID := Raw.ChamberID r;
          Detector.TIMESTAMP := Raw.TIMESTAMP r;
          Detector.ChamberStatus := Raw.ChamberStatus r;
          Detector.prev_status := Detector.same_partition r prev;
          Detector.next_status := Detector.same_partition r (hd_error tl) |}
= last_of_run r tl.
Proof.
intros Hs. unfold is_end, last_of_run. cbn.
rewrite (proj2 (Z.eqb_neq _ _) Hs). cbn [negb andb].
destruct tl as [ | n tl']; cbn; [ reflexivity | ].
destruct (Raw.ChamberID n =? Raw.ChamberID r); reflexivity.
Qed.

Lemma starts_In (l : list Raw.t) :
forall (prev : option Raw.t) (st : Z * Z),
  In st (starts prev l) ->
  exists x, In x l /\ st = (Raw.ChamberID x, Raw.TIMESTAMP x).
Proof.
intros prev st H. unfold starts in H.
apply in_map_iff in H. destruct H as (w & <- & H).
apply filter_In in H. destruct H as [H _].
apply window_In in H. destruct H as (x & Hx & Hc & Ht & _).
exists x. split; [ exact Hx | ]. unfold key. congruence.
Qed.

Lemma ends_In (l : list Raw.t) :
forall (prev : option Raw.t) (e : Z * Z),
  In e (ends prev l) ->
  exists x, In x l /\ e = (Raw.ChamberID x, Raw.TIMESTAMP x).
Proof.
intros prev e H. unfold ends in H.
apply in_map_iff in H. destruct H as (w & <- & H).
apply filter_In in H. destruct H as [H _].
apply window_In in H. destruct H as (x & Hx & Hc & Ht & _).
exists x. split; [ exact Hx | ]. unfold key. congruence.
Qed.

Lemma lateral_drop (e : Z * Z) (E : list (Z * Z)) (s : Z * Z) :
(fst e =? fst s) && (snd s <? snd e) = false ->
Detector.lateral (e :: E) s = Detector.lateral E s.
Proof. intros H. unfold Detector.lateral. cbn [filter]. rewrite H. reflexivity. Qed.

Lemma lateral_pick (e : Z * Z) (E : list (Z * Z)) (s : Z * Z) :
fst e = fst s ->
snd s < snd e ->
(forall e', In e' E -> fst e' = fst s -> snd s < snd e' -> snd e <= snd e') ->
Detector.lateral (e :: E) s = Some (snd e).
Proof.
intros Hc Hlt Hmin. unfold Detector.lateral. cbn [filter].
rewrite Hc, Z.eqb_refl, (proj2 (Z.ltb_lt _ _) Hlt). cbn [andb map].
set (rest := map snd (filter (fun e0 => (fst e0 =? fst s) && (snd s <? snd e0)) E)).
destruct (hd_error (Detector.order_by Z.leb (snd e :: rest))) as [m | ] eqn:Hm.
- apply order_by_leb_head in Hm. destruct Hm as [Hin Hle].
  f_equal. destruct Hin as [<- | Hin]; [ reflexivity | ].
  specialize (Hle (snd e) (or_introl eq_refl)).
  subst rest. apply in_map_iff in Hin. destruct Hin as (e' & <- & Hin).
  apply filter_In in Hin. destruct Hin as [Hin Hf].
  apply andb_prop in Hf. destruct Hf as [Hc' Hlt'].
  apply Z.eqb_eq in Hc'. apply Z.ltb_lt in Hlt'.
  specialize (Hmin e' Hin Hc' Hlt'). lia.
- exfalso.
  assert (Hl : List.length (Detector.order_by Z.leb (snd e :: rest))
               = S (List.length rest))
    by (rewrite order_by_length; reflexivity).
  destruct (Detector.order_by Z.leb (snd e :: rest));
    [ discriminate Hl | discriminate Hm ].
Qed.
End WalkFacts.

Section WalkProof.
Import Walk.

Lemma starts_cons (prev : option Raw.t) (r : Raw.t) (tl : list Raw.t) :
starts prev (r :: tl)
= (if negb (Raw.ChamberStatus r =? 0)
      && Detector.eq_or_null (Detector.same_partition r prev) 0
   then [(Raw.ChamberID r, Raw.TIMESTAMP r)] else [])
    ++ starts (Some r) tl.
Proof.
unfold starts. rewrite window_cons. cbn [filter]. unfold is_start at 1.
cbn [Detector.ChamberStatus Detector.prev_status].
destruct (negb (Raw.ChamberStatus r =? 0)
          && Detector.eq_or_null (Detector.same_partition r prev) 0);
  reflexivity.
Qed.

Lemma ends_cons (prev : option Raw.t) (r : Raw.t) (tl : list Raw.t) :
ends prev (r :: tl)
= (if negb (Raw.ChamberStatus r =? 0) && last_of_run r tl
   then [(Raw.ChamberID r, Raw.TIMESTAMP r)] else [])
    ++ ends (Some r) tl.
Proof.
unfold ends. rewrite window_cons. cbn [filter].
destruct (Raw.ChamberStatus r =? 0) eqn:Hs.
- unfold is_end at 1. cbn [Detector.ChamberStatus]. rewrite Hs. reflexivity.
- apply Z.eqb_neq in Hs. rewrite (is_end_last_of_run prev r tl Hs).
  cbn [negb andb]. destruct (last_of_run r tl); reflexivity.
Qed.

Lemma no_lone_cons (prev : option Raw.t) (r : Raw.t) (tl : list Raw.t) :
no_lone prev (r :: tl) ->
(Raw.ChamberStatus r <> 0 ->
 Detector.eq_or_null (Detector.same_partition r prev) 0 = true ->
 last_of_run r tl = false)
/\ no_lone (Some r) tl.
Proof.
unfold no_lone. rewrite window_cons. intros H.
inversion H as [ | w ws Hw Hws]; subst. split; [ | exact Hws ].
intros Hs Hp. rewrite <- (is_end_last_of_run prev r tl Hs).
unfold is_start in Hw. cbn [Detector.ChamberStatus Detector.prev_status] in Hw.
rewrite (proj2 (Z.eqb_neq _ _) Hs), Hp in Hw. exact Hw.
Qed.

Lemma after_key (r : Raw.t) (tl : list Raw.t) (k : Z * Z) :
Forall (key_lt r) tl ->
(exists x, In x tl /\ k = (Raw.ChamberID x, Raw.TIMESTAMP x)) ->
Raw.ChamberID r < fst k
\/ (Raw.ChamberID r = fst k /\ Raw.TIMESTAMP r < snd k).
Proof.
intros Hr (x & Hx & ->). rewrite Forall_forall in Hr.
exact (Hr x Hx).
Qed.

Lemma flat_map_ext_In {A B : Type} (f g : A -> list B) (l : list A) :
(forall a, In a l -> f a = g a) -> flat_map f l = flat_map g l.
Proof.
induction l as [ | x tl IH]; intros H; cbn; [ reflexivity | ].
rewrite (H x (or_introl eq_refl)), IH; [ reflexivity | ].
intros a Ha. apply H. right. exact Ha.
Qed.

Lemma walk_paired (l : list Raw.t) :
forall (prev : option Raw.t) (open : option Z),
  StronglySorted key_lt l ->
  before prev l ->
  no_lone prev l ->
  in_step open prev l ->
  flat_map (paired (ends prev l)) (pending open prev ++ starts prev l)
  = walk open l.
Proof.
induction l as [ | r tl IH]; intros prev open Hss Hbefore Hlone Hstep.
- destruct open as [s | ].
  + destruct Hstep as (p & n & tl & _ & E & _). discriminate E.
  + reflexivity.
- inversion Hss as [ | r' tl' Hss' Hr]; subst.
  destruct (no_lone_cons prev r tl Hlone) as [Hnot_lone Hlone'].
  rewrite starts_cons, ends_cons. cbn [walk].
  destruct (Raw.ChamberStatus r =? 0) eqn:Hs.
  + (* an idle reading *)
    apply Z.eqb_eq in Hs. cbn [negb andb app].
    destruct open as [s | ].
    * destruct Hstep as (p & n & tl0 & _ & [= <- <-] & _ & _ & _ & Hn).
      congruence.
    * cbn [pending app]. apply (IH (Some r) None); try assumption.
      destruct tl as [ | n tl0]; [ exact I | ]. cbn. intros _.
      rewrite Hs. destruct (Raw.ChamberID r =? Raw.ChamberID n); reflexivity.
  + (* an active reading *)
    apply Z.eqb_neq in Hs. cbn [negb andb].
    destruct open as [s | ].
    * destruct Hstep as (p & n & tl0 & -> & [= <- <-] & Hsp & Hp & Hc & _).
      cbn [before] in Hbefore. inversion Hbefore as [ | ? ? Hpr _]; subst.
      assert (Hts : Raw.TIMESTAMP p < Raw.TIMESTAMP r)
        by (destruct Hpr as [H | [_ H]]; [ lia | exact H ]).
      cbn [Detector.same_partition pending]. rewrite <- Hc, Z.eqb_refl.
      cbn [Detector.eq_or_null]. rewrite (proj2 (Z.eqb_neq _ _) Hp).
      cbn [app].
      destruct (last_of_run r tl) eqn:Hlast.
      -- (* the run ends here *)
         cbn [app flat_map]. unfold paired at 1.
         rewrite (lateral_pick (Raw.ChamberID r, Raw.TIMESTAMP r)
                    (ends (Some r) tl) (Raw.ChamberID r, s)).
         ++ rewrite (proj2 (Z.ltb_lt s (Raw.TIMESTAMP r))) by lia.
            cbn [fst snd app]. f_equal.
            rewrite <- (IH (Some r) None Hss' Hr Hlone'). 
            ** cbn [pending app]. apply flat_map_ext_In.
               intros st Hst. unfold paired. rewrite lateral_drop;
                 [ reflexivity | ].
               destruct (after_key r tl st Hr (starts_In tl _ st Hst))
                 as [H | [H1 H2]]; cbn [fst snd].
               --- replace (Raw.ChamberID r =? fst st) with false
                     by (symmetry; apply Z.eqb_neq; lia).
                   reflexivity.
               --- replace (snd st <? Raw.TIMESTAMP r) with false
                     by (symmetry; apply Z.ltb_ge; lia).
                   apply andb_false_r.
            ** destruct tl as [ | n tl0]; [ exact I | ]. cbn. intros Hn.
               cbn in Hlast. apply orb_prop in Hlast.
               destruct Hlast as [H | H].
               --- apply negb_true_iff, Z.eqb_neq in H.
                   replace (Raw.ChamberID r =? Raw.ChamberID n) with false
                     by (symmetry; apply Z.eqb_neq; congruence).
                   reflexivity.
               --- apply Z.eqb_eq in H. congruence.
         ++ reflexivity.
         ++ cbn [snd]. lia.
         ++ intros e' He' Hce _. cbn [fst snd] in *.
            destruct (after_key r tl e' Hr (ends_In tl _ e' He'))
              as [H | [H1 H2]]; lia.
      -- (* the run goes on *)
         cbn [app].
         destruct tl as [ | n tl0]; [ discriminate Hlast | ].
         cbn in Hlast. apply orb_false_iff in Hlast.
         destruct Hlast as [Hcn Hsn].
         apply negb_false_iff, Z.eqb_eq in Hcn. apply Z.eqb_neq in Hsn.
         rewrite <- (IH (Some r) (Some s) Hss' Hr Hlone').
         ++ cbn [pending]. reflexivity.
         ++ exists r, n, tl0. repeat split; try assumption. lia.
    * (* a run starts here *)
      cbn [in_step] in Hstep. specialize (Hstep Hs). rewrite Hstep.
      specialize (Hnot_lone Hs Hstep). rewrite Hnot_lone.
      cbn [app pending].
      destruct tl as [ | n tl0]; [ discriminate Hnot_lone | ].
      cbn in Hnot_lone. apply orb_false_iff in Hnot_lone.
      destruct Hnot_lone as [Hcn Hsn].
      apply negb_false_iff, Z.eqb_eq in Hcn. apply Z.eqb_neq in Hsn.
      rewrite <- (IH (Some r) (Some (Raw.TIMESTAMP r)) Hss' Hr Hlone').
      -- cbn [pending]. destruct prev; reflexivity.
      -- exists r, n, tl0. repeat split; try assumption. lia.
Qed.
End WalkProof.

Section WalkOrder.
Import Walk.

Lemma order_by_sorted_id {A : Type} (le : A -> A -> bool) (l : list A) :
Sorted (fun a b => le a b = true) l -> Detector.order_by le l = l.
Proof.
unfold Detector.order_by. induction 1 as [ | x tl Hs IH Hhd]; cbn;
  [ reflexivity | ].
rewrite IH. destruct Hhd as [ | y tl' Hxy]; cbn; [ reflexivity | ].
rewrite Hxy. reflexivity.
Qed.

Lemma key_le_total (a b : Raw.t) :
Detector.key_le a b = false -> Detector.key_le b a = true.
Proof.
unfold Detector.key_le. intros H.
apply orb_false_iff in H. destruct H as [H1 H2]. apply Z.ltb_ge in H1.
destruct (Z.ltb_spec (Raw.ChamberID b) (Raw.ChamberID a)) as [Hlt | Hge];
  [ reflexivity | ].
assert (E : Raw.ChamberID a = Raw.ChamberID b) by lia.
rewrite E, Z.eqb_refl in *. cbn in *.
apply Z.leb_gt in H2. apply Z.leb_le. lia.
Qed.

Lemma key_le_true (a b : Raw.t) :
Detector.key_le a b = true <->
Raw.ChamberID a < Raw.ChamberID b
\/ (Raw.ChamberID a = Raw.ChamberID b
    /\ Raw.TIMESTAMP a <= Raw.TIMESTAMP b).
Proof.
unfold Detector.key_le.
rewrite orb_true_iff, andb_true_iff, Z.ltb_lt, Z.eqb_eq, Z.leb_le.
reflexivity.
Qed.

Lemma sorted_table_strict (con : connection) :
NoDup (map reading_key con) ->
StronglySorted key_lt (Detector.order_by Detector.key_le con).
Proof.
intros Hnd.
assert (Hs : StronglySorted (fun a b => Detector.key_le a b = true)
               (Detector.order_by Detector.key_le con)).
{ apply Sorted_StronglySorted.
  - intros a b c Hab Hbc. apply key_le_true in Hab, Hbc.
    apply key_le_true. lia.
  - apply order_by_sorted. exact key_le_total. }
assert (Hnd' : NoDup (map reading_key
                        (Detector.order_by Detector.key_le con))).
{ eapply Permutation_NoDup; [ | exact Hnd ].
  apply Permutation_map, Permutation_sym, order_by_perm. }
induction Hs as [ | x tl Hs IH Hx]; [ constructor | ].
cbn [map] in Hnd'. inversion Hnd' as [ | k ks Hk Hks]; subst.
constructor; [ apply IH; exact Hks | ].
rewrite Forall_forall in *. intros y Hy.
specialize (Hx y Hy). apply key_le_true in Hx.
assert (Hne : reading_key x <> reading_key y).
{ intros E. apply Hk. rewrite E. apply in_map. exact Hy. }
unfold key_lt. unfold reading_key in Hne.
destruct Hx as [Hx | [Hc Ht]]; [ left; exact Hx | right ].
split; [ exact Hc | ].
destruct (Z.eq_dec (Raw.TIMESTAMP x) (Raw.TIMESTAMP y)) as [E | E];
  [ exfalso; apply Hne; congruence | lia ].
Qed.

Lemma no_lone_table (con : connection) :
(forall p, In p (Detector.session_start con) ->
           ~ In p (Detector.session_end con)) ->
no_lone None (Detector.order_by Detector.key_le con).
Proof.
intros H. unfold no_lone. apply Forall_forall. intros w Hw.
destruct (is_start w && is_end w) eqn:E; [ exfalso | reflexivity ].
apply andb_prop in E. destruct E as [Es Ee].
apply (H (key w)).
- unfold Detector.session_start. apply in_map_iff. exists w.
  split; [ reflexivity | ]. apply filter_In. split; assumption.
- unfold Detector.session_end. apply in_map_iff. exists w.
  split; [ reflexivity | ]. apply filter_In. split; assumption.
Qed.

(** Where the sessions of a walk start. *)
Lemma walk_start (l : list Raw.t) :
forall (open : option Z) (b : Session.t),
  In b (walk open l) ->
  (exists x, In x l
             /\ Session.ChamberID b = Raw.ChamberID x
             /\ Session.start_time b = Raw.TIMESTAMP x)
  \/ (exists s r tl, open = Some s /\ l = r :: tl
                     /\ Session.start_time b = s
                     /\ Session.ChamberID b = Raw.ChamberID r).
Proof.
induction l as [ | r tl IH]; intros open b; cbn [walk]; [ intros [] | ].
destruct (Raw.ChamberStatus r =? 0).
- intros H. destruct (IH None b H) as [(x & Hx & H1) | (s & _ & _ & E & _)];
    [ | discriminate E ].
  left. exists x. split; [ right; exact Hx | exact H1 ].
- destruct (last_of_run r tl) eqn:Hlast.
  + intros H. apply in_app_or in H. destruct H as [H | H].
    * destruct open as [s | ].
      -- destruct (s <? Raw.TIMESTAMP r); [ | destruct H ].
         destruct H as [<- | []]. right. exists s, r, tl.
         repeat split.
      -- rewrite Z.ltb_irrefl in H. destruct H.
    * destruct (IH None b H) as [(x & Hx & H1) | (s & _ & _ & E & _)];
        [ | discriminate E ].
      left. exists x. split; [ right; exact Hx | exact H1 ].
  + intros H.
    destruct tl as [ | n tl0]; [ discriminate Hlast | ].
    cbn in Hlast. apply orb_false_iff in Hlast. destruct Hlast as [Hcn _].
    apply negb_false_iff, Z.eqb_eq in Hcn.
    destruct (IH _ b H) as [(x & Hx & H1) | (s & r' & tl' & E & [= <- <-] & H1 & H2)].
    * left. exists x. split; [ right; exact Hx | exact H1 ].
    * destruct open as [s0 | ]; injection E as <-.
      -- right. exists s0, r, (n :: tl0). repeat split; congruence.
      -- left. exists r. split; [ left; reflexivity | ].
         split; congruence.
Qed.

Lemma walk_apart (l : list Raw.t) :
StronglySorted key_lt l ->
forall open, StronglySorted apart (walk open l).
Proof.
induction 1 as [ | r tl Hss IH Hr]; intros open; cbn [walk];
  [ constructor | ].
destruct (Raw.ChamberStatus r =? 0); [ apply IH | ].
destruct (last_of_run r tl); [ | apply IH ].
destruct (_ <? _); cbn [app]; [ | apply IH ].
constructor; [ apply IH | ].
apply Forall_forall. intros b Hb.
destruct (walk_start tl None b Hb) as [(x & Hx & Hc & Ht) | (s & _ & _ & E & _)];
  [ | discriminate E ].
rewrite Forall_forall in Hr. specialize (Hr x Hx).
unfold apart. cbn. rewrite Hc, Ht. exact Hr.
Qed.

Lemma apart_session_le (l : list Session.t) :
Forall (fun s => Session.start_time s < Session.end_time s) l ->
StronglySorted apart l ->
Sorted (fun a b => Detector.session_le a b = true) l.
Proof.
intros Hwf Hs. induction Hs as [ | a tl Hs IH Ha]; [ constructor | ].
inversion Hwf as [ | ? ? Hwa Hwtl]; subst.
constructor; [ apply IH; exact Hwtl | ].
destruct tl as [ | b tl']; constructor.
inversion Ha as [ | ? ? Hab _]; subst.
unfold Detector.session_le. destruct Hab as [H | [H1 H2]].
- rewrite (proj2 (Z.ltb_lt _ _) H). reflexivity.
- rewrite H1, Z.eqb_refl, Z.ltb_irrefl. cbn.
  apply Z.leb_le. lia.
Qed.

Lemma walk_well_formed (l : list Raw.t) :
forall open, Forall (fun s => Session.start_time s < Session.end_time s)
               (walk open l).
Proof.
induction l as [ | r tl IH]; intros open; cbn [walk]; [ constructor | ].
destruct (Raw.ChamberStatus r =? 0); [ apply IH | ].
destruct (last_of_run r tl); [ | apply IH ].
destruct (Z.ltb_spec
            (match open with Some s => s | None => Raw.TIMESTAMP r end)
            (Raw.TIMESTAMP r)) as [Hlt | _]; cbn [app]; [ | apply IH ].
constructor; [ exact Hlt | apply IH ].
Qed.

Lemma fetch_all_sessions_eq_walk (con : connection) :
NoDup (map reading_key con) ->
(forall p, In p (Detector.session_start con) ->
           ~ In p (Detector.session_end con)) ->
Detector.fetch_all_sessions con
= walk None (Detector.order_by Detector.key_le con).
Proof.
intros Hnd Hlone. rewrite fetch_all_sessions_paired.
pose proof (sorted_table_strict con Hnd) as Hss.
pose proof (walk_paired (Detector.order_by Detector.key_le con) None None
              Hss I (no_lone_table con Hlone)) as Hw.
cbn [pending app] in Hw. rewrite Hw.
- apply order_by_sorted_id, apart_session_le.
  + apply walk_well_formed.
  + apply walk_apart. exact Hss.
- destruct (Detector.order_by Detector.key_le con); [ exact I | ].
  intros _. reflexivity.
Qed.
End WalkOrder.

(** X25: on a table where no two readings of a chamber share a time stamp
    and no active reading stands alone (none is both a detected start and a
    detected end), the session query of extract_ch4.py returns exactly the
    maximal runs of active readings, from the first to the last reading of
    each run, in the order of the table; so the sessions of a chamber
    follow each other without overlap. *)
Theorem sessions_are_the_active_runs (con : connection) :
  NoDup (map reading_key con) ->
  (forall p, In p (Detector.session_start con) ->
             ~ In p (Detector.session_end con)) ->
  Detector.fetch_all_sessions con
  = Walk.walk None (Detector.order_by Detector.key_le con)
  /\ StronglySorted apart (Detector.fetch_all_sessions con)
  /\ Forall (fun s => Session.start_time s < Session.end_time s)
       (Detector.fetch_all_sessions con).
Proof.
  intros Hnd Hlone.
  pose proof (fetch_all_sessions_eq_walk con Hnd Hlone) as E.
  split; [ exact E | ]. rewrite E. split.
  - apply walk_apart. apply sorted_table_strict. exact Hnd.
  - apply walk_well_formed.
Qed.

Lemma sessions_are_the_active_runs_witness :
  Detector.fetch_all_sessions Examples.two_chambers
  = Walk.walk None (Detector.order_by Detector.key_le Examples.two_chambers)
  /\ StronglySorted apart (Detector.fetch_all_sessions Examples.two_chambers)
  /\ Forall (fun s => Session.start_time s < Session.end_time s)
       (Detector.fetch_all_sessions Examples.two_chambers).
Proof.
  apply (sessions_are_the_active_runs Examples.two_chambers).
  - vm_compute. repeat constructor; cbn; intuition discriminate.
  - intros p Hs He. vm_compute in Hs, He.
    repeat match goal with
           | H : _ \/ _ |- _ => destruct H
           | H : False |- _ => destruct H
           end; subst; discriminate.
Defined.
